(** * DisplayQueue: the per-display frame pipeline of the hardware composer

    A shallow embedding of [common/display/displayqueue.cpp].  The member
    functions of [DisplayQueue] become functions that take the queue's
    fields and return the updated fields, inside a small effect monad that
    threads the state of the collaborators and the trace of the calls made
    to them.  Classes whose declarations live in headers outside this
    development are represented by records holding one field per accessor
    that [displayqueue.cpp] calls; their mutators and every collaborator
    entry point are fields of the class [Collaborators]. *)

From Stdlib Require Import ZArith Lia Bool List Permutation.
From stdpp Require Import base decidable option list functions.
Import ListNotations.
Open Scope Z_scope.

(** ** Machine integers *)

Module Int.

Definition wrap32 (z : Z) : Z := z mod 2 ^ 32.

(** [uint32_t] to [int32_t] (the two's complement reading). *)
Definition to_signed (z : Z) : Z :=
  let u := wrap32 z in if u <? 2 ^ 31 then u else u - 2 ^ 32.

(** Conversion of a [size_t] or [uint32_t] value to [int]. *)
Definition int_of_nat (n : nat) : Z := to_signed (Z.of_nat n).

(** Conversion of an [int] to [size_t] or [uint32_t], for non-negative
    values; a negative [int] becomes a value beyond every vector size. *)
Definition size_of_int (z : Z) : option nat :=
  if 0 <=? z then Some (Z.to_nat z) else None.

End Int.

(** ** Bit-set state words *)

(** The enumerators of a state word are single bits.  Their positions are
    declared in [displayqueue.h]; a [BitLayout] supplies them, and all that
    is required of it is that distinct enumerators get distinct bits. *)
Class BitLayout (F : Type) := {
  bit_of : F -> N;
  bit_of_inj : forall a b, bit_of a = bit_of b -> a = b
}.

Definition mask {F : Type} `{BitLayout F} (f : F) : Z :=
  Z.shiftl 1 (Z.of_N (bit_of f)).

(** [word & m] used as a condition. *)
Definition has_bits (word m : Z) : bool := negb (Z.land word m =? 0).

(** [word |= m] *)
Definition set_bits (word m : Z) : Z := Z.lor word m.

(** [word &= ~m] *)
Definition clear_bits (word m : Z) : Z := Z.land word (Z.lnot m).

Definition has {F : Type} `{BitLayout F} (word : Z) (f : F) : bool :=
  has_bits word (mask f).

(** ** Data model *)

(** A C++ [float], carried as its bit pattern; its arithmetic is not
    modelled. *)
Definition float := Z.

(** [HwcRect<int>] *)
Module HwcRect.
Record t := { left : Z; top : Z; right : Z; bottom : Z }.
End HwcRect.

(** A [NativeSurface*]: the identity of an offscreen render target. *)
Definition NativeSurface := nat.

(** The caller-owned input layer.  Modelled from the spec: [hwclayer.h] is
    not part of this development; a layer is visible or not, has a display
    frame, receives a release fence, and [rest] stands for everything else
    it carries (buffer, crop, transform, blending, damage, acquire fence). *)
Module HwcLayer.
Record t := {
  IsVisible : bool;
  GetDisplayFrame : HwcRect.t;
  release_fd_ : Z;
  rest : nat
}.

Definition SetReleaseFence (fd : Z) (l : t) : t :=
  {| IsVisible := l.(IsVisible); GetDisplayFrame := l.(GetDisplayFrame);
     release_fd_ := fd; rest := l.(rest) |}.
End HwcLayer.

(** The per-frame snapshot of one layer.  Modelled from the spec:
    [overlaylayer.h] is not part of this development; the record has one
    field per accessor called in [displayqueue.cpp], and [private_data_]
    stands for the remaining state (acquire fence, composition type). *)
Module OverlayLayer.
Inductive LayerComposition := kGpu | kDisplay.

Record t := {
  GetZorder : Z;
  GetLayerIndex : nat;
  IsVisible : bool;
  IsCursorLayer : bool;
  IsVideoLayer : bool;
  CanScanOut : bool;
  NeedsRevalidation : bool;
  NeedsFullDraw : bool;
  HasDimensionsChanged : bool;
  HasSourceRectChanged : bool;
  HasLayerContentChanged : bool;
  RawPixelDataChanged : bool;
  GetDisplayFrame : HwcRect.t;
  GetSourceCrop : float * float * float * float;
  GetSurfaceDamage : HwcRect.t;
  GetBuffer : nat;
  private_data_ : nat
}.
End OverlayLayer.

(** One slot of a plane assignment.  Modelled from the spec:
    [displayplanestate.h] is not part of this development; the record has
    one field per accessor called in [displayqueue.cpp], and [private_data_]
    stands for the remaining state. *)
Module DisplayPlaneState.
Record t := {
  GetDisplayPlane : nat;
  GetSourceLayers : list nat;
  GetSurfaces : list NativeSurface;
  GetOffScreenTarget : option NativeSurface;
  NeedsOffScreenComposition : bool;
  NeedsSurfaceAllocation : bool;
  SurfaceRecycled : bool;
  RevalidationType : Z;
  IsCursorPlane : bool;
  IsVideoPlane : bool;
  Scanout : bool;
  CanSquash : bool;
  private_data_ : nat
}.

(** The mutating member functions called in [displayqueue.cpp]; what they
    do is given by [Collaborators]. *)
Inductive Method :=
| CopyState
| ResetLayers (layers : list OverlayLayer.t) (remove_index : nat)
| ValidateReValidation
| RevalidationDone (type : Z)
| UpdateDisplayFrame (display_frame : HwcRect.t) (needs_full_draw : bool)
| UpdateSourceCrop (source_crop : float * float * float * float)
    (needs_full_draw : bool)
| RefreshSurfaces (clear_surface : Z) (force : bool)
| UpdateDamage (surface_damage : HwcRect.t)
| SetOverlayLayer (layer : OverlayLayer.t)
| AddLayer (layer : OverlayLayer.t)
| SetApplyEffects (apply_effects : bool).
End DisplayPlaneState.

Definition DisplayPlaneStateList := list DisplayPlaneState.t.

(** [DisplayQueue::QueueState] *)
Inductive QueueState :=
| kNeedsColorCorrection | kConfigurationChanged | kPoweredOn
| kDisableOverlayUsage | kMarkSurfacesForRelease | kReleaseSurfaces
| kIgnoreIdleRefresh | kClonedMode | kLastFrameIdleUpdate.

#[global] Instance QueueState_eq_dec : EqDecision QueueState.
Proof. solve_decision. Defined.

Module FrameStateTracker.
Inductive FrameState :=
| kPrepareComposition | kPrepareIdleComposition | kRenderIdleDisplay
| kRevalidateLayers | kTrackingFrames | kIgnoreUpdates.

#[global] Instance FrameState_eq_dec : EqDecision FrameState.
Proof. solve_decision. Defined.

Record t := {
  state_ : Z;
  idle_frames_ : Z;
  has_cursor_layer_ : bool;
  total_planes_ : Z;
  revalidate_frames_counter_ : Z
}.

Definition set_state_ (v : Z) (tr : t) : t :=
  {| state_ := v;
     idle_frames_ := tr.(idle_frames_);
     has_cursor_layer_ := tr.(has_cursor_layer_);
     total_planes_ := tr.(total_planes_);
     revalidate_frames_counter_ := tr.(revalidate_frames_counter_) |}.

Definition set_idle_frames_ (v : Z) (tr : t) : t :=
  {| state_ := tr.(state_);
     idle_frames_ := v;
     has_cursor_layer_ := tr.(has_cursor_layer_);
     total_planes_ := tr.(total_planes_);
     revalidate_frames_counter_ := tr.(revalidate_frames_counter_) |}.

Definition set_has_cursor_layer_ (v : bool) (tr : t) : t :=
  {| state_ := tr.(state_);
     idle_frames_ := tr.(idle_frames_);
     has_cursor_layer_ := v;
     total_planes_ := tr.(total_planes_);
     revalidate_frames_counter_ := tr.(revalidate_frames_counter_) |}.

Definition set_total_planes_ (v : Z) (tr : t) : t :=
  {| state_ := tr.(state_);
     idle_frames_ := tr.(idle_frames_);
     has_cursor_layer_ := tr.(has_cursor_layer_);
     total_planes_ := v;
     revalidate_frames_counter_ := tr.(revalidate_frames_counter_) |}.

Definition set_revalidate_frames_counter_ (v : Z) (tr : t) : t :=
  {| state_ := tr.(state_);
     idle_frames_ := tr.(idle_frames_);
     has_cursor_layer_ := tr.(has_cursor_layer_);
     total_planes_ := tr.(total_planes_);
     revalidate_frames_counter_ := v |}.

End FrameStateTracker.

Module ScalingTracker.
Inductive ScalingState := kNeeedsNoSclaing | kNeedsScaling.

Record t := {
  scaling_state_ : ScalingState;
  scaling_width : float;
  scaling_height : float
}.
End ScalingTracker.

Inductive HWCPowerMode := kOff | kDoze | kDozeSuspend | kOn.

Record DisplayQueue := {
  state_ : Z;
  idle_tracker_ : FrameStateTracker.t;
  scaling_tracker_ : ScalingTracker.t;
  in_flight_layers_ : list OverlayLayer.t;
  previous_plane_state_ : DisplayPlaneStateList;
  mark_not_inuse_ : list NativeSurface;
  surfaces_not_inuse_ : list NativeSurface;
  last_commit_failed_update_ : bool;
  kms_fence_ : Z;
  requested_video_effect_ : bool;
  applied_video_effect_ : bool;
  handle_display_initializations_ : bool;
  plane_transform_ : Z;
  gamma_ : float * float * float;
  contrast_ : Z;
  brightness_ : Z;
  color_transform_matrix_ : list float;
  color_transform_hint_ : Z;
  refresh_callback_ : option nat;
  refrsh_display_id_ : Z;
  gpu_fd_ : Z
}.

Definition set_state_ (v : Z) (q : DisplayQueue) : DisplayQueue :=
  {| state_ := v;
     idle_tracker_ := q.(idle_tracker_);
     scaling_tracker_ := q.(scaling_tracker_);
     in_flight_layers_ := q.(in_flight_layers_);
     previous_plane_state_ := q.(previous_plane_state_);
     mark_not_inuse_ := q.(mark_not_inuse_);
     surfaces_not_inuse_ := q.(surfaces_not_inuse_);
     last_commit_failed_update_ := q.(last_commit_failed_update_);
     kms_fence_ := q.(kms_fence_);
     requested_video_effect_ := q.(requested_video_effect_);
     applied_video_effect_ := q.(applied_video_effect_);
     handle_display_initializations_ := q.(handle_display_initializations_);
     plane_transform_ := q.(plane_transform_);
     gamma_ := q.(gamma_);
     contrast_ := q.(contrast_);
     brightness_ := q.(brightness_);
     color_transform_matrix_ := q.(color_transform_matrix_);
     color_transform_hint_ := q.(color_transform_hint_);
     refresh_callback_ := q.(refresh_callback_);
     refrsh_display_id_ := q.(refrsh_display_id_);
     gpu_fd_ := q.(gpu_fd_) |}.

Definition set_idle_tracker_ (v : FrameStateTracker.t) (q : DisplayQueue) : DisplayQueue :=
  {| state_ := q.(state_);
     idle_tracker_ := v;
     scaling_tracker_ := q.(scaling_tracker_);
     in_flight_layers_ := q.(in_flight_layers_);
     previous_plane_state_ := q.(previous_plane_state_);
     mark_not_inuse_ := q.(mark_not_inuse_);
     surfaces_not_inuse_ := q.(surfaces_not_inuse_);
     last_commit_failed_update_ := q.(last_commit_failed_update_);
     kms_fence_ := q.(kms_fence_);
     requested_video_effect_ := q.(requested_video_effect_);
     applied_video_effect_ := q.(applied_video_effect_);
     handle_display_initializations_ := q.(handle_display_initializations_);
     plane_transform_ := q.(plane_transform_);
     gamma_ := q.(gamma_);
     contrast_ := q.(contrast_);
     brightness_ := q.(brightness_);
     color_transform_matrix_ := q.(color_transform_matrix_);
     color_transform_hint_ := q.(color_transform_hint_);
     refresh_callback_ := q.(refresh_callback_);
     refrsh_display_id_ := q.(refrsh_display_id_);
     gpu_fd_ := q.(gpu_fd_) |}.

Definition set_scaling_tracker_ (v : ScalingTracker.t) (q : DisplayQueue) : DisplayQueue :=
  {| state_ := q.(state_);
     idle_tracker_ := q.(idle_tracker_);
     scaling_tracker_ := v;
     in_flight_layers_ := q.(in_flight_layers_);
     previous_plane_state_ := q.(previous_plane_state_);
     mark_not_inuse_ := q.(mark_not_inuse_);
     surfaces_not_inuse_ := q.(surfaces_not_inuse_);
     last_commit_failed_update_ := q.(last_commit_failed_update_);
     kms_fence_ := q.(kms_fence_);
     requested_video_effect_ := q.(requested_video_effect_);
     applied_video_effect_ := q.(applied_video_effect_);
     handle_display_initializations_ := q.(handle_display_initializations_);
     plane_transform_ := q.(plane_transform_);
     gamma_ := q.(gamma_);
     contrast_ := q.(contrast_);
     brightness_ := q.(brightness_);
     color_transform_matrix_ := q.(color_transform_matrix_);
     color_transform_hint_ := q.(color_transform_hint_);
     refresh_callback_ := q.(refresh_callback_);
     refrsh_display_id_ := q.(refrsh_display_id_);
     gpu_fd_ := q.(gpu_fd_) |}.

Definition set_in_flight_layers_ (v : list OverlayLayer.t) (q : DisplayQueue) : DisplayQueue :=
  {| state_ := q.(state_);
     idle_tracker_ := q.(idle_tracker_);
     scaling_tracker_ := q.(scaling_tracker_);
     in_flight_layers_ := v;
     previous_plane_state_ := q.(previous_plane_state_);
     mark_not_inuse_ := q.(mark_not_inuse_);
     surfaces_not_inuse_ := q.(surfaces_not_inuse_);
     last_commit_failed_update_ := q.(last_commit_failed_update_);
     kms_fence_ := q.(kms_fence_);
     requested_video_effect_ := q.(requested_video_effect_);
     applied_video_effect_ := q.(applied_video_effect_);
     handle_display_initializations_ := q.(handle_display_initializations_);
     plane_transform_ := q.(plane_transform_);
     gamma_ := q.(gamma_);
     contrast_ := q.(contrast_);
     brightness_ := q.(brightness_);
     color_transform_matrix_ := q.(color_transform_matrix_);
     color_transform_hint_ := q.(color_transform_hint_);
     refresh_callback_ := q.(refresh_callback_);
     refrsh_display_id_ := q.(refrsh_display_id_);
     gpu_fd_ := q.(gpu_fd_) |}.

Definition set_previous_plane_state_ (v : DisplayPlaneStateList) (q : DisplayQueue) : DisplayQueue :=
  {| state_ := q.(state_);
     idle_tracker_ := q.(idle_tracker_);
     scaling_tracker_ := q.(scaling_tracker_);
     in_flight_layers_ := q.(in_flight_layers_);
     previous_plane_state_ := v;
     mark_not_inuse_ := q.(mark_not_inuse_);
     surfaces_not_inuse_ := q.(surfaces_not_inuse_);
     last_commit_failed_update_ := q.(last_commit_failed_update_);
     kms_fence_ := q.(kms_fence_);
     requested_video_effect_ := q.(requested_video_effect_);
     applied_video_effect_ := q.(applied_video_effect_);
     handle_display_initializations_ := q.(handle_display_initializations_);
     plane_transform_ := q.(plane_transform_);
     gamma_ := q.(gamma_);
     contrast_ := q.(contrast_);
     brightness_ := q.(brightness_);
     color_transform_matrix_ := q.(color_transform_matrix_);
     color_transform_hint_ := q.(color_transform_hint_);
     refresh_callback_ := q.(refresh_callback_);
     refrsh_display_id_ := q.(refrsh_display_id_);
     gpu_fd_ := q.(gpu_fd_) |}.

Definition set_mark_not_inuse_ (v : list NativeSurface) (q : DisplayQueue) : DisplayQueue :=
  {| state_ := q.(state_);
     idle_tracker_ := q.(idle_tracker_);
     scaling_tracker_ := q.(scaling_tracker_);
     in_flight_layers_ := q.(in_flight_layers_);
     previous_plane_state_ := q.(previous_plane_state_);
     mark_not_inuse_ := v;
     surfaces_not_inuse_ := q.(surfaces_not_inuse_);
     last_commit_failed_update_ := q.(last_commit_failed_update_);
     kms_fence_ := q.(kms_fence_);
     requested_video_effect_ := q.(requested_video_effect_);
     applied_video_effect_ := q.(applied_video_effect_);
     handle_display_initializations_ := q.(handle_display_initializations_);
     plane_transform_ := q.(plane_transform_);
     gamma_ := q.(gamma_);
     contrast_ := q.(contrast_);
     brightness_ := q.(brightness_);
     color_transform_matrix_ := q.(color_transform_matrix_);
     color_transform_hint_ := q.(color_transform_hint_);
     refresh_callback_ := q.(refresh_callback_);
     refrsh_display_id_ := q.(refrsh_display_id_);
     gpu_fd_ := q.(gpu_fd_) |}.

Definition set_surfaces_not_inuse_ (v : list NativeSurface) (q : DisplayQueue) : DisplayQueue :=
  {| state_ := q.(state_);
     idle_tracker_ := q.(idle_tracker_);
     scaling_tracker_ := q.(scaling_tracker_);
     in_flight_layers_ := q.(in_flight_layers_);
     previous_plane_state_ := q.(previous_plane_state_);
     mark_not_inuse_ := q.(mark_not_inuse_);
     surfaces_not_inuse_ := v;
     last_commit_failed_update_ := q.(last_commit_failed_update_);
     kms_fence_ := q.(kms_fence_);
     requested_video_effect_ := q.(requested_video_effect_);
     applied_video_effect_ := q.(applied_video_effect_);
     handle_display_initializations_ := q.(handle_display_initializations_);
     plane_transform_ := q.(plane_transform_);
     gamma_ := q.(gamma_);
     contrast_ := q.(contrast_);
     brightness_ := q.(brightness_);
     color_transform_matrix_ := q.(color_transform_matrix_);
     color_transform_hint_ := q.(color_transform_hint_);
     refresh_callback_ := q.(refresh_callback_);
     refrsh_display_id_ := q.(refrsh_display_id_);
     gpu_fd_ := q.(gpu_fd_) |}.

Definition set_last_commit_failed_update_ (v : bool) (q : DisplayQueue) : DisplayQueue :=
  {| state_ := q.(state_);
     idle_tracker_ := q.(idle_tracker_);
     scaling_tracker_ := q.(scaling_tracker_);
     in_flight_layers_ := q.(in_flight_layers_);
     previous_plane_state_ := q.(previous_plane_state_);
     mark_not_inuse_ := q.(mark_not_inuse_);
     surfaces_not_inuse_ := q.(surfaces_not_inuse_);
     last_commit_failed_update_ := v;
     kms_fence_ := q.(kms_fence_);
     requested_video_effect_ := q.(requested_video_effect_);
     applied_video_effect_ := q.(applied_video_effect_);
     handle_display_initializations_ := q.(handle_display_initializations_);
     plane_transform_ := q.(plane_transform_);
     gamma_ := q.(gamma_);
     contrast_ := q.(contrast_);
     brightness_ := q.(brightness_);
     color_transform_matrix_ := q.(color_transform_matrix_);
     color_transform_hint_ := q.(color_transform_hint_);
     refresh_callback_ := q.(refresh_callback_);
     refrsh_display_id_ := q.(refrsh_display_id_);
     gpu_fd_ := q.(gpu_fd_) |}.

Definition set_kms_fence_ (v : Z) (q : DisplayQueue) : DisplayQueue :=
  {| state_ := q.(state_);
     idle_tracker_ := q.(idle_tracker_);
     scaling_tracker_ := q.(scaling_tracker_);
     in_flight_layers_ := q.(in_flight_layers_);
     previous_plane_state_ := q.(previous_plane_state_);
     mark_not_inuse_ := q.(mark_not_inuse_);
     surfaces_not_inuse_ := q.(surfaces_not_inuse_);
     last_commit_failed_update_ := q.(last_commit_failed_update_);
     kms_fence_ := v;
     requested_video_effect_ := q.(requested_video_effect_);
     applied_video_effect_ := q.(applied_video_effect_);
     handle_display_initializations_ := q.(handle_display_initializations_);
     plane_transform_ := q.(plane_transform_);
     gamma_ := q.(gamma_);
     contrast_ := q.(contrast_);
     brightness_ := q.(brightness_);
     color_transform_matrix_ := q.(color_transform_matrix_);
     color_transform_hint_ := q.(color_transform_hint_);
     refresh_callback_ := q.(refresh_callback_);
     refrsh_display_id_ := q.(refrsh_display_id_);
     gpu_fd_ := q.(gpu_fd_) |}.

Definition set_requested_video_effect_ (v : bool) (q : DisplayQueue) : DisplayQueue :=
  {| state_ := q.(state_);
     idle_tracker_ := q.(idle_tracker_);
     scaling_tracker_ := q.(scaling_tracker_);
     in_flight_layers_ := q.(in_flight_layers_);
     previous_plane_state_ := q.(previous_plane_state_);
     mark_not_inuse_ := q.(mark_not_inuse_);
     surfaces_not_inuse_ := q.(surfaces_not_inuse_);
     last_commit_failed_update_ := q.(last_commit_failed_update_);
     kms_fence_ := q.(kms_fence_);
     requested_video_effect_ := v;
     applied_video_effect_ := q.(applied_video_effect_);
     handle_display_initializations_ := q.(handle_display_initializations_);
     plane_transform_ := q.(plane_transform_);
     gamma_ := q.(gamma_);
     contrast_ := q.(contrast_);
     brightness_ := q.(brightness_);
     color_transform_matrix_ := q.(color_transform_matrix_);
     color_transform_hint_ := q.(color_transform_hint_);
     refresh_callback_ := q.(refresh_callback_);
     refrsh_display_id_ := q.(refrsh_display_id_);
     gpu_fd_ := q.(gpu_fd_) |}.

Definition set_applied_video_effect_ (v : bool) (q : DisplayQueue) : DisplayQueue :=
  {| state_ := q.(state_);
     idle_tracker_ := q.(idle_tracker_);
     scaling_tracker_ := q.(scaling_tracker_);
     in_flight_layers_ := q.(in_flight_layers_);
     previous_plane_state_ := q.(previous_plane_state_);
     mark_not_inuse_ := q.(mark_not_inuse_);
     surfaces_not_inuse_ := q.(surfaces_not_inuse_);
     last_commit_failed_update_ := q.(last_commit_failed_update_);
     kms_fence_ := q.(kms_fence_);
     requested_video_effect_ := q.(requested_video_effect_);
     applied_video_effect_ := v;
     handle_display_initializations_ := q.(handle_display_initializations_);
     plane_transform_ := q.(plane_transform_);
     gamma_ := q.(gamma_);
     contrast_ := q.(contrast_);
     brightness_ := q.(brightness_);
     color_transform_matrix_ := q.(color_transform_matrix_);
     color_transform_hint_ := q.(color_transform_hint_);
     refresh_callback_ := q.(refresh_callback_);
     refrsh_display_id_ := q.(refrsh_display_id_);
     gpu_fd_ := q.(gpu_fd_) |}.

Definition set_handle_display_initializations_ (v : bool) (q : DisplayQueue) : DisplayQueue :=
  {| state_ := q.(state_);
     idle_tracker_ := q.(idle_tracker_);
     scaling_tracker_ := q.(scaling_tracker_);
     in_flight_layers_ := q.(in_flight_layers_);
     previous_plane_state_ := q.(previous_plane_state_);
     mark_not_inuse_ := q.(mark_not_inuse_);
     surfaces_not_inuse_ := q.(surfaces_not_inuse_);
     last_commit_failed_update_ := q.(last_commit_failed_update_);
     kms_fence_ := q.(kms_fence_);
     requested_video_effect_ := q.(requested_video_effect_);
     applied_video_effect_ := q.(applied_video_effect_);
     handle_display_initializations_ := v;
     plane_transform_ := q.(plane_transform_);
     gamma_ := q.(gamma_);
     contrast_ := q.(contrast_);
     brightness_ := q.(brightness_);
     color_transform_matrix_ := q.(color_transform_matrix_);
     color_transform_hint_ := q.(color_transform_hint_);
     refresh_callback_ := q.(refresh_callback_);
     refrsh_display_id_ := q.(refrsh_display_id_);
     gpu_fd_ := q.(gpu_fd_) |}.


Inductive Lock := power_mode_lock_ | video_lock_ | idle_lock_.

#[global] Instance Lock_eq_dec : EqDecision Lock.
Proof. solve_decision. Defined.

(** ** Collaborators *)

(** The calls that leave the queue.  Each one is recorded in the trace of
    the operation that makes it; the composition pass, the commit and [dup]
    are recorded with what they returned. *)
Inductive Event :=
| EvLock (l : Lock)
| EvUnlock (l : Lock)
| EvVblankSetPowerMode (mode : HWCPowerMode)
| EvCompositorInit
| EvCompositorReset
| EvCompositorSetVideoScalingMode (mode : Z)
| EvCompositorSetVideoColor (color : Z) (value : float)
| EvCompositorRestoreVideoDefaultColor (color : Z)
| EvCompositorSetVideoDeinterlace (flag mode : Z)
| EvCompositorRestoreVideoDefaultDeinterlace
| EvCompositorUpdateLayerPixelData (layers : list OverlayLayer.t)
| EvCompositorEnsurePixelDataUpdated
| EvCompositorBeginFrame (disable_overlays ok : bool)
| EvCompositorDraw (ok : bool)
| EvDisplayDisable (planes : DisplayPlaneStateList)
| EvDisplaySetColorCorrection (gamma : float * float * float)
    (contrast brightness : Z)
| EvDisplaySetColorTransformMatrix (matrix : list float) (hint : Z)
| EvDisplayCommit (ok : bool) (out_fence : Z)
| EvDisplayHandleLazyInitialization
| EvValidateLayers (add_index : Z)
| EvReValidatePlanes
| EvSetOffScreenPlaneTarget
| EvMarkSurfacesForRecycling
| EvReleaseFreeOffScreenTargets
| EvReleaseAllOffScreenTargets
| EvDisplayPlaneSetInUse (plane : nat) (in_use : bool)
| EvPurgeBuffer
| EvCreateFrameBuffer (buffer : nat) (gpu_fd : Z)
| EvRefreshCallback (display_id : Z)
| EvHWCPoll (fd : Z)
| EvClose (fd : Z)
| EvDup (fd new_fd : Z).

(** Constants and compile-time switches declared outside
    [displayqueue.cpp]. *)
Class Constants := {
  QueueState_bits :: BitLayout QueueState;
  FrameState_bits :: BitLayout FrameStateTracker.FrameState;
  kidleframes : Z;
  ENABLE_DOUBLE_BUFFERING : bool;
  ReValidationType_kNone : Z;
  ReValidationType_kScanout : Z;
  NativeSurface_kFullClear : Z
}.

(** What lies outside the queue: the state [X] of its collaborators
    (display, compositor, plane manager, resource manager, vblank handler,
    descriptor table), and the age of every offscreen surface.  Modelled
    from the spec: [nativesurface.h] is not part of this development; a
    surface has an age, written by [SetSurfaceAge] and read back by
    [GetSurfaceAge]. *)
Record Outside (X : Type) := {
  collab : X;
  surface_age : NativeSurface -> Z
}.
Arguments collab {X} _.
Arguments surface_age {X} _ _.

Definition SetSurfaceAge {X : Type} (surface : NativeSurface) (value : Z)
    (o : Outside X) : Outside X :=
  {| collab := o.(collab); surface_age := <[surface := value]> o.(surface_age) |}.

Definition GetSurfaceAge {X : Type} (surface : NativeSurface) (o : Outside X) : Z :=
  o.(surface_age) surface.

(** The behaviour of everything [displayqueue.cpp] calls but does not
    define.  Lists handed to a collaborator are read by it; what it writes
    is returned, as its contract in the design has it. *)
Class Collaborators (X : Type) := {
  (** calls with no result, identified by their event *)
  ext_void : Event -> Outside X -> Outside X;
  (** [DisplayPlaneManager] *)
  HasSurfaces : Outside X -> bool;
  GetHeight : Outside X -> Z;
  ValidateLayers :
    list OverlayLayer.t -> Z -> bool -> bool -> bool ->
    DisplayPlaneStateList -> DisplayPlaneStateList -> list NativeSurface ->
    Outside X ->
    (bool * bool * bool * DisplayPlaneStateList * list NativeSurface) * Outside X;
  ReValidatePlanes :
    DisplayPlaneStateList -> list OverlayLayer.t -> list NativeSurface ->
    bool -> bool -> bool -> Outside X ->
    (bool * bool * DisplayPlaneStateList * list NativeSurface) * Outside X;
  SetOffScreenPlaneTarget :
    DisplayPlaneState.t -> Outside X -> DisplayPlaneState.t * Outside X;
  MarkSurfacesForRecycling :
    DisplayPlaneState.t -> list NativeSurface -> bool -> Outside X ->
    (DisplayPlaneState.t * list NativeSurface) * Outside X;
  (** [Compositor] *)
  BeginFrame : bool -> Outside X -> bool * Outside X;
  Draw :
    DisplayPlaneStateList -> list OverlayLayer.t -> list HwcRect.t ->
    Outside X -> bool * Outside X;
  (** [PhysicalDisplay]: the result and the out-fence *)
  Commit :
    DisplayPlaneStateList -> DisplayPlaneStateList -> bool -> Outside X ->
    (bool * Z) * Outside X;
  (** [OverlayBuffer] *)
  GetFb : nat -> Outside X -> Z;
  (** descriptors *)
  dup : Z -> Outside X -> Z * Outside X;
  (** [DisplayPlaneState] and [OverlayLayer] member functions *)
  plane_call :
    DisplayPlaneState.Method -> DisplayPlaneState.t -> Outside X ->
    DisplayPlaneState.t * Outside X;
  plane_ReleaseAcquireFence : DisplayPlaneState.t -> Outside X -> Z * Outside X;
  SetLayerComposition :
    OverlayLayer.LayerComposition -> OverlayLayer.t -> OverlayLayer.t;
  ReleaseAcquireFence : OverlayLayer.t -> Z * OverlayLayer.t;
  InitializeFromHwcLayer :
    HwcLayer.t -> option OverlayLayer.t -> Z -> nat -> Z -> Z -> bool ->
    Outside X -> OverlayLayer.t * Outside X;
  InitializeFromScaledHwcLayer :
    HwcLayer.t -> option OverlayLayer.t -> Z -> nat -> HwcRect.t -> Z -> Z ->
    bool -> Outside X -> OverlayLayer.t * Outside X;
  (** [HwcRect] and [hwcutils.h] *)
  HwcRect_empty : HwcRect.t -> bool;
  CalculateRect : HwcRect.t -> HwcRect.t -> HwcRect.t;
  (** [v + (v * s)] in [float], converted back to [int] *)
  scale_coordinate : Z -> float -> Z;
  (** [ScopedIdleStateTracker], declared in [displayqueue.h] *)
  ScopedIdleStateTracker_enter :
    FrameStateTracker.t -> Outside X -> FrameStateTracker.t * Outside X;
  ScopedIdleStateTracker_leave :
    FrameStateTracker.t -> Outside X -> FrameStateTracker.t * Outside X;
  IgnoreUpdate : FrameStateTracker.t -> bool;
  RenderIdleMode : FrameStateTracker.t -> bool;
  RevalidateLayers : FrameStateTracker.t -> bool;
  FrameHasCursor : FrameStateTracker.t -> FrameStateTracker.t;
  ResetTrackerState : FrameStateTracker.t -> FrameStateTracker.t
}.

(** ** The effect monad *)

(** [std::vector::at] throws [std::out_of_range]; nothing in
    [displayqueue.cpp] catches it. *)
Inductive Res (A : Type) := Ok (a : A) | OutOfRange.
Arguments Ok {A} _.
Arguments OutOfRange {A}.

Record Env (X : Type) := {
  outside : Outside X;
  trace : list Event
}.
Arguments outside {X} _.
Arguments trace {X} _.

Definition Eff (X A : Type) : Type := Env X -> Res A * Env X.

#[global] Instance Eff_ret {X : Type} : MRet (Eff X) :=
  fun A a env => (Ok a, env).

#[global] Instance Eff_bind {X : Type} : MBind (Eff X) :=
  fun A B k m env =>
    match m env with
    | (Ok a, env') => k a env'
    | (OutOfRange, env') => (OutOfRange, env')
    end.

Definition throw {X A : Type} : Eff X A := fun env => (OutOfRange, env).

(** A call to a collaborator that returns a result, recorded with it. *)
Definition call_with {X A : Type} (e : A -> Event) (f : Outside X -> A * Outside X)
    : Eff X A :=
  fun env =>
    let '(a, o) := f env.(outside) in
    (Ok a, {| outside := o; trace := env.(trace) ++ [e a] |}).

(** A call to a collaborator that returns a result. *)
Definition call {X A : Type} (e : Event) (f : Outside X -> A * Outside X) : Eff X A :=
  call_with (fun _ => e) f.

(** A member function of a value object: not traced. *)
Definition touch {X A : Type} (f : Outside X -> A * Outside X) : Eff X A :=
  fun env =>
    let '(a, o) := f env.(outside) in
    (Ok a, {| outside := o; trace := env.(trace) |}).

Definition query {X A : Type} (f : Outside X -> A) : Eff X A :=
  fun env => (Ok (f env.(outside)), env).

(** A call to a collaborator that returns nothing. *)
Definition call_void {X : Type} `{Collaborators X} (e : Event) : Eff X unit :=
  call e (fun o => (tt, ext_void e o)).

(** [v.at(i)] *)
Definition at_ {X A : Type} (v : list A) (i : nat) : Eff X A :=
  match v !! i with
  | Some x => mret x
  | None => throw
  end.

Definition when {X : Type} (b : bool) (m : Eff X unit) : Eff X unit :=
  if b then m else mret tt.

Definition emit {X : Type} (e : Event) : Eff X unit :=
  fun env => (Ok tt, {| outside := env.(outside); trace := env.(trace) ++ [e] |}).

(** The local variables that [GetCachedLayers] carries from one plane to
    the next, with the two vectors it appends to. *)
Module CacheLoop.
Record t := {
  composition : DisplayPlaneStateList;
  surfaces_not_inuse : list NativeSurface;
  needs_gpu_composition : bool;
  ignore_commit : bool;
  check_to_squash : bool;
  plane_validation : bool;
  reset_composition_regions : bool
}.

Definition set_composition (v : DisplayPlaneStateList) (st : t) : t :=
  {| composition := v;
     surfaces_not_inuse := st.(surfaces_not_inuse);
     needs_gpu_composition := st.(needs_gpu_composition);
     ignore_commit := st.(ignore_commit);
     check_to_squash := st.(check_to_squash);
     plane_validation := st.(plane_validation);
     reset_composition_regions := st.(reset_composition_regions) |}.

Definition set_surfaces_not_inuse (v : list NativeSurface) (st : t) : t :=
  {| composition := st.(composition);
     surfaces_not_inuse := v;
     needs_gpu_composition := st.(needs_gpu_composition);
     ignore_commit := st.(ignore_commit);
     check_to_squash := st.(check_to_squash);
     plane_validation := st.(plane_validation);
     reset_composition_regions := st.(reset_composition_regions) |}.

Definition set_needs_gpu_composition (v : bool) (st : t) : t :=
  {| composition := st.(composition);
     surfaces_not_inuse := st.(surfaces_not_inuse);
     needs_gpu_composition := v;
     ignore_commit := st.(ignore_commit);
     check_to_squash := st.(check_to_squash);
     plane_validation := st.(plane_validation);
     reset_composition_regions := st.(reset_composition_regions) |}.

Definition set_ignore_commit (v : bool) (st : t) : t :=
  {| composition := st.(composition);
     surfaces_not_inuse := st.(surfaces_not_inuse);
     needs_gpu_composition := st.(needs_gpu_composition);
     ignore_commit := v;
     check_to_squash := st.(check_to_squash);
     plane_validation := st.(plane_validation);
     reset_composition_regions := st.(reset_composition_regions) |}.

Definition set_check_to_squash (v : bool) (st : t) : t :=
  {| composition := st.(composition);
     surfaces_not_inuse := st.(surfaces_not_inuse);
     needs_gpu_composition := st.(needs_gpu_composition);
     ignore_commit := st.(ignore_commit);
     check_to_squash := v;
     plane_validation := st.(plane_validation);
     reset_composition_regions := st.(reset_composition_regions) |}.

Definition set_plane_validation (v : bool) (st : t) : t :=
  {| composition := st.(composition);
     surfaces_not_inuse := st.(surfaces_not_inuse);
     needs_gpu_composition := st.(needs_gpu_composition);
     ignore_commit := st.(ignore_commit);
     check_to_squash := st.(check_to_squash);
     plane_validation := v;
     reset_composition_regions := st.(reset_composition_regions) |}.

Definition set_reset_composition_regions (v : bool) (st : t) : t :=
  {| composition := st.(composition);
     surfaces_not_inuse := st.(surfaces_not_inuse);
     needs_gpu_composition := st.(needs_gpu_composition);
     ignore_commit := st.(ignore_commit);
     check_to_squash := st.(check_to_squash);
     plane_validation := st.(plane_validation);
     reset_composition_regions := v |}.

End CacheLoop.

(** What [GetCachedLayers] hands back through its pointer arguments.  On the
    two early returns [render_layers] and [needs_plane_validation] are left
    as the caller had them; the caller does not read them on that path. *)
Record CachedLayers := {
  cached_composition : DisplayPlaneStateList;
  cached_surfaces_not_inuse : list NativeSurface;
  render_layers : bool;
  can_ignore_commit : bool;
  needs_plane_validation : bool;
  force_full_validation : bool
}.

(** How the body of a loop ends: it falls through, it [continue]s, or the
    function [return]s. *)
Inductive Flow (A B : Type) :=
| Next (a : A)
| Continue (b : B)
| Return (b : B).
Arguments Next {A B} _.
Arguments Continue {A B} _.
Arguments Return {A B} _.

(** The local variables of [QueueUpdate] that its first loop updates;
    [tracker] is [idle_tracker_] as seen through the scoped tracker. *)
Module Frame.
Record t := {
  layers : list OverlayLayer.t;
  remove_index : Z;
  add_index : Z;
  idle_frame : bool;
  z_order : Z;
  has_video_layer : bool;
  re_validate_commit : bool;
  handle_raw_pixel_update : bool;
  tracker : FrameStateTracker.t
}.

Definition set_layers (v : list OverlayLayer.t) (fr : t) : t :=
  {| layers := v;
     remove_index := fr.(remove_index);
     add_index := fr.(add_index);
     idle_frame := fr.(idle_frame);
     z_order := fr.(z_order);
     has_video_layer := fr.(has_video_layer);
     re_validate_commit := fr.(re_validate_commit);
     handle_raw_pixel_update := fr.(handle_raw_pixel_update);
     tracker := fr.(tracker) |}.

Definition set_remove_index (v : Z) (fr : t) : t :=
  {| layers := fr.(layers);
     remove_index := v;
     add_index := fr.(add_index);
     idle_frame := fr.(idle_frame);
     z_order := fr.(z_order);
     has_video_layer := fr.(has_video_layer);
     re_validate_commit := fr.(re_validate_commit);
     handle_raw_pixel_update := fr.(handle_raw_pixel_update);
     tracker := fr.(tracker) |}.

Definition set_add_index (v : Z) (fr : t) : t :=
  {| layers := fr.(layers);
     remove_index := fr.(remove_index);
     add_index := v;
     idle_frame := fr.(idle_frame);
     z_order := fr.(z_order);
     has_video_layer := fr.(has_video_layer);
     re_validate_commit := fr.(re_validate_commit);
     handle_raw_pixel_update := fr.(handle_raw_pixel_update);
     tracker := fr.(tracker) |}.

Definition set_idle_frame (v : bool) (fr : t) : t :=
  {| layers := fr.(layers);
     remove_index := fr.(remove_index);
     add_index := fr.(add_index);
     idle_frame := v;
     z_order := fr.(z_order);
     has_video_layer := fr.(has_video_layer);
     re_validate_commit := fr.(re_validate_commit);
     handle_raw_pixel_update := fr.(handle_raw_pixel_update);
     tracker := fr.(tracker) |}.

Definition set_z_order (v : Z) (fr : t) : t :=
  {| layers := fr.(layers);
     remove_index := fr.(remove_index);
     add_index := fr.(add_index);
     idle_frame := fr.(idle_frame);
     z_order := v;
     has_video_layer := fr.(has_video_layer);
     re_validate_commit := fr.(re_validate_commit);
     handle_raw_pixel_update := fr.(handle_raw_pixel_update);
     tracker := fr.(tracker) |}.

Definition set_has_video_layer (v : bool) (fr : t) : t :=
  {| layers := fr.(layers);
     remove_index := fr.(remove_index);
     add_index := fr.(add_index);
     idle_frame := fr.(idle_frame);
     z_order := fr.(z_order);
     has_video_layer := v;
     re_validate_commit := fr.(re_validate_commit);
     handle_raw_pixel_update := fr.(handle_raw_pixel_update);
     tracker := fr.(tracker) |}.

Definition set_re_validate_commit (v : bool) (fr : t) : t :=
  {| layers := fr.(layers);
     remove_index := fr.(remove_index);
     add_index := fr.(add_index);
     idle_frame := fr.(idle_frame);
     z_order := fr.(z_order);
     has_video_layer := fr.(has_video_layer);
     re_validate_commit := v;
     handle_raw_pixel_update := fr.(handle_raw_pixel_update);
     tracker := fr.(tracker) |}.

Definition set_handle_raw_pixel_update (v : bool) (fr : t) : t :=
  {| layers := fr.(layers);
     remove_index := fr.(remove_index);
     add_index := fr.(add_index);
     idle_frame := fr.(idle_frame);
     z_order := fr.(z_order);
     has_video_layer := fr.(has_video_layer);
     re_validate_commit := fr.(re_validate_commit);
     handle_raw_pixel_update := v;
     tracker := fr.(tracker) |}.

Definition set_tracker (v : FrameStateTracker.t) (fr : t) : t :=
  {| layers := fr.(layers);
     remove_index := fr.(remove_index);
     add_index := fr.(add_index);
     idle_frame := fr.(idle_frame);
     z_order := fr.(z_order);
     has_video_layer := fr.(has_video_layer);
     re_validate_commit := fr.(re_validate_commit);
     handle_raw_pixel_update := fr.(handle_raw_pixel_update);
     tracker := v |}.

End Frame.

(** What [QueueUpdate] leaves behind: its result, the queue, the caller's
    layers and the caller's [*retire_fence]. *)
Record Update := {
  result : bool;
  queue : DisplayQueue;
  updated_layers : list HwcLayer.t;
  retire_fence_out : Z
}.

(** The locals of [QueueUpdate] when it reaches the comment "Validate
    Overlays and Layers usage". *)
Record Prepared := {
  frame : Frame.t;
  validate_layers : bool;
  force_media_composition : bool;
  requested_video_effect : bool;
  disable_ovelays : bool;
  prepared_queue : DisplayQueue;
  prepared_layers : list HwcLayer.t
}.

(** How the incremental block of [QueueUpdate] ends: with the early
    [return true] that skips the commit, or by going on to composition and
    commit with these locals. *)
Inductive Incremental :=
| IgnoreCommit (surfaces_not_inuse : list NativeSurface)
| Proceed (validate_layers render_layers : bool)
    (current_composition_planes : DisplayPlaneStateList)
    (surfaces_not_inuse : list NativeSurface).

(** ** The operations of [DisplayQueue] *)

Section DisplayQueue.
Context {X : Type} `{Constants} `{Collaborators X}.

Definition ResetQueue (q : DisplayQueue) : Eff X DisplayQueue :=
  let q := set_applied_video_effect_ false q in
  let q := set_last_commit_failed_update_ false q in
  let q := set_in_flight_layers_ [] q in
  let q := set_previous_plane_state_ [] q in
  let q := set_mark_not_inuse_ [] q in
  let q := set_surfaces_not_inuse_ [] q in
  has_surfaces ← query HasSurfaces;
  when has_surfaces (call_void EvReleaseAllOffScreenTargets);;
  call_void EvPurgeBuffer;;
  let tr := q.(idle_tracker_) in
  let ignore_updates := has tr.(FrameStateTracker.state_) FrameStateTracker.kIgnoreUpdates in
  let tr := FrameStateTracker.set_state_ 0 tr in
  let tr := FrameStateTracker.set_idle_frames_ 0 tr in
  let tr :=
    if ignore_updates
    then FrameStateTracker.set_state_ (set_bits tr.(FrameStateTracker.state_) (mask FrameStateTracker.kIgnoreUpdates)) tr
    else tr in
  let q := set_idle_tracker_ tr q in
  call_void EvCompositorReset;;
  mret q.

Definition HandleExit (q : DisplayQueue) : Eff X DisplayQueue :=
  emit (EvLock power_mode_lock_);;
  let q := set_state_ (set_bits q.(state_) (mask kIgnoreIdleRefresh)) q in
  emit (EvUnlock power_mode_lock_);;
  call_void (EvVblankSetPowerMode kOff);;
  when (negb (bool_decide (q.(previous_plane_state_) = [])))
       (call_void (EvDisplayDisable q.(previous_plane_state_)));;
  q ← (if q.(kms_fence_) >? 0
       then call_void (EvClose q.(kms_fence_));; mret (set_kms_fence_ 0 q)
       else mret q);
  let disable_overlay := has q.(state_) kDisableOverlayUsage in
  let cloned_mode := has q.(state_) kClonedMode in
  let q := set_state_ (mask kConfigurationChanged) q in
  let q :=
    if disable_overlay
    then set_state_ (set_bits q.(state_) (mask kDisableOverlayUsage)) q
    else q in
  let q :=
    if cloned_mode
    then set_state_ (set_bits q.(state_) (mask kClonedMode)) q
    else q in
  ResetQueue q.

(** [power_mode] is [None] for a value that is none of the enumerators. *)
Definition SetPowerMode (power_mode : option HWCPowerMode) (q : DisplayQueue)
    : Eff X (bool * DisplayQueue) :=
  q ← match power_mode with
      | Some kOff => HandleExit q
      | Some kDoze => HandleExit q
      | Some kDozeSuspend =>
          call_void (EvVblankSetPowerMode kDozeSuspend);;
          mret (set_state_ (set_bits q.(state_) (mask kPoweredOn)) q)
      | Some kOn =>
          let q :=
            set_state_
              (set_bits q.(state_)
                 (Z.lor (Z.lor (mask kPoweredOn) (mask kConfigurationChanged))
                        (mask kNeedsColorCorrection))) q in
          call_void (EvVblankSetPowerMode kOn);;
          emit (EvLock power_mode_lock_);;
          let q :=
            set_state_ (clear_bits q.(state_) (mask kIgnoreIdleRefresh)) q in
          call_void EvCompositorInit;;
          emit (EvUnlock power_mode_lock_);;
          mret q
      | None => mret q
      end;
  mret (true, q).

Definition IgnoreUpdates (q : DisplayQueue) : DisplayQueue :=
  let tr := q.(idle_tracker_) in
  let tr := FrameStateTracker.set_idle_frames_ 0 tr in
  let tr := FrameStateTracker.set_state_ (mask FrameStateTracker.kIgnoreUpdates) tr in
  let tr := FrameStateTracker.set_revalidate_frames_counter_ 0 tr in
  set_idle_tracker_ tr q.

Definition ReleaseSurfaces (q : DisplayQueue) : Eff X DisplayQueue :=
  call_void EvReleaseFreeOffScreenTargets;;
  let q := set_state_ (clear_bits q.(state_) (mask kMarkSurfacesForRelease)) q in
  let q := set_state_ (clear_bits q.(state_) (mask kReleaseSurfaces)) q in
  mret q.

Definition ReleaseSurfacesAsNeeded (layers_validated : bool) (q : DisplayQueue)
    : Eff X DisplayQueue :=
  q ← (if negb layers_validated && has q.(state_) kReleaseSurfaces
       then ReleaseSurfaces q
       else mret q);
  let q :=
    if has q.(state_) kMarkSurfacesForRelease
    then
      let q := set_state_ (set_bits q.(state_) (mask kReleaseSurfaces)) q in
      set_state_ (clear_bits q.(state_) (mask kMarkSurfacesForRelease)) q
    else q in
  let q :=
    if layers_validated
    then
      let q := set_state_ (set_bits q.(state_) (mask kMarkSurfacesForRelease)) q in
      set_state_ (clear_bits q.(state_) (mask kReleaseSurfaces)) q
    else q in
  mret q.

(** [SetVideoScalingMode]: the assignment to [requested_video_effect_] is
    commented out in the source. *)
Definition SetVideoScalingMode (mode : Z) (q : DisplayQueue) : Eff X DisplayQueue :=
  emit (EvLock video_lock_);;
  call_void (EvCompositorSetVideoScalingMode mode);;
  emit (EvUnlock video_lock_);;
  mret q.

Definition SetVideoColor (color : Z) (value : float) (q : DisplayQueue)
    : Eff X DisplayQueue :=
  emit (EvLock video_lock_);;
  let q := set_requested_video_effect_ true q in
  call_void (EvCompositorSetVideoColor color value);;
  emit (EvUnlock video_lock_);;
  mret q.

Definition RestoreVideoDefaultColor (color : Z) (q : DisplayQueue)
    : Eff X DisplayQueue :=
  emit (EvLock video_lock_);;
  let q := set_requested_video_effect_ false q in
  call_void (EvCompositorRestoreVideoDefaultColor color);;
  emit (EvUnlock video_lock_);;
  mret q.

Definition SetVideoDeinterlace (flag mode : Z) (q : DisplayQueue)
    : Eff X DisplayQueue :=
  emit (EvLock video_lock_);;
  let q := set_requested_video_effect_ true q in
  call_void (EvCompositorSetVideoDeinterlace flag mode);;
  emit (EvUnlock video_lock_);;
  mret q.

Definition RestoreVideoDefaultDeinterlace (q : DisplayQueue) : Eff X DisplayQueue :=
  emit (EvLock video_lock_);;
  let q := set_requested_video_effect_ false q in
  call_void EvCompositorRestoreVideoDefaultDeinterlace;;
  emit (EvUnlock video_lock_);;
  mret q.

Definition is_registered (callback : option nat) : bool :=
  match callback with Some _ => true | None => false end.

(** [FrameStateTracker.idle_frames_] is taken to be a [uint32_t], like the constant it is
    compared with. *)
Definition HandleIdleCase (q : DisplayQueue) : Eff X DisplayQueue :=
  emit (EvLock idle_lock_);;
  let tr := q.(idle_tracker_) in
  if has tr.(FrameStateTracker.state_) FrameStateTracker.kPrepareComposition then
    emit (EvUnlock idle_lock_);; mret q
  else if (tr.(FrameStateTracker.total_planes_) <=? 1)
          || has tr.(FrameStateTracker.state_) FrameStateTracker.kTrackingFrames
          || has tr.(FrameStateTracker.state_) FrameStateTracker.kRevalidateLayers
          || tr.(FrameStateTracker.has_cursor_layer_) then
    emit (EvUnlock idle_lock_);; mret q
  else if tr.(FrameStateTracker.idle_frames_) >? kidleframes then
    emit (EvUnlock idle_lock_);; mret q
  else if tr.(FrameStateTracker.idle_frames_) <? kidleframes then
    let tr := FrameStateTracker.set_idle_frames_ (Int.wrap32 (tr.(FrameStateTracker.idle_frames_) + 1)) tr in
    emit (EvUnlock idle_lock_);; mret (set_idle_tracker_ tr q)
  else
    let tr := FrameStateTracker.set_idle_frames_ (Int.wrap32 (tr.(FrameStateTracker.idle_frames_) + 1)) tr in
    emit (EvLock power_mode_lock_);;
    tr ← (if negb (has q.(state_) kIgnoreIdleRefresh)
             && is_registered q.(refresh_callback_)
             && has q.(state_) kPoweredOn
          then
            call_void (EvRefreshCallback q.(refrsh_display_id_));;
            mret (FrameStateTracker.set_state_ (set_bits tr.(FrameStateTracker.state_) (mask FrameStateTracker.kPrepareIdleComposition)) tr)
          else mret tr);
    emit (EvUnlock power_mode_lock_);;
    emit (EvUnlock idle_lock_);;
    mret (set_idle_tracker_ tr q).

(** [UpdateOnScreenSurfaces]: the ageing of one plane's surfaces.  The loop
    index [i] is a [uint32_t], so [2 - i] wraps before it is converted to the
    [int] that [SetSurfaceAge] takes. *)
Fixpoint age_from (i : nat) (surfaces : list NativeSurface) (o : Outside X)
    : Outside X :=
  match surfaces with
  | [] => o
  | surface :: rest =>
      age_from (S i) rest
        (SetSurfaceAge surface (Int.to_signed (2 - Z.of_nat i)) o)
  end.

Definition age_plane (surfaces : list NativeSurface) (o : Outside X) : Outside X :=
  match surfaces with
  | [] => o
  | [surface0; surface1; surface2] =>
      let o := SetSurfaceAge surface1 0 o in
      let o := SetSurfaceAge surface0 2 o in
      SetSurfaceAge surface2 1 o
  | _ => age_from 0 surfaces o
  end.

Definition UpdateOnScreenSurfaces (q : DisplayQueue) (o : Outside X) : Outside X :=
  fold_left
    (fun o plane_state => age_plane plane_state.(DisplayPlaneState.GetSurfaces) o)
    q.(previous_plane_state_) o.

(** [SetMediaEffectsState] returns the planes and [surfaces_not_inuse_]. *)
Fixpoint SetMediaEffectsState (apply_effects : bool) (layers : list OverlayLayer.t)
    (current_composition_planes : DisplayPlaneStateList)
    (surfaces_not_inuse : list NativeSurface)
    : Eff X (DisplayPlaneStateList * list NativeSurface) :=
  match current_composition_planes with
  | [] => mret ([], surfaces_not_inuse)
  | plane :: planes =>
      '(plane, surfaces_not_inuse) ←
        (if negb plane.(DisplayPlaneState.IsVideoPlane)
         then mret (plane, surfaces_not_inuse)
         else
           plane ← touch (plane_call (DisplayPlaneState.SetApplyEffects apply_effects) plane);
           let surfaces := plane.(DisplayPlaneState.GetSurfaces) in
           if apply_effects && bool_decide (surfaces = []) then
             plane ← call EvSetOffScreenPlaneTarget (SetOffScreenPlaneTarget plane);
             mret (plane, surfaces_not_inuse)
           else if negb apply_effects && negb (bool_decide (surfaces = []))
                   && plane.(DisplayPlaneState.Scanout) then
             '(plane, surfaces_not_inuse) ←
               call EvMarkSurfacesForRecycling
                 (MarkSurfacesForRecycling plane surfaces_not_inuse false);
             index ← at_ plane.(DisplayPlaneState.GetSourceLayers) 0;
             layer ← at_ layers index;
             plane ← touch (plane_call (DisplayPlaneState.SetOverlayLayer layer) plane);
             mret (plane, surfaces_not_inuse)
           else mret (plane, surfaces_not_inuse));
      '(planes, surfaces_not_inuse) ←
        SetMediaEffectsState apply_effects layers planes surfaces_not_inuse;
      mret (plane :: planes, surfaces_not_inuse)
  end.

(** [SetReleaseFenceToLayers]: the inner loops over the source layers of
    one plane.  They return [in_flight_layers_] and the caller's layers. *)
Fixpoint release_scanout (fence : Z) (layers : list nat)
    (in_flight_layers : list OverlayLayer.t) (source_layers : list HwcLayer.t)
    : Eff X (list OverlayLayer.t * list HwcLayer.t) :=
  match layers with
  | [] => mret (in_flight_layers, source_layers)
  | index :: rest =>
      overlay_layer ← at_ in_flight_layers index;
      layer ← at_ source_layers overlay_layer.(OverlayLayer.GetLayerIndex);
      fd ← call_with (EvDup fence) (dup fence);
      let source_layers :=
        <[overlay_layer.(OverlayLayer.GetLayerIndex) := HwcLayer.SetReleaseFence fd layer]>
          source_layers in
      let in_flight_layers :=
        <[index := SetLayerComposition OverlayLayer.kDisplay overlay_layer]>
          in_flight_layers in
      release_scanout fence rest in_flight_layers source_layers
  end.

Fixpoint release_composed (release_fence : Z) (layers : list nat)
    (in_flight_layers : list OverlayLayer.t) (source_layers : list HwcLayer.t)
    : Eff X (list OverlayLayer.t * list HwcLayer.t) :=
  match layers with
  | [] => mret (in_flight_layers, source_layers)
  | index :: rest =>
      overlay_layer ← at_ in_flight_layers index;
      let overlay_layer := SetLayerComposition OverlayLayer.kGpu overlay_layer in
      let in_flight_layers := <[index := overlay_layer]> in_flight_layers in
      layer ← at_ source_layers overlay_layer.(OverlayLayer.GetLayerIndex);
      '(in_flight_layers, source_layers) ←
        (if release_fence >? 0 then
           fd ← call_with (EvDup release_fence) (dup release_fence);
           mret (in_flight_layers,
                 <[overlay_layer.(OverlayLayer.GetLayerIndex) :=
                     HwcLayer.SetReleaseFence fd layer]> source_layers)
         else
           let '(temp, overlay_layer') := ReleaseAcquireFence overlay_layer in
           let in_flight_layers := <[index := overlay_layer']> in_flight_layers in
           if temp >? 0 then
             mret (in_flight_layers,
                   <[overlay_layer.(OverlayLayer.GetLayerIndex) :=
                       HwcLayer.SetReleaseFence temp layer]> source_layers)
           else mret (in_flight_layers, source_layers));
      release_composed release_fence rest in_flight_layers source_layers
  end.

Fixpoint release_planes (fence : Z) (planes : DisplayPlaneStateList)
    (in_flight_layers : list OverlayLayer.t) (source_layers : list HwcLayer.t)
    : Eff X (list OverlayLayer.t * list HwcLayer.t) :=
  match planes with
  | [] => mret (in_flight_layers, source_layers)
  | plane :: rest =>
      let layers := plane.(DisplayPlaneState.GetSourceLayers) in
      '(in_flight_layers, source_layers) ←
        (if plane.(DisplayPlaneState.Scanout)
            && negb plane.(DisplayPlaneState.SurfaceRecycled)
         then release_scanout fence layers in_flight_layers source_layers
         else
           release_fence ← touch (plane_ReleaseAcquireFence plane);
           r ← release_composed release_fence layers in_flight_layers source_layers;
           when (release_fence >? 0) (call_void (EvClose release_fence));;
           mret r);
      release_planes fence rest in_flight_layers source_layers
  end.

(** [SetReleaseFenceToLayers] returns the queue (its [in_flight_layers_]
    updated) and the caller's layers. *)
Definition SetReleaseFenceToLayers (fence : Z) (source_layers : list HwcLayer.t)
    (q : DisplayQueue) : Eff X (DisplayQueue * list HwcLayer.t) :=
  '(in_flight_layers, source_layers) ←
    release_planes fence q.(previous_plane_state_) q.(in_flight_layers_) source_layers;
  mret (set_in_flight_layers_ in_flight_layers q, source_layers).

(** *** GetCachedLayers *)

(** The local variables of the scan over the source layers of a plane that
    needs offscreen composition. *)
Record DamageScan := {
  surface_damage : HwcRect.t;
  update_rect : bool;
  update_source_rect : bool;
  damage_initialized : bool;
  only_cursor_rect_changed : bool;
  refresh_surfaces : bool
}.

(** The block entered when [remove_index != -1].  [primary] is the display
    plane of the first entry of [previous_plane_state_]. *)
Definition cache_removal (layers : list OverlayLayer.t) (remove_index : Z)
    (primary : nat) (last_plane : DisplayPlaneState.t) (st : CacheLoop.t)
    : Eff X (Flow (DisplayPlaneState.t * bool * CacheLoop.t) CacheLoop.t) :=
  let source_layers := last_plane.(DisplayPlaneState.GetSourceLayers) in
  index ← at_ source_layers (length source_layers - 1);
  match Int.size_of_int remove_index with
  | None => mret (Next (last_plane, false, st))
  | Some threshold =>
    if negb (threshold <=? index)%nat then mret (Next (last_plane, false, st))
    else
      let has_one_layer := (length source_layers =? 1)%nat in
      '(last_plane, clear_surface) ←
        (if negb has_one_layer then
           plane ← touch (plane_call (DisplayPlaneState.ResetLayers layers threshold)
                            last_plane);
           mret (plane, true)
         else mret (last_plane, false));
      let st := CacheLoop.set_ignore_commit false st in
      if bool_decide (last_plane.(DisplayPlaneState.GetSourceLayers) = [])
         || has_one_layer then
        '(last_plane, surfaces_not_inuse) ←
          call EvMarkSurfacesForRecycling
            (MarkSurfacesForRecycling last_plane st.(CacheLoop.surfaces_not_inuse) false);
        let st := CacheLoop.set_surfaces_not_inuse surfaces_not_inuse st in
        if (last_plane.(DisplayPlaneState.GetDisplayPlane) =? primary)%nat then
          mret (Return (CacheLoop.set_composition
                          (st.(CacheLoop.composition) ++ [last_plane]) st))
        else
          call_void (EvDisplayPlaneSetInUse
                       last_plane.(DisplayPlaneState.GetDisplayPlane) false);;
          mret (Continue st)
      else
        last_plane ← touch (plane_call DisplayPlaneState.ValidateReValidation last_plane);
        if has_bits last_plane.(DisplayPlaneState.RevalidationType)
                    ReValidationType_kScanout then
          let source_layers := last_plane.(DisplayPlaneState.GetSourceLayers) in
          first ← at_ source_layers 0;
          layer ← at_ layers first;
          if layer.(OverlayLayer.CanScanOut)
             && last_plane.(DisplayPlaneState.NeedsOffScreenComposition) then
            mret (Next (last_plane, clear_surface,
                        CacheLoop.set_plane_validation true st))
          else if (length source_layers =? 1)%nat then
            last_plane ←
              touch (plane_call
                       (DisplayPlaneState.RevalidationDone ReValidationType_kScanout)
                       last_plane);
            mret (Next (last_plane, clear_surface,
                        CacheLoop.set_check_to_squash true st))
          else mret (Next (last_plane, clear_surface, st))
        else mret (Next (last_plane, clear_surface, st))
  end.

(** The scan [for (i = 0; i < layers_size; i++)] over the source layers of
    an offscreen plane; [indices] is [0 .. layers_size - 1]. *)
Fixpoint cache_damage (layers : list OverlayLayer.t) (full_reset : bool)
    (indices : list nat) (last_plane : DisplayPlaneState.t) (d : DamageScan)
    : Eff X (DisplayPlaneState.t * DamageScan) :=
  match indices with
  | [] => mret (last_plane, d)
  | i :: rest =>
      source_index ← at_ last_plane.(DisplayPlaneState.GetSourceLayers) i;
      layer ← at_ layers source_index;
      '(last_plane, d) ←
        (if layer.(OverlayLayer.HasDimensionsChanged) then
           plane ← touch (plane_call
                            (DisplayPlaneState.UpdateDisplayFrame
                               layer.(OverlayLayer.GetDisplayFrame)
                               layer.(OverlayLayer.NeedsFullDraw)) last_plane);
           mret (plane,
                 {| surface_damage := d.(surface_damage);
                    update_rect := true;
                    update_source_rect := d.(update_source_rect);
                    damage_initialized := d.(damage_initialized);
                    only_cursor_rect_changed :=
                      if negb layer.(OverlayLayer.IsCursorLayer) then false
                      else d.(only_cursor_rect_changed);
                    refresh_surfaces := d.(refresh_surfaces) |})
         else mret (last_plane, d));
      '(last_plane, d) ←
        (if layer.(OverlayLayer.HasSourceRectChanged) then
           plane ← touch (plane_call
                            (DisplayPlaneState.UpdateSourceCrop
                               layer.(OverlayLayer.GetSourceCrop)
                               layer.(OverlayLayer.NeedsFullDraw)) last_plane);
           mret (plane,
                 {| surface_damage := d.(surface_damage);
                    update_rect := d.(update_rect);
                    update_source_rect := true;
                    damage_initialized := d.(damage_initialized);
                    only_cursor_rect_changed :=
                      if negb layer.(OverlayLayer.IsCursorLayer) then false
                      else d.(only_cursor_rect_changed);
                    refresh_surfaces := d.(refresh_surfaces) |})
         else mret (last_plane, d));
      let d :=
        if full_reset then d
        else if d.(refresh_surfaces) then d
        else
          let changed := layer.(OverlayLayer.HasLayerContentChanged) in
          let damage := layer.(OverlayLayer.GetSurfaceDamage) in
          {| surface_damage :=
               if changed then
                 if d.(damage_initialized)
                 then CalculateRect damage d.(surface_damage)
                 else damage
               else d.(surface_damage);
             update_rect := d.(update_rect);
             update_source_rect := d.(update_source_rect);
             damage_initialized := if changed then true else d.(damage_initialized);
             only_cursor_rect_changed := d.(only_cursor_rect_changed);
             refresh_surfaces := layer.(OverlayLayer.NeedsFullDraw) |} in
      cache_damage layers full_reset rest last_plane d
  end.

(** The branch for a plane that needs offscreen composition. *)
Definition cache_offscreen (layers : list OverlayLayer.t) (clear_surface : bool)
    (last_plane : DisplayPlaneState.t) (st : CacheLoop.t)
    : Eff X (DisplayPlaneState.t * CacheLoop.t) :=
  let full_reset := clear_surface || st.(CacheLoop.reset_composition_regions) in
  let d :=
    {| surface_damage := {| HwcRect.left := 0; HwcRect.top := 0;
                            HwcRect.right := 0; HwcRect.bottom := 0 |};
       update_rect := false;
       update_source_rect := false;
       damage_initialized := false;
       only_cursor_rect_changed := true;
       refresh_surfaces := st.(CacheLoop.reset_composition_regions) |} in
  let layers_size := length last_plane.(DisplayPlaneState.GetSourceLayers) in
  '(last_plane, d) ←
    (if negb clear_surface
     then cache_damage layers full_reset (seq 0 layers_size) last_plane d
     else mret (last_plane, d));
  '(last_plane, st) ←
    (if d.(update_rect) || d.(update_source_rect) || clear_surface then
       plane ← touch (plane_call DisplayPlaneState.ValidateReValidation last_plane);
       mret (plane,
             if negb (plane.(DisplayPlaneState.RevalidationType)
                      =? ReValidationType_kNone)
             then CacheLoop.set_plane_validation true st
             else st)
     else mret (last_plane, st));
  last_plane ←
    (if full_reset || negb (HwcRect_empty d.(surface_damage)) || d.(update_rect)
        || d.(update_source_rect) || d.(refresh_surfaces) then
       if last_plane.(DisplayPlaneState.NeedsSurfaceAllocation) then
         call EvSetOffScreenPlaneTarget (SetOffScreenPlaneTarget last_plane)
       else if full_reset || d.(refresh_surfaces) then
         touch (plane_call
                  (DisplayPlaneState.RefreshSurfaces NativeSurface_kFullClear
                     d.(refresh_surfaces)) last_plane)
       else if d.(update_rect) || d.(update_source_rect) then
         touch (plane_call (DisplayPlaneState.UpdateDamage d.(surface_damage))
                  last_plane)
       else if negb (HwcRect_empty d.(surface_damage)) then
         touch (plane_call (DisplayPlaneState.UpdateDamage d.(surface_damage))
                  last_plane)
       else mret last_plane
     else mret last_plane);
  let st :=
    if negb st.(CacheLoop.needs_gpu_composition)
    then CacheLoop.set_needs_gpu_composition
           (negb last_plane.(DisplayPlaneState.SurfaceRecycled)) st
    else st in
  mret (last_plane, CacheLoop.set_reset_composition_regions false st).

(** The branch for a plane that is scanned out directly.  [front()] of an
    empty vector is undefined; it is taken to fail like [at(0)]. *)
Definition cache_scanout (layers : list OverlayLayer.t) (gpu_fd : Z)
    (last_plane : DisplayPlaneState.t) (st : CacheLoop.t)
    : Eff X (Flow (DisplayPlaneState.t * CacheLoop.t) CacheLoop.t) :=
  let st := CacheLoop.set_reset_composition_regions false st in
  front ← at_ last_plane.(DisplayPlaneState.GetSourceLayers) 0;
  layer ← at_ layers front;
  let buffer := layer.(OverlayLayer.GetBuffer) in
  fb ← query (GetFb buffer);
  created ←
    (if fb =? 0 then
       call_void (EvCreateFrameBuffer buffer gpu_fd);;
       fb ← query (GetFb buffer);
       if fb =? 0 then mret None
       else mret (Some (CacheLoop.set_reset_composition_regions true st))
     else mret (Some st));
  match created with
  | None =>
      mret (Return (CacheLoop.set_composition
                      (st.(CacheLoop.composition) ++ [last_plane]) st))
  | Some st =>
      last_plane ← touch (plane_call (DisplayPlaneState.SetOverlayLayer layer) last_plane);
      let st :=
        if layer.(OverlayLayer.HasLayerContentChanged)
        then CacheLoop.set_ignore_commit false st
        else st in
      let st :=
        if layer.(OverlayLayer.HasDimensionsChanged)
           || layer.(OverlayLayer.NeedsRevalidation)
           || layer.(OverlayLayer.NeedsFullDraw)
        then CacheLoop.set_reset_composition_regions true
               (CacheLoop.set_ignore_commit false st)
        else st in
      mret (Next (last_plane, st))
  end.

(** One iteration of the loop over [previous_plane_state_]: [Next] goes on
    with the following plane, [Return] leaves [GetCachedLayers]. *)
Definition cache_plane (layers : list OverlayLayer.t) (remove_index : Z)
    (primary : nat) (gpu_fd : Z) (previous_plane : DisplayPlaneState.t)
    (st : CacheLoop.t) : Eff X (Flow CacheLoop.t CacheLoop.t) :=
  last_plane ← touch (plane_call DisplayPlaneState.CopyState previous_plane);
  removal ←
    (if negb (remove_index =? -1)
     then cache_removal layers remove_index primary last_plane st
     else mret (Next (last_plane, false, st)));
  match removal with
  | Return st => mret (Return st)
  | Continue st => mret (Next st)
  | Next (last_plane, clear_surface, st) =>
      if last_plane.(DisplayPlaneState.NeedsOffScreenComposition) then
        '(last_plane, st) ← cache_offscreen layers clear_surface last_plane st;
        mret (Next (CacheLoop.set_composition
                      (st.(CacheLoop.composition) ++ [last_plane]) st))
      else
        scanout ← cache_scanout layers gpu_fd last_plane st;
        match scanout with
        | Next (last_plane, st) =>
            mret (Next (CacheLoop.set_composition
                          (st.(CacheLoop.composition) ++ [last_plane]) st))
        | Continue st => mret (Return st)
        | Return st => mret (Return st)
        end
  end.

Fixpoint cache_planes (layers : list OverlayLayer.t) (remove_index : Z)
    (primary : nat) (gpu_fd : Z) (planes : DisplayPlaneStateList)
    (st : CacheLoop.t) : Eff X (Flow CacheLoop.t CacheLoop.t) :=
  match planes with
  | [] => mret (Next st)
  | previous_plane :: rest =>
      step ← cache_plane layers remove_index primary gpu_fd previous_plane st;
      match step with
      | Next st => cache_planes layers remove_index primary gpu_fd rest st
      | Continue st => mret (Return st)
      | Return st => mret (Return st)
      end
  end.

Definition has_target (target : option NativeSurface) : bool :=
  match target with Some _ => true | None => false end.

(** The squash of the last overlay, entered when [check_to_squash] holds.
    [back()] of an empty vector is undefined; it is taken to fail like
    [at]. *)
Definition cache_squash (layers : list OverlayLayer.t) (st : CacheLoop.t)
    : Eff X CacheLoop.t :=
  let composition := st.(CacheLoop.composition) in
  let size := length composition in
  back ← at_ composition (size - 1);
  let size := if back.(DisplayPlaneState.IsCursorPlane) then (size - 1)%nat else size in
  if negb (2 <? size)%nat then mret st
  else
    old_plane ← at_ composition (size - 2);
    last_overlay ← at_ composition (size - 1);
    let source_layers := last_overlay.(DisplayPlaneState.GetSourceLayers) in
    if old_plane.(DisplayPlaneState.CanSquash)
       && last_overlay.(DisplayPlaneState.CanSquash)
       && (length source_layers =? 1)%nat then
      first ← at_ source_layers 0;
      layer ← at_ layers first;
      old_plane ← touch (plane_call (DisplayPlaneState.AddLayer layer) old_plane);
      old_plane ← call EvSetOffScreenPlaneTarget (SetOffScreenPlaneTarget old_plane);
      '(last_overlay, surfaces_not_inuse) ←
        (if has_target last_overlay.(DisplayPlaneState.GetOffScreenTarget) then
           call EvMarkSurfacesForRecycling
             (MarkSurfacesForRecycling last_overlay
                st.(CacheLoop.surfaces_not_inuse) false)
         else mret (last_overlay, st.(CacheLoop.surfaces_not_inuse)));
      call_void (EvDisplayPlaneSetInUse
                   last_overlay.(DisplayPlaneState.GetDisplayPlane) false);;
      let composition := <[(size - 2)%nat := old_plane]> composition in
      let composition := delete (size - 1)%nat composition in
      mret (CacheLoop.set_surfaces_not_inuse surfaces_not_inuse
              (CacheLoop.set_composition composition st))
    else mret st.

(** [GetCachedLayers], called as [QueueUpdate] calls it: with an empty
    [composition] and with [false] behind the three flag pointers. *)
Definition GetCachedLayers (layers : list OverlayLayer.t) (remove_index : Z)
    (q : DisplayQueue) : Eff X CachedLayers :=
  let primary :=
    match q.(previous_plane_state_) with
    | first :: _ => first.(DisplayPlaneState.GetDisplayPlane)
    | [] => 0%nat
    end in
  let st :=
    {| CacheLoop.composition := [];
       CacheLoop.surfaces_not_inuse := q.(surfaces_not_inuse_);
       CacheLoop.needs_gpu_composition := false;
       CacheLoop.ignore_commit := true;
       CacheLoop.check_to_squash := false;
       CacheLoop.plane_validation := false;
       CacheLoop.reset_composition_regions := false |} in
  scan ← cache_planes layers remove_index primary q.(gpu_fd_)
           q.(previous_plane_state_) st;
  match scan with
  | Next st =>
      let needs_gpu_composition := st.(CacheLoop.needs_gpu_composition) in
      let ignore_commit :=
        if needs_gpu_composition then false else st.(CacheLoop.ignore_commit) in
      let plane_validation := st.(CacheLoop.plane_validation) in
      st ← (if st.(CacheLoop.check_to_squash) then cache_squash layers st else mret st);
      mret {| cached_composition := st.(CacheLoop.composition);
              cached_surfaces_not_inuse := st.(CacheLoop.surfaces_not_inuse);
              render_layers := needs_gpu_composition;
              can_ignore_commit := ignore_commit;
              needs_plane_validation := plane_validation;
              force_full_validation := false |}
  | Continue st | Return st =>
      mret {| cached_composition := st.(CacheLoop.composition);
              cached_surfaces_not_inuse := st.(CacheLoop.surfaces_not_inuse);
              render_layers := false;
              can_ignore_commit := false;
              needs_plane_validation := false;
              force_full_validation := true |}
  end.

(** *** QueueUpdate *)

(** The display frame of a layer, scaled as [QueueUpdate] does when the
    scaling tracker asks for it. *)
Definition scaled_display_frame (tracker : ScalingTracker.t) (frame : HwcRect.t)
    : HwcRect.t :=
  {| HwcRect.left :=
       scale_coordinate frame.(HwcRect.left) tracker.(ScalingTracker.scaling_width);
     HwcRect.top :=
       scale_coordinate frame.(HwcRect.top) tracker.(ScalingTracker.scaling_height);
     HwcRect.right :=
       scale_coordinate frame.(HwcRect.right) tracker.(ScalingTracker.scaling_width);
     HwcRect.bottom :=
       scale_coordinate frame.(HwcRect.bottom) tracker.(ScalingTracker.scaling_height) |}.

Definition is_scaling (state : ScalingTracker.ScalingState) : bool :=
  match state with
  | ScalingTracker.kNeedsScaling => true
  | ScalingTracker.kNeeedsNoSclaing => false
  end.

(** A cursor or video layer that has appeared, gone or moved in z-order:
    the two blocks at the end of the loop body. *)
Definition kind_changed (previous_kind kind : bool)
    (previous_layer overlay_layer : OverlayLayer.t) (fr : Frame.t) : Frame.t :=
  if negb (Bool.eqb previous_kind kind) then
    let fr :=
      if fr.(Frame.remove_index) =? -1
      then Frame.set_remove_index
             (Int.to_signed previous_layer.(OverlayLayer.GetZorder)) fr
      else fr in
    if fr.(Frame.add_index) =? -1
    then Frame.set_add_index (Int.to_signed overlay_layer.(OverlayLayer.GetZorder)) fr
    else fr
  else fr.

(** The body of the first loop for a visible input layer, after its
    release fence has been reset. *)
Definition build_layer (q : DisplayQueue) (handle_constraints validate_layers : bool)
    (layer_index : nat) (layer : HwcLayer.t) (fr : Frame.t) : Eff X Frame.t :=
  let previous_size := length q.(in_flight_layers_) in
  let z_order := fr.(Frame.z_order) in
  let previous_layer :=
    if Z.of_nat previous_size >? z_order
    then q.(in_flight_layers_) !! Z.to_nat z_order
    else None in
  let fr :=
    if Z.of_nat previous_size >? z_order then fr
    else if fr.(Frame.add_index) =? -1
    then Frame.set_add_index (Int.to_signed z_order) fr
    else fr in
  height ← query GetHeight;
  overlay_layer ←
    (if is_scaling q.(scaling_tracker_).(ScalingTracker.scaling_state_) then
       let display_frame :=
         scaled_display_frame q.(scaling_tracker_) layer.(HwcLayer.GetDisplayFrame) in
       touch (InitializeFromScaledHwcLayer layer previous_layer z_order layer_index
                display_frame height q.(plane_transform_) handle_constraints)
     else
       touch (InitializeFromHwcLayer layer previous_layer z_order layer_index
                height q.(plane_transform_) handle_constraints));
  if negb overlay_layer.(OverlayLayer.IsVisible) then mret fr
  else
    let fr := Frame.set_layers (fr.(Frame.layers) ++ [overlay_layer]) fr in
    let fr :=
      if overlay_layer.(OverlayLayer.RawPixelDataChanged)
      then Frame.set_handle_raw_pixel_update true fr else fr in
    let fr :=
      if overlay_layer.(OverlayLayer.IsVideoLayer)
      then Frame.set_has_video_layer true fr else fr in
    let fr :=
      if overlay_layer.(OverlayLayer.NeedsRevalidation)
      then Frame.set_re_validate_commit true fr
      else if overlay_layer.(OverlayLayer.HasLayerContentChanged)
      then Frame.set_idle_frame false fr
      else fr in
    let fr :=
      if overlay_layer.(OverlayLayer.IsCursorLayer)
      then Frame.set_tracker (FrameHasCursor fr.(Frame.tracker)) fr else fr in
    let fr := Frame.set_z_order (Int.wrap32 (z_order + 1)) fr in
    if (fr.(Frame.add_index) =? 0) || validate_layers
       || (negb (fr.(Frame.add_index) =? -1) && negb (fr.(Frame.remove_index) =? -1))
    then mret fr
    else
      match previous_layer with
      | None => mret fr
      | Some previous_layer =>
          let fr :=
            kind_changed previous_layer.(OverlayLayer.IsCursorLayer)
              overlay_layer.(OverlayLayer.IsCursorLayer)
              previous_layer overlay_layer fr in
          let fr :=
            kind_changed previous_layer.(OverlayLayer.IsVideoLayer)
              overlay_layer.(OverlayLayer.IsVideoLayer)
              previous_layer overlay_layer fr in
          mret fr
      end.

(** The first loop.  It returns the caller's layers, each with its release
    fence reset, and the locals. *)
Fixpoint build_layers (q : DisplayQueue) (handle_constraints validate_layers : bool)
    (layer_index : nat) (source_layers : list HwcLayer.t) (fr : Frame.t)
    : Eff X (list HwcLayer.t * Frame.t) :=
  match source_layers with
  | [] => mret ([], fr)
  | layer :: rest =>
      let layer := HwcLayer.SetReleaseFence (-1) layer in
      fr ← (if negb layer.(HwcLayer.IsVisible) then mret fr
            else build_layer q handle_constraints validate_layers layer_index layer fr);
      '(rest, fr) ←
        build_layers q handle_constraints validate_layers (S layer_index) rest fr;
      mret (layer :: rest, fr)
  end.

(** The block after the loop that settles [validate_layers] and
    [remove_index]; [size] is the number of layers kept. *)
Definition settle_indices (add_index remove_index : Z) (validate_layers : bool)
    (previous_size size : nat) : bool * Z :=
  if (add_index =? 0) || validate_layers then (true, remove_index)
  else if (size <? previous_size)%nat then
    if remove_index =? -1 then (false, Int.int_of_nat size)
    else if negb (add_index =? -1) then (false, Z.min add_index remove_index)
    else (false, remove_index)
  else (false, remove_index).

(** [validate_layers] as [QueueUpdate] first computes it. *)
Definition initial_validate_layers (q : DisplayQueue) : bool :=
  q.(last_commit_failed_update_) || bool_decide (q.(previous_plane_state_) = []).

(** The locals of [QueueUpdate] as they are declared before the first
    loop. *)
Definition locals (tracker : FrameStateTracker.t) (idle_update : bool) : Frame.t :=
  {| Frame.layers := [];
     Frame.remove_index := -1;
     Frame.add_index := -1;
     Frame.idle_frame := RenderIdleMode tracker || idle_update;
     Frame.z_order := 0;
     Frame.has_video_layer := false;
     Frame.re_validate_commit := false;
     Frame.handle_raw_pixel_update := false;
     Frame.tracker := tracker |}.

(** [QueueUpdate] from the first loop up to the comment "Validate Overlays
    and Layers usage"; [tracker] is [idle_tracker_] after the scoped tracker
    has been set up. *)
Definition prepare (source_layers : list HwcLayer.t)
    (idle_update handle_constraints : bool) (tracker : FrameStateTracker.t)
    (q : DisplayQueue) : Eff X Prepared :=
  let previous_size := length q.(in_flight_layers_) in
  let fr := locals tracker idle_update in
  let validate_layers := initial_validate_layers q in
  '(source_layers, fr) ←
    build_layers q handle_constraints validate_layers 0 source_layers fr;
  when fr.(Frame.handle_raw_pixel_update)
       (call_void (EvCompositorUpdateLayerPixelData fr.(Frame.layers)));;
  let size := length fr.(Frame.layers) in
  let '(validate_layers, remove_index) :=
    settle_indices fr.(Frame.add_index) fr.(Frame.remove_index) validate_layers
      previous_size size in
  let fr := Frame.set_remove_index remove_index fr in
  let fr :=
    if fr.(Frame.idle_frame)
       && (negb (fr.(Frame.add_index) =? -1) || negb (fr.(Frame.remove_index) =? -1)
           || fr.(Frame.re_validate_commit))
    then Frame.set_idle_frame false fr
    else fr in
  let validate_layers :=
    if negb validate_layers then fr.(Frame.idle_frame) else validate_layers in
  '(fr, validate_layers, force_media_composition, requested_video_effect, q) ←
    (if fr.(Frame.has_video_layer) then
       emit (EvLock video_lock_);;
       let r :=
         if negb (Bool.eqb q.(requested_video_effect_) q.(applied_video_effect_))
         then (Frame.set_idle_frame false fr, true, true, q.(requested_video_effect_),
               set_applied_video_effect_ q.(requested_video_effect_) q)
         else (fr, validate_layers, false, false, q) in
       emit (EvUnlock video_lock_);;
       mret r
     else mret (fr, validate_layers, false, false, q));
  let disable_ovelays := has q.(state_) kDisableOverlayUsage in
  let validate_layers :=
    if negb validate_layers && RevalidateLayers fr.(Frame.tracker)
    then true else validate_layers in
  mret {| frame := fr;
          validate_layers := validate_layers;
          force_media_composition := force_media_composition;
          requested_video_effect := requested_video_effect;
          disable_ovelays := disable_ovelays;
          prepared_queue := q;
          prepared_layers := source_layers |}.

(** The block [if (!validate_layers) { ... }], entered with
    [validate_layers] false. *)
Definition incremental (p : Prepared) : Eff X Incremental :=
  let q := p.(prepared_queue) in
  let fr := p.(frame) in
  let layers := fr.(Frame.layers) in
  let re_validate_commit := fr.(Frame.re_validate_commit) in
  cached ← GetCachedLayers layers fr.(Frame.remove_index) q;
  let validate_layers := cached.(force_full_validation) in
  let render_layers := cached.(render_layers) in
  let can_ignore_commit := cached.(can_ignore_commit) in
  let needs_plane_validation := cached.(needs_plane_validation) in
  let current := cached.(cached_composition) in
  let surfaces_not_inuse := cached.(cached_surfaces_not_inuse) in
  '(render_layers, can_ignore_commit, re_validate_commit, needs_plane_validation,
    current, surfaces_not_inuse) ←
    (if negb validate_layers && (fr.(Frame.add_index) >? 0) then
       '(render_cursor, commit_checked, needs_plane_validation, current,
         surfaces_not_inuse) ←
         call (EvValidateLayers fr.(Frame.add_index))
           (ValidateLayers layers fr.(Frame.add_index) p.(disable_ovelays) false
              needs_plane_validation current q.(previous_plane_state_)
              surfaces_not_inuse);
       mret (if negb render_layers then render_cursor else render_layers,
             false,
             if (commit_checked : bool) then false else re_validate_commit,
             needs_plane_validation, current, surfaces_not_inuse)
     else mret (render_layers, can_ignore_commit, re_validate_commit,
                needs_plane_validation, current, surfaces_not_inuse));
  '(validate_layers, render_layers, can_ignore_commit, current, surfaces_not_inuse) ←
    (if negb validate_layers && (re_validate_commit || needs_plane_validation) then
       '(render, validate_layers, current, surfaces_not_inuse) ←
         call EvReValidatePlanes
           (ReValidatePlanes current layers surfaces_not_inuse validate_layers
              needs_plane_validation re_validate_commit);
       mret (validate_layers,
             if negb render_layers then render else render_layers,
             false, current, surfaces_not_inuse)
     else mret (validate_layers, render_layers, can_ignore_commit, current,
                surfaces_not_inuse));
  if negb validate_layers then
    '(render_layers, can_ignore_commit, current, surfaces_not_inuse) ←
      (if p.(force_media_composition) then
         '(current, surfaces_not_inuse) ←
           SetMediaEffectsState p.(requested_video_effect) layers current
             surfaces_not_inuse;
         mret (true, false, current, surfaces_not_inuse)
       else mret (render_layers, can_ignore_commit, current, surfaces_not_inuse));
    if (can_ignore_commit : bool) then mret (IgnoreCommit surfaces_not_inuse)
    else mret (Proceed validate_layers render_layers current surfaces_not_inuse)
  else mret (Proceed validate_layers render_layers current surfaces_not_inuse).

(** The wait on the retained out-fence of the previous commit. *)
Definition wait_kms_fence (q : DisplayQueue) : Eff X DisplayQueue :=
  if q.(kms_fence_) >? 0 then
    call_void (EvHWCPoll q.(kms_fence_));;
    call_void (EvClose q.(kms_fence_));;
    mret (set_kms_fence_ 0 q)
  else mret q.

(** The surfaces of [mark_not_inuse_] get age [-1]. *)
Definition mark_released (surfaces : list NativeSurface) (o : Outside X) : Outside X :=
  fold_left (fun o surface => SetSurfaceAge surface (-1) o) surfaces o.

(** The pass over [surfaces_not_inuse_] after a commit; the age is read
    into a [uint32_t].  It returns [temp], [mark_not_inuse_] and the ages. *)
Fixpoint age_not_inuse (surfaces temp mark_not_inuse : list NativeSurface)
    (o : Outside X) : list NativeSurface * list NativeSurface * Outside X :=
  match surfaces with
  | [] => (temp, mark_not_inuse, o)
  | surface :: rest =>
      let age := Int.wrap32 (GetSurfaceAge surface o) in
      if age >? 0 then
        age_not_inuse rest (temp ++ [surface]) mark_not_inuse
          (SetSurfaceAge surface (GetSurfaceAge surface o - 1) o)
      else age_not_inuse rest temp (mark_not_inuse ++ [surface]) o
  end.

(** Every [return] of [QueueUpdate] past the first one runs the destructor
    of the scoped tracker. *)
Definition leave (ok : bool) (tracker : FrameStateTracker.t) (q : DisplayQueue)
    (source_layers : list HwcLayer.t) (retire_fence : Z) : Eff X Update :=
  tracker ← touch (ScopedIdleStateTracker_leave tracker);
  mret {| result := ok;
          queue := set_idle_tracker_ tracker q;
          updated_layers := source_layers;
          retire_fence_out := retire_fence |}.

(** [QueueUpdate] after a successful commit that returned [fence]. *)
Definition publish (p : Prepared) (validate_layers : bool)
    (tracker : FrameStateTracker.t) (current : DisplayPlaneStateList) (fence : Z)
    (q : DisplayQueue) : Eff X Update :=
  let fr := p.(frame) in
  q ← (if negb (bool_decide (q.(mark_not_inuse_) = [])) then
         touch (fun o => (tt, mark_released q.(mark_not_inuse_) o));;
         mret (set_mark_not_inuse_ [] q)
       else mret q);
  let q := set_in_flight_layers_ fr.(Frame.layers) q in
  let q := set_previous_plane_state_ current q in
  touch (fun o => (tt, UpdateOnScreenSurfaces q o));;
  q ← (if negb (bool_decide (q.(surfaces_not_inuse_) = [])) then
         '(temp, mark_not_inuse) ←
           touch (fun o =>
                    let '(temp, mark_not_inuse, o) :=
                      age_not_inuse q.(surfaces_not_inuse_) [] q.(mark_not_inuse_) o in
                    ((temp, mark_not_inuse), o));
         mret (set_surfaces_not_inuse_ temp (set_mark_not_inuse_ mark_not_inuse q))
       else mret q);
  '(q, tracker) ←
    (if fr.(Frame.idle_frame) then
       q ← ReleaseSurfaces q;
       let q := set_state_ (set_bits q.(state_) (mask kLastFrameIdleUpdate)) q in
       mret (q,
             if has q.(state_) kClonedMode
             then FrameStateTracker.set_state_
                    (set_bits tracker.(FrameStateTracker.state_)
                       (mask FrameStateTracker.kRenderIdleDisplay)) tracker
             else tracker)
     else
       let q := set_state_ (clear_bits q.(state_) (mask kLastFrameIdleUpdate)) q in
       q ← ReleaseSurfacesAsNeeded validate_layers q;
       mret (q, tracker));
  '(q, source_layers, retire_fence) ←
    (if fence >? 0 then
       retire_fence ←
         (if negb (has q.(state_) kClonedMode)
          then call_with (EvDup fence) (dup fence)
          else mret (-1));
       let q := set_kms_fence_ fence q in
       '(q, source_layers) ← SetReleaseFenceToLayers fence p.(prepared_layers) q;
       mret (q, source_layers, retire_fence)
     else mret (q, p.(prepared_layers), -1));
  q ← (if ENABLE_DOUBLE_BUFFERING then wait_kms_fence q else mret q);
  q ← (if q.(handle_display_initializations_) then
         let q := set_handle_display_initializations_ false q in
         call_void EvDisplayHandleLazyInitialization;;
         mret q
       else mret q);
  leave true tracker q source_layers retire_fence.

(** The block [if (validate_layers) { ... }]: the full validation.  It
    returns the tracker, [render_layers], the planes and the queue. *)
Definition validate_fully (p : Prepared) (validate_layers render_layers : bool)
    (current : DisplayPlaneStateList) (q : DisplayQueue)
    : Eff X (FrameStateTracker.t * bool * DisplayPlaneStateList * DisplayQueue) :=
  let fr := p.(frame) in
  let layers := fr.(Frame.layers) in
  if validate_layers then
    let tracker :=
      if negb fr.(Frame.idle_frame)
      then ResetTrackerState fr.(Frame.tracker)
      else fr.(Frame.tracker) in
    let force_gpu :=
      p.(disable_ovelays) || fr.(Frame.idle_frame)
      || (has q.(state_) kConfigurationChanged && (1 <? length layers)%nat) in
    '(render_layers, _, _, current, surfaces_not_inuse) ←
      call (EvValidateLayers 0)
        (ValidateLayers layers 0 force_gpu false false current
           q.(previous_plane_state_) q.(surfaces_not_inuse_));
    '(render_layers, current, surfaces_not_inuse) ←
      (if p.(force_media_composition) && p.(requested_video_effect) then
         '(current, surfaces_not_inuse) ←
           SetMediaEffectsState p.(requested_video_effect) layers current
             surfaces_not_inuse;
         mret (true, current, surfaces_not_inuse)
       else mret (render_layers, current, surfaces_not_inuse));
    let q := set_surfaces_not_inuse_ surfaces_not_inuse q in
    let q := set_state_ (clear_bits q.(state_) (mask kConfigurationChanged)) q in
    mret (tracker, render_layers, current, q)
  else mret (fr.(Frame.tracker), render_layers, current, q).

(** The block "Handle any 3D Composition": it returns
    [composition_passed]. *)
Definition compose (p : Prepared) (render_layers : bool)
    (current : DisplayPlaneStateList) : Eff X bool :=
  let layers := p.(frame).(Frame.layers) in
  if render_layers then
    begun ← call_with (EvCompositorBeginFrame p.(disable_ovelays))
              (BeginFrame p.(disable_ovelays));
    if (begun : bool) then
      let layers_rects := map OverlayLayer.GetDisplayFrame layers in
      call_with EvCompositorDraw (Draw current layers layers_rects)
    else mret false
  else
    when p.(frame).(Frame.handle_raw_pixel_update)
         (call_void EvCompositorEnsurePixelDataUpdated);;
    mret true.

(** The block [if (state_ & kNeedsColorCorrection) { ... }]. *)
Definition correct_color (q : DisplayQueue) : Eff X DisplayQueue :=
  if has q.(state_) kNeedsColorCorrection then
    call_void (EvDisplaySetColorCorrection q.(gamma_) q.(contrast_) q.(brightness_));;
    call_void (EvDisplaySetColorTransformMatrix q.(color_transform_matrix_)
                 q.(color_transform_hint_));;
    mret (set_state_ (clear_bits q.(state_) (mask kNeedsColorCorrection)) q)
  else mret q.

(** [QueueUpdate] from the statement that resets
    [last_commit_failed_update_] to its end. *)
Definition compose_and_commit (p : Prepared) (validate_layers render_layers : bool)
    (current : DisplayPlaneStateList) (surfaces_not_inuse : list NativeSurface)
    : Eff X Update :=
  let q := set_surfaces_not_inuse_ surfaces_not_inuse p.(prepared_queue) in
  let q := set_last_commit_failed_update_ false q in
  '(tracker, render_layers, current, q) ←
    validate_fully p validate_layers render_layers current q;
  composition_passed ← compose p render_layers current;
  if negb composition_passed then
    leave false tracker (set_last_commit_failed_update_ true q)
      p.(prepared_layers) (-1)
  else
    q ← (if negb ENABLE_DOUBLE_BUFFERING then wait_kms_fence q else mret q);
    q ← correct_color q;
    '(composition_passed, fence) ←
      call_with (fun r => EvDisplayCommit (fst r) (snd r))
        (Commit current q.(previous_plane_state_) p.(disable_ovelays));
    if negb composition_passed then
      leave false tracker (set_last_commit_failed_update_ true q)
        p.(prepared_layers) (-1)
    else publish p validate_layers tracker current fence q.

Definition QueueUpdate (source_layers : list HwcLayer.t) (retire_fence : Z)
    (idle_update handle_constraints : bool) (q : DisplayQueue) : Eff X Update :=
  tracker ← touch (ScopedIdleStateTracker_enter q.(idle_tracker_));
  if IgnoreUpdate tracker then leave true tracker q source_layers retire_fence
  else
    p ← prepare source_layers idle_update handle_constraints tracker q;
    if negb p.(validate_layers) then
      outcome ← incremental p;
      match outcome with
      | IgnoreCommit surfaces_not_inuse =>
          let q := set_surfaces_not_inuse_ surfaces_not_inuse p.(prepared_queue) in
          let q := set_in_flight_layers_ p.(frame).(Frame.layers) q in
          leave true p.(frame).(Frame.tracker) q p.(prepared_layers) (-1)
      | Proceed validate_layers render_layers current surfaces_not_inuse =>
          compose_and_commit p validate_layers render_layers current surfaces_not_inuse
      end
    else
      compose_and_commit p true false []
        p.(prepared_queue).(surfaces_not_inuse_).

End DisplayQueue.

(** ** Further operations of [DisplayQueue] *)

Definition set_plane_transform_ (v : Z) (q : DisplayQueue) : DisplayQueue :=
  {| state_ := q.(state_);
     idle_tracker_ := q.(idle_tracker_);
     scaling_tracker_ := q.(scaling_tracker_);
     in_flight_layers_ := q.(in_flight_layers_);
     previous_plane_state_ := q.(previous_plane_state_);
     mark_not_inuse_ := q.(mark_not_inuse_);
     surfaces_not_inuse_ := q.(surfaces_not_inuse_);
     last_commit_failed_update_ := q.(last_commit_failed_update_);
     kms_fence_ := q.(kms_fence_);
     requested_video_effect_ := q.(requested_video_effect_);
     applied_video_effect_ := q.(applied_video_effect_);
     handle_display_initializations_ := q.(handle_display_initializations_);
     plane_transform_ := v;
     gamma_ := q.(gamma_);
     contrast_ := q.(contrast_);
     brightness_ := q.(brightness_);
     color_transform_matrix_ := q.(color_transform_matrix_);
     color_transform_hint_ := q.(color_transform_hint_);
     refresh_callback_ := q.(refresh_callback_);
     refrsh_display_id_ := q.(refrsh_display_id_);
     gpu_fd_ := q.(gpu_fd_) |}.

(** The fields that the color correction of a commit reads. *)
Definition set_color_ (gamma : float * float * float) (contrast brightness : Z)
    (matrix : list float) (hint : Z) (q : DisplayQueue) : DisplayQueue :=
  {| state_ := q.(state_);
     idle_tracker_ := q.(idle_tracker_);
     scaling_tracker_ := q.(scaling_tracker_);
     in_flight_layers_ := q.(in_flight_layers_);
     previous_plane_state_ := q.(previous_plane_state_);
     mark_not_inuse_ := q.(mark_not_inuse_);
     surfaces_not_inuse_ := q.(surfaces_not_inuse_);
     last_commit_failed_update_ := q.(last_commit_failed_update_);
     kms_fence_ := q.(kms_fence_);
     requested_video_effect_ := q.(requested_video_effect_);
     applied_video_effect_ := q.(applied_video_effect_);
     handle_display_initializations_ := q.(handle_display_initializations_);
     plane_transform_ := q.(plane_transform_);
     gamma_ := gamma;
     contrast_ := contrast;
     brightness_ := brightness;
     color_transform_matrix_ := matrix;
     color_transform_hint_ := hint;
     refresh_callback_ := q.(refresh_callback_);
     refrsh_display_id_ := q.(refrsh_display_id_);
     gpu_fd_ := q.(gpu_fd_) |}.


Definition set_contrast_ (v : Z) (q : DisplayQueue) : DisplayQueue :=
  set_color_ q.(gamma_) v q.(brightness_) q.(color_transform_matrix_)
    q.(color_transform_hint_) q.

Definition set_brightness_ (v : Z) (q : DisplayQueue) : DisplayQueue :=
  set_color_ q.(gamma_) q.(contrast_) v q.(color_transform_matrix_)
    q.(color_transform_hint_) q.



Definition set_refresh_callback_ (callback : option nat) (display_id : Z)
    (q : DisplayQueue) : DisplayQueue :=
  {| state_ := q.(state_);
     idle_tracker_ := q.(idle_tracker_);
     scaling_tracker_ := q.(scaling_tracker_);
     in_flight_layers_ := q.(in_flight_layers_);
     previous_plane_state_ := q.(previous_plane_state_);
     mark_not_inuse_ := q.(mark_not_inuse_);
     surfaces_not_inuse_ := q.(surfaces_not_inuse_);
     last_commit_failed_update_ := q.(last_commit_failed_update_);
     kms_fence_ := q.(kms_fence_);
     requested_video_effect_ := q.(requested_video_effect_);
     applied_video_effect_ := q.(applied_video_effect_);
     handle_display_initializations_ := q.(handle_display_initializations_);
     plane_transform_ := q.(plane_transform_);
     gamma_ := q.(gamma_);
     contrast_ := q.(contrast_);
     brightness_ := q.(brightness_);
     color_transform_matrix_ := q.(color_transform_matrix_);
     color_transform_hint_ := q.(color_transform_hint_);
     refresh_callback_ := callback;
     refrsh_display_id_ := display_id;
     gpu_fd_ := q.(gpu_fd_) |}.

(** [HWCRotation], declared in [hwcdefs.h]. *)
Inductive HWCRotation := kRotateNone | kRotate90 | kRotate180 | kRotate270.

(** The three bytes that [SetContrast] and [SetBrightness] store: each
    channel is cut to its low byte before it is shifted into place, so the
    [uint32_t] arithmetic of the source cannot wrap. *)
Definition pack_channels (red green blue : Z) : Z :=
  let red := Z.land red 0xFF in
  let green := Z.land green 0xFF in
  let blue := Z.land blue 0xFF in
  Z.lor (Z.lor (Z.shiftl red 16) (Z.shiftl green 8)) blue.

Section Controls.
Context {X : Type} `{Constants} `{Collaborators X}.

(** What [hwcdefs.h] and the plane manager's header declare and
    [displayqueue.cpp] uses in the operations of this section: the
    enumerator [HWCColorTransform::kArbitraryMatrix], the three rotation
    bits of [HWCTransform], the quotient [float(a) / float(b)] of two
    [uint32_t] values, and two entry points of the plane manager and one of
    the vblank handler. *)
Variable kArbitraryMatrix : Z.
Variables kTransform90 kTransform180 kTransform270 : Z.
Variable float_ratio : Z -> Z -> float.
Variable SetDisplayTransform : Z -> Outside X -> Outside X.
Variable PlaneManager_Initialize : Z -> Z -> Z -> Outside X -> bool * Outside X.
Variable VblankEventHandler_Init : Z -> Z -> Outside X -> Outside X.

Definition SetCloneMode (cloned : bool) (q : DisplayQueue) : Eff X DisplayQueue :=
  if cloned then
    if negb (has q.(state_) kClonedMode) then
      let q := set_state_ (set_bits q.(state_) (mask kClonedMode)) q in
      call_void (EvVblankSetPowerMode kOff);;
      mret q
    else mret q
  else if has q.(state_) kClonedMode then
    let q := set_state_ (clear_bits q.(state_) (mask kClonedMode)) q in
    let q := set_state_ (set_bits q.(state_) (mask kConfigurationChanged)) q in
    call_void (EvVblankSetPowerMode kOn);;
    mret q
  else mret q.



Definition SetContrast (red green blue : Z) (q : DisplayQueue) : DisplayQueue :=
  let q := set_contrast_ (pack_channels red green blue) q in
  set_state_ (set_bits q.(state_) (mask kNeedsColorCorrection)) q.

Definition SetBrightness (red green blue : Z) (q : DisplayQueue) : DisplayQueue :=
  let q := set_brightness_ (pack_channels red green blue) q in
  set_state_ (set_bits q.(state_) (mask kNeedsColorCorrection)) q.

Definition SetExplicitSyncSupport (disable_explicit_sync : bool) (q : DisplayQueue)
    : DisplayQueue :=
  if disable_explicit_sync
  then set_state_ (set_bits q.(state_) (mask kDisableOverlayUsage)) q
  else set_state_ (clear_bits q.(state_) (mask kDisableOverlayUsage)) q.

(** [callback] is [None] for an empty [shared_ptr]. *)
Definition RegisterRefreshCallback (callback : option nat) (display_id : Z)
    (q : DisplayQueue) : Eff X DisplayQueue :=
  emit (EvLock idle_lock_);;
  let q := set_refresh_callback_ callback display_id q in
  emit (EvUnlock idle_lock_);;
  mret q.

Definition ForceRefresh (q : DisplayQueue) : Eff X DisplayQueue :=
  emit (EvLock idle_lock_);;
  let tr := q.(idle_tracker_) in
  let tr :=
    FrameStateTracker.set_state_
      (clear_bits tr.(FrameStateTracker.state_)
         (mask FrameStateTracker.kIgnoreUpdates)) tr in
  let tr :=
    FrameStateTracker.set_state_
      (set_bits tr.(FrameStateTracker.state_)
         (mask FrameStateTracker.kRevalidateLayers)) tr in
  let q := set_idle_tracker_ tr q in
  emit (EvUnlock idle_lock_);;
  emit (EvLock power_mode_lock_);;
  when (negb (has q.(state_) kIgnoreIdleRefresh)
        && is_registered q.(refresh_callback_)
        && has q.(state_) kPoweredOn)
       (call_void (EvRefreshCallback q.(refrsh_display_id_)));;
  emit (EvUnlock power_mode_lock_);;
  mret q.

Definition DisplayConfigurationChanged (q : DisplayQueue) : DisplayQueue :=
  set_state_ (set_bits q.(state_) (mask kConfigurationChanged)) q.

(** The four arguments are [uint32_t]: the areas and the difference of the
    widths and of the heights wrap. *)
Definition UpdateScalingRatio (primary_width primary_height display_width
    display_height : Z) (q : DisplayQueue) : DisplayQueue :=
  let primary_area := Int.wrap32 (primary_width * primary_height) in
  let display_area := Int.wrap32 (display_width * display_height) in
  let st :=
    if negb (primary_area =? display_area) then
      {| ScalingTracker.scaling_state_ := ScalingTracker.kNeedsScaling;
         ScalingTracker.scaling_width :=
           float_ratio (Int.wrap32 (display_width - primary_width)) primary_width;
         ScalingTracker.scaling_height :=
           float_ratio (Int.wrap32 (display_height - primary_height))
             primary_height |}
    else
      {| ScalingTracker.scaling_state_ := ScalingTracker.kNeeedsNoSclaing;
         ScalingTracker.scaling_width :=
           q.(scaling_tracker_).(ScalingTracker.scaling_width);
         ScalingTracker.scaling_height :=
           q.(scaling_tracker_).(ScalingTracker.scaling_height) |} in
  let q := set_scaling_tracker_ st q in
  set_state_ (set_bits q.(state_) (mask kConfigurationChanged)) q.

(** [rotation] is [None] for a value that is none of the enumerators. *)
Definition RotateDisplay (rotation : option HWCRotation) (q : DisplayQueue)
    : Eff X DisplayQueue :=
  let transform :=
    match rotation with
    | Some kRotate90 => Z.lor q.(plane_transform_) kTransform90
    | Some kRotate270 => Z.lor q.(plane_transform_) kTransform270
    | Some kRotate180 => Z.lor q.(plane_transform_) kTransform180
    | Some kRotateNone | None => q.(plane_transform_)
    end in
  let q := set_plane_transform_ transform q in
  touch (fun o => (tt, SetDisplayTransform q.(plane_transform_) o));;
  mret q.

(** [resource_manager] tells whether [resource_manager_] is set;
    [PlaneManager_Initialize] stands for the construction of the plane
    manager followed by its [Initialize]. *)
Definition Initialize (resource_manager : bool) (pipe width height : Z)
    (q : DisplayQueue) : Eff X (bool * DisplayQueue) :=
  if negb resource_manager then mret (false, q)
  else
    initialized ← touch (PlaneManager_Initialize q.(gpu_fd_) width height);
    if negb (initialized : bool) then mret (false, q)
    else
      touch (fun o => (tt, SetDisplayTransform q.(plane_transform_) o));;
      q ← ResetQueue q;
      call_void (EvVblankSetPowerMode kOff);;
      touch (fun o => (tt, VblankEventHandler_Init q.(gpu_fd_) pipe o));;
      mret (true, q).

End Controls.

(** ** Runs and observations *)

(** [n] consecutive vblank ticks with nothing else happening in between. *)
Fixpoint idle_run {X : Type} `{Constants} `{Collaborators X} (n : nat)
    (q : DisplayQueue) : Eff X DisplayQueue :=
  match n with
  | O => mret q
  | S n => q ← HandleIdleCase q; idle_run n q
  end.

(** The events an operation added to the trace. *)
Definition events_since {X : Type} (before after : Env X) : list Event :=
  drop (length before.(trace)) after.(trace).

Definition is_commit (e : Event) : bool :=
  match e with EvDisplayCommit _ _ => true | _ => false end.

Definition is_failed_commit (e : Event) : bool :=
  match e with EvDisplayCommit false _ => true | _ => false end.

Definition is_gpu_composition (e : Event) : bool :=
  match e with
  | EvCompositorBeginFrame _ _ | EvCompositorDraw _ => true
  | _ => false
  end.

Definition is_failed_composition (e : Event) : bool :=
  match e with
  | EvCompositorBeginFrame _ false | EvCompositorDraw false => true
  | _ => false
  end.

Definition is_dup (e : Event) : bool :=
  match e with EvDup _ _ => true | _ => false end.

Definition is_close_of (fd : Z) (e : Event) : bool :=
  match e with EvClose fd' => fd' =? fd | _ => false end.

Definition is_refresh_callback (e : Event) : bool :=
  match e with EvRefreshCallback _ => true | _ => false end.

Definition is_color_correction (e : Event) : bool :=
  match e with
  | EvDisplaySetColorCorrection _ _ _ | EvDisplaySetColorTransformMatrix _ _ => true
  | _ => false
  end.

Definition count (f : Event -> bool) (events : list Event) : nat :=
  length (List.filter f events).

(** The events of an operation are one critical section of lock [l]. *)
Definition under_lock (l : Lock) (events : list Event) : Prop :=
  exists body,
    events = EvLock l :: body ++ [EvUnlock l]
    /\ Forall (fun e => e <> EvLock l /\ e <> EvUnlock l) body.

(** The conditions under which [HandleIdleCase] returns at once. *)
Definition idle_blocked `{Constants} (tr : FrameStateTracker.t) : bool :=
  has tr.(FrameStateTracker.state_) FrameStateTracker.kPrepareComposition
  || (tr.(FrameStateTracker.total_planes_) <=? 1)
  || has tr.(FrameStateTracker.state_) FrameStateTracker.kTrackingFrames
  || has tr.(FrameStateTracker.state_) FrameStateTracker.kRevalidateLayers
  || tr.(FrameStateTracker.has_cursor_layer_).

(** The conditions under which [HandleIdleCase] invokes the refresh
    callback once the counter has reached [kidleframes]. *)
Definition refresh_allowed `{Constants} (q : DisplayQueue) : bool :=
  negb (has q.(state_) kIgnoreIdleRefresh)
  && is_registered q.(refresh_callback_)
  && has q.(state_) kPoweredOn.

(** The state word that [HandleExit] leaves: [kConfigurationChanged], with
    [kDisableOverlayUsage] and [kClonedMode] as they were. *)
Definition exit_word `{Constants} (word : Z) : Z :=
  let kept := mask kConfigurationChanged in
  let kept :=
    if has word kDisableOverlayUsage
    then set_bits kept (mask kDisableOverlayUsage) else kept in
  if has word kClonedMode then set_bits kept (mask kClonedMode) else kept.

(** The tracker that [ResetQueue] leaves. *)
Definition reset_tracker `{Constants} (tr : FrameStateTracker.t) : FrameStateTracker.t :=
  {| FrameStateTracker.state_ :=
       if has tr.(FrameStateTracker.state_) FrameStateTracker.kIgnoreUpdates
       then set_bits 0 (mask FrameStateTracker.kIgnoreUpdates) else 0;
     FrameStateTracker.idle_frames_ := 0;
     FrameStateTracker.has_cursor_layer_ := tr.(FrameStateTracker.has_cursor_layer_);
     FrameStateTracker.total_planes_ := tr.(FrameStateTracker.total_planes_);
     FrameStateTracker.revalidate_frames_counter_ :=
       tr.(FrameStateTracker.revalidate_frames_counter_) |}.

(** The queue that [HandleExit] leaves. *)
Definition exited `{Constants} (q : DisplayQueue) : DisplayQueue :=
  {| state_ := exit_word q.(state_);
     idle_tracker_ := reset_tracker q.(idle_tracker_);
     scaling_tracker_ := q.(scaling_tracker_);
     in_flight_layers_ := [];
     previous_plane_state_ := [];
     mark_not_inuse_ := [];
     surfaces_not_inuse_ := [];
     last_commit_failed_update_ := false;
     kms_fence_ := if q.(kms_fence_) >? 0 then 0 else q.(kms_fence_);
     requested_video_effect_ := q.(requested_video_effect_);
     applied_video_effect_ := false;
     handle_display_initializations_ := q.(handle_display_initializations_);
     plane_transform_ := q.(plane_transform_);
     gamma_ := q.(gamma_);
     contrast_ := q.(contrast_);
     brightness_ := q.(brightness_);
     color_transform_matrix_ := q.(color_transform_matrix_);
     color_transform_hint_ := q.(color_transform_hint_);
     refresh_callback_ := q.(refresh_callback_);
     refrsh_display_id_ := q.(refrsh_display_id_);
     gpu_fd_ := q.(gpu_fd_) |}.

Definition is_close (e : Event) : bool :=
  match e with EvClose _ => true | _ => false end.

(** The ages of a plane's surfaces after [UpdateOnScreenSurfaces]. *)
Definition aged {X : Type} (surfaces : list NativeSurface) (o : Outside X) : Prop :=
  (forall s0 s1 s2, surfaces = [s0; s1; s2] ->
     GetSurfaceAge s0 o = 2 /\ GetSurfaceAge s1 o = 0 /\ GetSurfaceAge s2 o = 1)
  /\ (length surfaces <> 3%nat ->
      forall i s, surfaces !! i = Some s ->
        GetSurfaceAge s o = Int.to_signed (2 - Z.of_nat i)).

(** The events of [QueueUpdate] before composition: those of the first
    loop, of [GetCachedLayers] and of plane validation. *)
Definition is_planning (e : Event) : bool :=
  match e with
  | EvLock video_lock_ | EvUnlock video_lock_
  | EvCompositorUpdateLayerPixelData _
  | EvMarkSurfacesForRecycling | EvDisplayPlaneSetInUse _ _
  | EvCreateFrameBuffer _ _ | EvSetOffScreenPlaneTarget
  | EvValidateLayers _ | EvReValidatePlanes => true
  | _ => false
  end.

(** The events of [QueueUpdate] after a successful commit. *)
Definition is_publishing (e : Event) : bool :=
  match e with
  | EvReleaseFreeOffScreenTargets | EvDup _ _ | EvClose _ | EvHWCPoll _
  | EvDisplayHandleLazyInitialization => true
  | _ => false
  end.




(** A composition pass or a commit that failed. *)
Definition is_failure (e : Event) : bool :=
  is_failed_composition e || is_failed_commit e.

(** The fields a failed frame must not publish. *)
Definition unpublished (q q' : DisplayQueue) : Prop :=
  q'.(in_flight_layers_) = q.(in_flight_layers_)
  /\ q'.(previous_plane_state_) = q.(previous_plane_state_).

(** What an operation is known to do: whatever it returns, and also when it
    throws, its events satisfy [P]; and what it returns satisfies [R]. *)
Definition emits {X A : Type} (P : Event -> bool) (R : A -> Prop) (m : Eff X A) : Prop :=
  forall env r env',
    m env = (r, env') ->
    exists new,
      env'.(trace) = env.(trace) ++ new
      /\ Forall (fun e => P e = true) new
      /\ forall a, r = Ok a -> R a.

(** What [prepare] is known to return, from the caller's layers and the
    queue it started with. *)
Definition prepared_from `{Constants} (source_layers : list HwcLayer.t)
    (q : DisplayQueue) (p : Prepared) : Prop :=
  p.(prepared_layers) = map (HwcLayer.SetReleaseFence (-1)) source_layers
  /\ (p.(prepared_queue) = q
      \/ p.(prepared_queue) = set_applied_video_effect_ q.(requested_video_effect_) q)
  /\ (initial_validate_layers q = true -> p.(validate_layers) = true)
  /\ (p.(force_media_composition) = true -> p.(validate_layers) = true)
  /\ p.(disable_ovelays) = has q.(state_) kDisableOverlayUsage.

(** The events of the composition pass. *)
Definition is_composing (e : Event) : bool :=
  match e with
  | EvCompositorBeginFrame _ _ | EvCompositorDraw _
  | EvCompositorEnsurePixelDataUpdated => true
  | _ => false
  end.

(** Two queues that differ at most in the three bits of the state word
    that record the release of surfaces and the idle frame. *)
Definition same_but_surface_bits `{Constants} (q q' : DisplayQueue) : Prop :=
  q' = set_state_ q'.(state_) q
  /\ forall f : QueueState,
      f <> kMarkSurfacesForRelease -> f <> kReleaseSurfaces ->
      f <> kLastFrameIdleUpdate ->
      has q'.(state_) f = has q.(state_) f.

(** What [publish] keeps of the queue it is given: the state word up to
    the surface bits, and the failure flag. *)
Definition kept `{Constants} (q q' : DisplayQueue) : Prop :=
  (forall f : QueueState,
      f <> kMarkSurfacesForRelease -> f <> kReleaseSurfaces ->
      f <> kLastFrameIdleUpdate ->
      has q'.(state_) f = has q.(state_) f)
  /\ q'.(last_commit_failed_update_) = q.(last_commit_failed_update_).

(** The caller's layers [layers] are what [SetReleaseFenceToLayers] made of
    the reset layers of the frame, over the planes [current] just
    committed. *)
Definition distributed {X : Type} `{Constants} `{Collaborators X} (p : Prepared)
    (current : DisplayPlaneStateList) (fence : Z) (layers : list HwcLayer.t)
    : Prop :=
  exists q (env : Env X) q' env',
    q.(previous_plane_state_) = current
    /\ SetReleaseFenceToLayers fence p.(prepared_layers) q env
       = (Ok (q', layers), env').

(** What [publish] is known to return, from the queue [q] that was
    committed and the out-fence of the commit. *)
Definition published {X : Type} `{Constants} `{Collaborators X} (p : Prepared)
    (current : DisplayPlaneStateList) (fence : Z) (q : DisplayQueue)
    (u : Update) : Prop :=
  u.(result) = true
  /\ kept q u.(queue)
  /\ u.(queue).(previous_plane_state_) = current
  /\ u.(queue).(kms_fence_)
     = (let k := if fence >? 0 then fence else q.(kms_fence_) in
        if ENABLE_DOUBLE_BUFFERING then (if k >? 0 then 0 else k) else k)
  /\ ((fence >? 0) = false ->
      u.(updated_layers) = p.(prepared_layers) /\ u.(retire_fence_out) = -1)
  /\ ((fence >? 0) = true -> distributed p current fence u.(updated_layers))
  /\ (has q.(state_) kClonedMode = true -> u.(retire_fence_out) = -1).

(** The queue with which [compose_and_commit] reaches the composition
    pass: [surfaces_not_inuse] is what the incremental block left, and
    [validated] what the full validation left. *)
Definition ready_queue `{Constants} (p : Prepared) (validate_layers : bool)
    (surfaces_not_inuse validated : list NativeSurface) : DisplayQueue :=
  let q :=
    set_last_commit_failed_update_ false
      (set_surfaces_not_inuse_ surfaces_not_inuse p.(prepared_queue)) in
  if validate_layers
  then set_state_ (clear_bits q.(state_) (mask kConfigurationChanged))
         (set_surfaces_not_inuse_ validated q)
  else q.

(** The wait on the retained fence before the commit, and the queue
    after it. *)
Definition wait_events `{Constants} (q : DisplayQueue) : list Event :=
  if negb ENABLE_DOUBLE_BUFFERING && (q.(kms_fence_) >? 0)
  then [EvHWCPoll q.(kms_fence_); EvClose q.(kms_fence_)]
  else [].

Definition waited `{Constants} (q : DisplayQueue) : DisplayQueue :=
  if negb ENABLE_DOUBLE_BUFFERING && (q.(kms_fence_) >? 0)
  then set_kms_fence_ 0 q
  else q.

(** The push of the color correction before the commit, and the queue
    after it. *)
Definition color_events `{Constants} (q : DisplayQueue) : list Event :=
  if has q.(state_) kNeedsColorCorrection
  then [EvDisplaySetColorCorrection q.(gamma_) q.(contrast_) q.(brightness_);
        EvDisplaySetColorTransformMatrix q.(color_transform_matrix_)
          q.(color_transform_hint_)]
  else [].

Definition corrected `{Constants} (q : DisplayQueue) : DisplayQueue :=
  if has q.(state_) kNeedsColorCorrection
  then set_state_ (clear_bits q.(state_) (mask kNeedsColorCorrection)) q
  else q.

(** What [QueueUpdate] returns when composition or commit fails. *)
Definition failed_update (p : Prepared) (tracker : FrameStateTracker.t)
    (q : DisplayQueue) : Update :=
  {| result := false;
     queue := set_idle_tracker_ tracker (set_last_commit_failed_update_ true q);
     updated_layers := p.(prepared_layers);
     retire_fence_out := -1 |}.

(** The ways [compose_and_commit] can end, with the events of each: it
    throws during validation; the composition pass fails; the commit
    fails; the commit succeeds and the frame is published. *)
Definition commit_shape {X : Type} `{Constants} `{Collaborators X} (p : Prepared)
    (validate_layers : bool) (surfaces_not_inuse : list NativeSurface)
    (res : Res Update) (new : list Event) : Prop :=
  exists plan comp validated,
    let q1 := ready_queue p validate_layers surfaces_not_inuse validated in
    let q2 := corrected (waited q1) in
    Forall (fun e => is_planning e = true) plan
    /\ Forall (fun e => is_composing e = true) comp
    /\ ((res = OutOfRange /\ new = plan)
        \/ (Exists (fun e => is_failed_composition e = true) comp
            /\ new = plan ++ comp
            /\ exists tracker, res = Ok (failed_update p tracker q1))
        \/ (Forall (fun e => is_failed_composition e = false) comp
            /\ exists ok fence pub,
                new = plan ++ comp ++ wait_events q1 ++ color_events (waited q1)
                      ++ EvDisplayCommit ok fence :: pub
                /\ if ok : bool
                   then Forall (fun e => is_publishing e = true) pub
                        /\ exists current,
                            forall u, res = Ok u -> published p current fence q2 u
                   else pub = []
                        /\ exists tracker, res = Ok (failed_update p tracker q2))).

(** The ways a [QueueUpdate] that is not ignored can end, with the events
    of each: it throws before composition; the commit is skipped because
    nothing changed; or it goes on to composition and commit. *)
Definition handled_shape {X : Type} `{Constants} `{Collaborators X}
    (source_layers : list HwcLayer.t) (q : DisplayQueue) (res : Res Update)
    (new : list Event) : Prop :=
  (res = OutOfRange /\ Forall (fun e => is_planning e = true) new)
  \/ exists pre p,
      Forall (fun e => is_planning e = true) pre
      /\ prepared_from source_layers q p
      /\ ((new = pre
           /\ p.(validate_layers) = false
           /\ exists tracker surfaces_not_inuse,
               res = Ok {| result := true;
                           queue :=
                             set_idle_tracker_ tracker
                               (set_in_flight_layers_ p.(frame).(Frame.layers)
                                  (set_surfaces_not_inuse_ surfaces_not_inuse
                                     p.(prepared_queue)));
                           updated_layers := p.(prepared_layers);
                           retire_fence_out := -1 |})
          \/ exists (validated : bool) surfaces_not_inuse rest,
              new = pre ++ rest
              /\ (p.(validate_layers) = true -> validated = true)
              /\ commit_shape p validated surfaces_not_inuse res rest).

(** The ways [QueueUpdate] can end: the update is ignored, or it is
    handled. *)
Definition update_shape {X : Type} `{Constants} `{Collaborators X}
    (source_layers : list HwcLayer.t) (retire_fence : Z) (q : DisplayQueue)
    (res : Res Update) (new : list Event) : Prop :=
  (new = []
   /\ exists tracker,
       res = Ok {| result := true;
                   queue := set_idle_tracker_ tracker q;
                   updated_layers := source_layers;
                   retire_fence_out := retire_fence |})
  \/ handled_shape source_layers q res new.

(** ** Observations on the further operations *)



(** The flags of the state word after the display has been switched off
    and on again, from the word [word] it had before. *)
Definition cycled_flag `{Constants} (word : Z) (f : QueueState) : bool :=
  match f with
  | kPoweredOn | kConfigurationChanged | kNeedsColorCorrection => true
  | kDisableOverlayUsage => has word kDisableOverlayUsage
  | kClonedMode => has word kClonedMode
  | kMarkSurfacesForRelease | kReleaseSurfaces | kIgnoreIdleRefresh
  | kLastFrameIdleUpdate => false
  end.

(** A layer without its release fence. *)
Definition unfenced (layer : HwcLayer.t) : HwcLayer.t :=
  HwcLayer.SetReleaseFence (-1) layer.

(** What the loops of [SetReleaseFenceToLayers] keep: the number of
    in-flight layers, and the caller's layers up to their release fences. *)
Definition fences_only (in_flight_layers : list OverlayLayer.t)
    (source_layers : list HwcLayer.t)
    (r : list OverlayLayer.t * list HwcLayer.t) : Prop :=
  length (fst r) = length in_flight_layers
  /\ map unfenced (snd r) = map unfenced source_layers.

(** A plane names an in-flight layer beyond the [n] there are. *)
Definition names_missing_layer (n : nat) (plane : DisplayPlaneState.t) : Prop :=
  Exists (fun index => (n <= index)%nat) plane.(DisplayPlaneState.GetSourceLayers).

(** The calls [GetCachedLayers] makes when no layer has been removed. *)
Definition is_caching (e : Event) : bool :=
  match e with
  | EvCreateFrameBuffer _ _ | EvSetOffScreenPlaneTarget => true
  | _ => false
  end.

(** What the loop of [GetCachedLayers] keeps of its locals when no layer
    has been removed; [n] planes have been appended. *)
Definition cache_kept (n : nat) (st st' : CacheLoop.t) : Prop :=
  st'.(CacheLoop.surfaces_not_inuse) = st.(CacheLoop.surfaces_not_inuse)
  /\ st'.(CacheLoop.check_to_squash) = st.(CacheLoop.check_to_squash)
  /\ length st'.(CacheLoop.composition) = (length st.(CacheLoop.composition) + n)%nat.

Section Rotations.
Context {X : Type}.
Variables kTransform90 kTransform180 kTransform270 : Z.
Variable SetDisplayTransform : Z -> Outside X -> Outside X.

(** The bits a rotation request adds to [plane_transform_]. *)
Definition rotation_bits (rotation : option HWCRotation) : Z :=
  match rotation with
  | Some kRotate90 => kTransform90
  | Some kRotate180 => kTransform180
  | Some kRotate270 => kTransform270
  | Some kRotateNone | None => 0
  end.

(** A sequence of rotation requests. *)
Fixpoint rotate_all (rotations : list (option HWCRotation)) (q : DisplayQueue)
    : Eff X DisplayQueue :=
  match rotations with
  | [] => mret q
  | rotation :: rest =>
      q ← RotateDisplay kTransform90 kTransform180 kTransform270
            SetDisplayTransform rotation q;
      rotate_all rest q
  end.

End Rotations.

(** ** A sample platform

    A concrete instance of the constants and of the collaborators, used to
    run the operations: a display that accepts or refuses commits as its
    state says, a plane manager that scans every layer out on a plane of its
    own, and layer snapshots that report a content change when the buffer
    differs from the one of the previous frame at the same z-order. *)

Module Sample.

Definition queue_bit (f : QueueState) : N :=
  match f with
  | kNeedsColorCorrection => 0 | kConfigurationChanged => 1 | kPoweredOn => 2
  | kDisableOverlayUsage => 3 | kMarkSurfacesForRelease => 4
  | kReleaseSurfaces => 5 | kIgnoreIdleRefresh => 6 | kClonedMode => 7
  | kLastFrameIdleUpdate => 8
  end%N.

Definition tracker_bit (f : FrameStateTracker.FrameState) : N :=
  match f with
  | FrameStateTracker.kPrepareComposition => 0
  | FrameStateTracker.kPrepareIdleComposition => 1
  | FrameStateTracker.kRenderIdleDisplay => 2
  | FrameStateTracker.kRevalidateLayers => 3
  | FrameStateTracker.kTrackingFrames => 4
  | FrameStateTracker.kIgnoreUpdates => 5
  end%N.

#[export] Instance queue_bits : BitLayout QueueState.
Proof.
  refine {| bit_of := queue_bit |}.
  intros [] []; simpl; intros E; first [reflexivity | discriminate E].
Defined.

#[export] Instance tracker_bits : BitLayout FrameStateTracker.FrameState.
Proof.
  refine {| bit_of := tracker_bit |}.
  intros [] []; simpl; intros E; first [reflexivity | discriminate E].
Defined.

#[export] Instance constants : Constants :=
  {| QueueState_bits := queue_bits;
     FrameState_bits := tracker_bits;
     kidleframes := 3;
     ENABLE_DOUBLE_BUFFERING := false;
     ReValidationType_kNone := 0;
     ReValidationType_kScanout := 1;
     NativeSurface_kFullClear := 1 |}.

(** The state of the sample collaborators: what the next composition pass
    and the next commit return. *)
Record Display := {
  draw_ok : bool;
  commit_ok : bool;
  out_fence : Z
}.

Definition scanout_plane (index : nat) : DisplayPlaneState.t :=
  {| DisplayPlaneState.GetDisplayPlane := index;
     DisplayPlaneState.GetSourceLayers := [index];
     DisplayPlaneState.GetSurfaces := [];
     DisplayPlaneState.GetOffScreenTarget := None;
     DisplayPlaneState.NeedsOffScreenComposition := false;
     DisplayPlaneState.NeedsSurfaceAllocation := false;
     DisplayPlaneState.SurfaceRecycled := false;
     DisplayPlaneState.RevalidationType := 0;
     DisplayPlaneState.IsCursorPlane := false;
     DisplayPlaneState.IsVideoPlane := false;
     DisplayPlaneState.Scanout := true;
     DisplayPlaneState.CanSquash := false;
     DisplayPlaneState.private_data_ := 0 |}.

(** A plane that composes layers 0 and 1 offscreen into [surfaces]. *)
Definition composed (surfaces : list NativeSurface) : DisplayPlaneState.t :=
  {| DisplayPlaneState.GetDisplayPlane := 0;
     DisplayPlaneState.GetSourceLayers := [0%nat; 1%nat];
     DisplayPlaneState.GetSurfaces := surfaces;
     DisplayPlaneState.GetOffScreenTarget := head surfaces;
     DisplayPlaneState.NeedsOffScreenComposition := true;
     DisplayPlaneState.NeedsSurfaceAllocation := false;
     DisplayPlaneState.SurfaceRecycled := false;
     DisplayPlaneState.RevalidationType := 0;
     DisplayPlaneState.IsCursorPlane := false;
     DisplayPlaneState.IsVideoPlane := false;
     DisplayPlaneState.Scanout := false;
     DisplayPlaneState.CanSquash := false;
     DisplayPlaneState.private_data_ := 0 |}.

Definition snapshot (layer : HwcLayer.t) (previous_layer : option OverlayLayer.t)
    (z_order : Z) (layer_index : nat) (display_frame : HwcRect.t) : OverlayLayer.t :=
  {| OverlayLayer.GetZorder := z_order;
     OverlayLayer.GetLayerIndex := layer_index;
     OverlayLayer.IsVisible := true;
     OverlayLayer.IsCursorLayer := false;
     OverlayLayer.IsVideoLayer := false;
     OverlayLayer.CanScanOut := true;
     OverlayLayer.NeedsRevalidation := false;
     OverlayLayer.NeedsFullDraw := false;
     OverlayLayer.HasDimensionsChanged := false;
     OverlayLayer.HasSourceRectChanged := false;
     OverlayLayer.HasLayerContentChanged :=
       match previous_layer with
       | Some previous =>
           negb (previous.(OverlayLayer.GetBuffer) =? layer.(HwcLayer.rest))%nat
       | None => true
       end;
     OverlayLayer.RawPixelDataChanged := false;
     OverlayLayer.GetDisplayFrame := display_frame;
     OverlayLayer.GetSourceCrop := (0, 0, 0, 0);
     OverlayLayer.GetSurfaceDamage := display_frame;
     OverlayLayer.GetBuffer := layer.(HwcLayer.rest);
     OverlayLayer.private_data_ := 0 |}.

#[export] Instance collaborators : Collaborators Display :=
  {| ext_void := fun _ o => o;
     HasSurfaces := fun _ => false;
     GetHeight := fun _ => 1080;
     ValidateLayers :=
       fun layers add_index _ _ _ current _ surfaces_not_inuse o =>
         let first := Z.to_nat add_index in
         let added := map scanout_plane (seq first (length layers - first)) in
         ((false, false, false, take first current ++ added, surfaces_not_inuse), o);
     ReValidatePlanes :=
       fun current _ surfaces_not_inuse validate_layers _ _ o =>
         ((false, validate_layers, current, surfaces_not_inuse), o);
     SetOffScreenPlaneTarget := fun plane o => (plane, o);
     MarkSurfacesForRecycling :=
       fun plane surfaces_not_inuse _ o => ((plane, surfaces_not_inuse), o);
     BeginFrame := fun _ o => (true, o);
     Draw := fun _ _ _ o => (o.(collab).(draw_ok), o);
     Commit :=
       fun _ _ _ o => ((o.(collab).(commit_ok), o.(collab).(out_fence)), o);
     GetFb := fun _ _ => 1;
     dup := fun fd o => (fd + 100, o);
     plane_call := fun _ plane o => (plane, o);
     plane_ReleaseAcquireFence := fun _ o => (-1, o);
     SetLayerComposition := fun _ layer => layer;
     ReleaseAcquireFence := fun layer => (-1, layer);
     InitializeFromHwcLayer :=
       fun layer previous_layer z_order layer_index _ _ _ o =>
         (snapshot layer previous_layer z_order layer_index
            layer.(HwcLayer.GetDisplayFrame), o);
     InitializeFromScaledHwcLayer :=
       fun layer previous_layer z_order layer_index display_frame _ _ _ o =>
         (snapshot layer previous_layer z_order layer_index display_frame, o);
     HwcRect_empty :=
       fun r =>
         (r.(HwcRect.left) =? 0) && (r.(HwcRect.top) =? 0)
         && (r.(HwcRect.right) =? 0) && (r.(HwcRect.bottom) =? 0);
     CalculateRect :=
       fun target new_rect =>
         {| HwcRect.left := Z.min target.(HwcRect.left) new_rect.(HwcRect.left);
            HwcRect.top := Z.min target.(HwcRect.top) new_rect.(HwcRect.top);
            HwcRect.right := Z.max target.(HwcRect.right) new_rect.(HwcRect.right);
            HwcRect.bottom := Z.max target.(HwcRect.bottom) new_rect.(HwcRect.bottom) |};
     scale_coordinate := fun v _ => v;
     ScopedIdleStateTracker_enter :=
       fun tracker o =>
         (FrameStateTracker.set_state_
            (set_bits tracker.(FrameStateTracker.state_)
               (mask FrameStateTracker.kPrepareComposition)) tracker, o);
     ScopedIdleStateTracker_leave :=
       fun tracker o =>
         (FrameStateTracker.set_state_
            (clear_bits tracker.(FrameStateTracker.state_)
               (mask FrameStateTracker.kPrepareComposition)) tracker, o);
     IgnoreUpdate :=
       fun tracker =>
         has tracker.(FrameStateTracker.state_) FrameStateTracker.kIgnoreUpdates;
     RenderIdleMode :=
       fun tracker =>
         has tracker.(FrameStateTracker.state_) FrameStateTracker.kRenderIdleDisplay;
     RevalidateLayers :=
       fun tracker =>
         has tracker.(FrameStateTracker.state_) FrameStateTracker.kRevalidateLayers;
     FrameHasCursor := FrameStateTracker.set_has_cursor_layer_ true;
     ResetTrackerState := fun tracker => tracker |}.

Definition full_screen : HwcRect.t :=
  {| HwcRect.left := 0; HwcRect.top := 0; HwcRect.right := 1920;
     HwcRect.bottom := 1080 |}.

(** A visible full-screen layer showing buffer [buffer]. *)
Definition layer (buffer : nat) : HwcLayer.t :=
  {| HwcLayer.IsVisible := true;
     HwcLayer.GetDisplayFrame := full_screen;
     HwcLayer.release_fd_ := -1;
     HwcLayer.rest := buffer |}.

Definition tracker0 : FrameStateTracker.t :=
  {| FrameStateTracker.state_ := 0;
     FrameStateTracker.idle_frames_ := 0;
     FrameStateTracker.has_cursor_layer_ := false;
     FrameStateTracker.total_planes_ := 2;
     FrameStateTracker.revalidate_frames_counter_ := 0 |}.

(** The queue as the constructor and [Initialize] leave it, with overlays
    enabled. *)
Definition queue0 : DisplayQueue :=
  {| state_ := mask kNeedsColorCorrection;
     idle_tracker_ := tracker0;
     scaling_tracker_ :=
       {| ScalingTracker.scaling_state_ := ScalingTracker.kNeeedsNoSclaing;
          ScalingTracker.scaling_width := 0;
          ScalingTracker.scaling_height := 0 |};
     in_flight_layers_ := [];
     previous_plane_state_ := [];
     mark_not_inuse_ := [];
     surfaces_not_inuse_ := [];
     last_commit_failed_update_ := false;
     kms_fence_ := 0;
     requested_video_effect_ := false;
     applied_video_effect_ := false;
     handle_display_initializations_ := false;
     plane_transform_ := 0;
     gamma_ := (1, 1, 1);
     contrast_ := 0x808080;
     brightness_ := 0x808080;
     color_transform_matrix_ := [];
     color_transform_hint_ := 0;
     refresh_callback_ := Some 0%nat;
     refrsh_display_id_ := 0;
     gpu_fd_ := 3 |}.

Definition world (draw commit : bool) (fence : Z) : Env Display :=
  {| outside :=
       {| collab := {| draw_ok := draw; commit_ok := commit; out_fence := fence |};
          surface_age := fun _ => 0 |};
     trace := [] |}.

(** The queue after one frame showing [layers] has been committed. *)
Definition after_frame (layers : list HwcLayer.t) (q : DisplayQueue) : DisplayQueue :=
  match QueueUpdate layers (-1) false false q (world true true 7) with
  | (Ok u, _) => u.(queue)
  | (OutOfRange, _) => q
  end.

End Sample.

(** * Properties *)

(** ** Machine integers and bit sets *)

Lemma wrap32_small z : 0 <= z < 2 ^ 32 -> Int.wrap32 z = z.
Proof. intros Hz. unfold Int.wrap32. now apply Z.mod_small. Qed.

Lemma to_signed_small z : 0 <= z < 2 ^ 31 -> Int.to_signed z = z.
Proof.
  intros Hz. unfold Int.to_signed. rewrite wrap32_small by lia.
  destruct (Z.ltb_spec z (2 ^ 31)); lia.
Qed.

Lemma to_signed_neg z : - 2 ^ 31 <= z < 0 -> Int.to_signed z = z.
Proof.
  intros Hz. unfold Int.to_signed, Int.wrap32.
  replace (z mod 2 ^ 32) with (z + 2 ^ 32).
  - destruct (Z.ltb_spec (z + 2 ^ 32) (2 ^ 31)); lia.
  - apply Z.mod_unique with (q := -1); lia.
Qed.


Section BitFacts.
Context {F : Type} `{BitLayout F}.

Lemma testbit_mask (f : F) n :
  0 <= n -> Z.testbit (mask f) n = (n =? Z.of_N (bit_of f)).
Proof.
  intros Hn. unfold mask. rewrite Z.shiftl_1_l, Z.pow2_bits_eqb by lia.
  apply Z.eqb_sym.
Qed.

Lemma land_mask word (f : F) :
  Z.land word (mask f) = if Z.testbit word (Z.of_N (bit_of f)) then mask f else 0.
Proof.
  apply Z.bits_inj'. intros n Hn. rewrite Z.land_spec.
  destruct (Z.testbit word (Z.of_N (bit_of f))) eqn:Hb.
  - rewrite testbit_mask by assumption.
    destruct (Z.eqb_spec n (Z.of_N (bit_of f))) as [->|Hne].
    + now rewrite Hb.
    + apply andb_false_r.
  - rewrite testbit_mask, Z.bits_0 by assumption.
    destruct (Z.eqb_spec n (Z.of_N (bit_of f))) as [->|Hne].
    + now rewrite Hb.
    + apply andb_false_r.
Qed.

Lemma mask_nonzero (f : F) : mask f <> 0.
Proof.
  unfold mask. rewrite Z.shiftl_1_l.
  pose proof (Z.pow_pos_nonneg 2 (Z.of_N (bit_of f))). lia.
Qed.

Lemma has_testbit word (f : F) : has word f = Z.testbit word (Z.of_N (bit_of f)).
Proof.
  unfold has, has_bits. rewrite land_mask.
  destruct (Z.testbit word (Z.of_N (bit_of f))).
  - pose proof (mask_nonzero f). destruct (Z.eqb_spec (mask f) 0); [lia|reflexivity].
  - reflexivity.
Qed.

Lemma has_mask (f g : F) : has (mask f) g = true <-> g = f.
Proof.
  rewrite has_testbit, testbit_mask by lia. rewrite Z.eqb_eq. split.
  - intros E. apply bit_of_inj. lia.
  - now intros ->.
Qed.

Lemma has_mask_same (f : F) : has (mask f) f = true.
Proof. now apply has_mask. Qed.

Lemma has_mask_other (f g : F) : g <> f -> has (mask f) g = false.
Proof.
  intros Hne. destruct (has (mask f) g) eqn:E; [|reflexivity].
  apply has_mask in E. contradiction.
Qed.

Lemma has_zero (g : F) : has 0 g = false.
Proof. rewrite has_testbit. apply Z.bits_0. Qed.

Lemma has_set word m (g : F) : has (set_bits word m) g = has word g || has m g.
Proof. rewrite !has_testbit. apply Z.lor_spec. Qed.

Lemma has_clear word m (g : F) :
  has (clear_bits word m) g = has word g && negb (has m g).
Proof.
  rewrite !has_testbit. unfold clear_bits.
  rewrite Z.land_spec, Z.lnot_spec by lia. reflexivity.
Qed.

Lemma has_lor a b (g : F) : has (Z.lor a b) g = has a g || has b g.
Proof. apply has_set. Qed.

End BitFacts.

Create Rewrite HintDb bits.
#[global] Hint Rewrite @has_set @has_clear @has_lor @has_zero @has_mask_same : bits.

(** Rewrites the flag tests of a goal, then settles the tests of one
    enumerator against the mask of another. *)
Ltac bits :=
  autorewrite with bits;
  repeat (rewrite has_mask_other by discriminate);
  autorewrite with bits;
  rewrite ?orb_false_r, ?orb_true_r, ?andb_true_r, ?andb_false_r;
  try reflexivity.

(** ** The effect monad *)

#[global] Arguments mask : simpl never.
#[global] Arguments has : simpl never.
#[global] Arguments set_bits : simpl never.
#[global] Arguments clear_bits : simpl never.
#[global] Arguments Int.wrap32 : simpl never.
#[global] Arguments Int.to_signed : simpl never.

Ltac eff :=
  unfold mbind, mret, Eff_bind, Eff_ret, when, call_void, call, call_with,
    touch, query, emit, throw in *;
  cbn [outside trace fst snd] in *.

(** Closes a goal that equates the outcome of a run with its value. *)
Ltac ran :=
  cbn [outside trace fst snd]; rewrite <- ?app_assoc; cbn [app];
  try reflexivity.

Lemma events_since_app {X : Type} (before after : Env X) (new : list Event) :
  after.(trace) = before.(trace) ++ new -> events_since before after = new.
Proof. intros E. unfold events_since. rewrite E. apply drop_app_length. Qed.

Lemma under_lock_single (l : Lock) (e : Event) :
  e <> EvLock l -> e <> EvUnlock l -> under_lock l [EvLock l; e; EvUnlock l].
Proof.
  intros H1 H2. exists [e]. split; [reflexivity|].
  constructor; [split; assumption | constructor].
Qed.

(** Reasoning on runs: the rules of [emits]. *)

Section Emits.
Context {X : Type} `{Collaborators X}.

Lemma bind_Ok {A B : Type} (m : Eff X A) (k : A -> Eff X B) env b env' :
  (m ≫= k) env = (Ok b, env') ->
  exists a env1, m env = (Ok a, env1) /\ k a env1 = (Ok b, env').
Proof.
  unfold mbind, Eff_bind. destruct (m env) as [[a|] env1]; [eauto|discriminate].
Qed.

Lemma emits_ret {A : Type} (P : Event -> bool) (R : A -> Prop) (a : A) :
  R a -> emits P R (mret a : Eff X A).
Proof.
  intros Ha env r env' E. injection E as <- <-. exists [].
  rewrite app_nil_r. repeat split; [constructor|]. intros a' [= <-]. exact Ha.
Qed.

Lemma emits_throw {A : Type} (P : Event -> bool) (R : A -> Prop) :
  emits P R (throw : Eff X A).
Proof.
  intros env r env' E. injection E as <- <-. exists [].
  rewrite app_nil_r. repeat split; [constructor|]. discriminate.
Qed.

Lemma emits_bind {A B : Type} (P : Event -> bool) (R1 : A -> Prop) (R : B -> Prop)
    (m : Eff X A) (k : A -> Eff X B) :
  emits P R1 m -> (forall a, R1 a -> emits P R (k a)) -> emits P R (m ≫= k).
Proof.
  intros Hm Hk env r env' E. unfold mbind, Eff_bind in E.
  destruct (m env) as [[a|] env1] eqn:Em.
  - destruct (Hm _ _ _ Em) as (new1 & T1 & F1 & Ha).
    destruct (Hk a (Ha a eq_refl) _ _ _ E) as (new2 & T2 & F2 & Hb).
    exists (new1 ++ new2). rewrite T2, T1, app_assoc.
    repeat split; [now apply list.Forall_app|exact Hb].
  - injection E as <- <-. destruct (Hm _ _ _ Em) as (new1 & T1 & F1 & _).
    exists new1. repeat split; [assumption..|discriminate].
Qed.

Lemma emits_weaken {A : Type} (P P' : Event -> bool) (R R' : A -> Prop) (m : Eff X A) :
  emits P R m -> (forall e, P e = true -> P' e = true) -> (forall a, R a -> R' a) ->
  emits P' R' m.
Proof.
  intros Hm HP HR env r env' E. destruct (Hm _ _ _ E) as (new & T & F & Ha).
  exists new. repeat split; [assumption| |auto].
  eapply list.Forall_impl; [exact F|exact HP].
Qed.

Lemma emits_call_with {A : Type} (P : Event -> bool) (R : A -> Prop)
    (e : A -> Event) (f : Outside X -> A * Outside X) :
  (forall a, P (e a) = true) -> (forall a, R a) -> emits P R (call_with e f).
Proof.
  intros HP HR env r env' E. unfold call_with in E.
  destruct (f (outside env)) as [a o]. injection E as <- <-.
  exists [e a]. repeat split; [repeat constructor; apply HP|].
  intros a' _. apply HR.
Qed.

Lemma emits_call {A : Type} (P : Event -> bool) (R : A -> Prop)
    (e : Event) (f : Outside X -> A * Outside X) :
  P e = true -> (forall a, R a) -> emits P R (call e f).
Proof. intros HP HR. now apply emits_call_with. Qed.

Lemma emits_call_void (P : Event -> bool) (R : unit -> Prop) (e : Event) :
  P e = true -> R tt -> emits P R (call_void e).
Proof. intros HP HR. apply emits_call; [assumption|]. now intros []. Qed.

Lemma emits_emit (P : Event -> bool) (R : unit -> Prop) (e : Event) :
  P e = true -> R tt -> emits P R (emit e : Eff X unit).
Proof.
  intros HP HR env r env' E. injection E as <- <-. exists [e].
  repeat split; [repeat constructor; exact HP|]. intros [] _. exact HR.
Qed.

Lemma emits_touch {A : Type} (P : Event -> bool) (R : A -> Prop)
    (f : Outside X -> A * Outside X) :
  (forall a, R a) -> emits P R (touch f).
Proof.
  intros HR env r env' E. unfold touch in E.
  destruct (f (outside env)) as [a o]. injection E as <- <-.
  exists []. cbn [trace]. rewrite app_nil_r. repeat split; [constructor|].
  intros a' _. apply HR.
Qed.

Lemma emits_query {A : Type} (P : Event -> bool) (R : A -> Prop)
    (f : Outside X -> A) :
  (forall a, R a) -> emits P R (query f).
Proof.
  intros HR env r env' E. injection E as <- <-.
  exists []. rewrite app_nil_r. repeat split; [constructor|].
  intros a' _. apply HR.
Qed.

Lemma emits_at {A : Type} (P : Event -> bool) (R : A -> Prop) (v : list A) (i : nat) :
  (forall x, v !! i = Some x -> R x) -> emits P R (at_ v i : Eff X A).
Proof.
  intros HR. unfold at_. destruct (v !! i) as [x|].
  - apply emits_ret. now apply HR.
  - apply emits_throw.
Qed.

Lemma emits_when (P : Event -> bool) (R : unit -> Prop) (b : bool) (m : Eff X unit) :
  emits P R m -> R tt -> emits P R (when b m).
Proof. intros Hm HR. destruct b; [exact Hm|]. now apply emits_ret. Qed.

End Emits.

(** One step of a proof by the rules of [emits]; the bound operation is
    given the weakest postcondition. *)
Ltac emits_any :=
  first
    [ apply emits_ret
    | apply emits_throw
    | apply emits_call_void; [reflexivity|]
    | apply emits_call; [reflexivity|intros]
    | apply emits_call_with; [intros; reflexivity|intros]
    | apply emits_emit; [reflexivity|]
    | apply emits_touch; intros
    | apply emits_query; intros
    | apply emits_at; intros
    | apply emits_when ].

(** ** The phases of QueueUpdate *)

(** Walks through an operation whose results do not matter. *)
Ltac emits_walk :=
  repeat (intros;
    match goal with
    | |- True => exact I
    | |- emits _ _ (mbind _ _) => apply (emits_bind _ (fun _ => True))
    | |- emits _ _ (if ?c then _ else _) => destruct c
    | |- emits _ _ (match ?x with _ => _ end) => destruct x
    | |- emits _ _ _ => emits_any
    end).

Section Planning.
Context {X : Type} `{Constants} `{Collaborators X}.

Lemma cache_removal_emits layers remove_index primary last_plane st :
  emits is_planning (fun _ => True)
    (cache_removal layers remove_index primary last_plane st).
Proof. unfold cache_removal. emits_walk. Qed.

Lemma cache_damage_emits layers full_reset indices :
  forall last_plane d,
    emits is_planning (fun _ => True)
      (cache_damage layers full_reset indices last_plane d).
Proof.
  induction indices as [|i rest IH]; intros last_plane d; simpl.
  - emits_walk.
  - emits_walk. apply IH.
Qed.

Lemma cache_offscreen_emits layers clear_surface last_plane st :
  emits is_planning (fun _ => True)
    (cache_offscreen layers clear_surface last_plane st).
Proof.
  unfold cache_offscreen. emits_walk; try apply cache_damage_emits; emits_walk.
Qed.

Lemma cache_scanout_emits layers gpu_fd last_plane st :
  emits is_planning (fun _ => True) (cache_scanout layers gpu_fd last_plane st).
Proof. unfold cache_scanout. emits_walk. Qed.

Lemma cache_plane_emits layers remove_index primary gpu_fd previous_plane st :
  emits is_planning (fun _ => True)
    (cache_plane layers remove_index primary gpu_fd previous_plane st).
Proof.
  unfold cache_plane.
  emits_walk;
    first [apply cache_removal_emits | apply cache_offscreen_emits
          | apply cache_scanout_emits | idtac];
    emits_walk.
Qed.

Lemma cache_planes_emits layers remove_index primary gpu_fd planes :
  forall st,
    emits is_planning (fun _ => True)
      (cache_planes layers remove_index primary gpu_fd planes st).
Proof.
  induction planes as [|plane planes IH]; intros st; simpl.
  - emits_walk.
  - emits_walk; first [apply cache_plane_emits | apply IH].
Qed.

Lemma cache_squash_emits layers st :
  emits is_planning (fun _ => True) (cache_squash layers st).
Proof. unfold cache_squash. emits_walk. Qed.

Lemma GetCachedLayers_emits layers remove_index q :
  emits is_planning
    (fun c => c.(can_ignore_commit) = true -> c.(force_full_validation) = false)
    (GetCachedLayers layers remove_index q).
Proof.
  unfold GetCachedLayers.
  apply (emits_bind _ (fun _ => True)); [apply cache_planes_emits|].
  intros [st|st|st] _.
  - apply (emits_bind _ (fun _ => True)).
    + destruct (CacheLoop.check_to_squash st);
        [apply cache_squash_emits|now apply emits_ret].
    + intros st' _. now apply emits_ret.
  - apply emits_ret. discriminate.
  - apply emits_ret. discriminate.
Qed.

Lemma SetMediaEffectsState_emits apply_effects layers planes :
  forall surfaces_not_inuse,
    emits is_planning (fun _ => True)
      (SetMediaEffectsState apply_effects layers planes surfaces_not_inuse).
Proof.
  induction planes as [|plane planes IH]; intros surfaces_not_inuse; simpl.
  - emits_walk.
  - emits_walk; apply IH.
Qed.

Lemma incremental_emits (p : Prepared) :
  emits is_planning (fun _ => True) (incremental p).
Proof.
  unfold incremental.
  apply (emits_bind _ (fun _ => True)).
  { eapply emits_weaken; [apply GetCachedLayers_emits|auto..]. }
  emits_walk; try apply SetMediaEffectsState_emits; emits_walk.
Qed.

Lemma build_layer_emits q handle_constraints validate_layers layer_index layer fr :
  emits is_planning (fun _ => True)
    (build_layer q handle_constraints validate_layers layer_index layer fr).
Proof. unfold build_layer. emits_walk. Qed.

Lemma build_layers_emits q handle_constraints validate_layers source_layers :
  forall layer_index fr,
    emits is_planning
      (fun r => fst r = map (HwcLayer.SetReleaseFence (-1)) source_layers)
      (build_layers q handle_constraints validate_layers layer_index source_layers fr).
Proof.
  induction source_layers as [|layer rest IH]; intros layer_index fr; simpl.
  - now apply emits_ret.
  - apply (emits_bind _ (fun _ => True)).
    + destruct (negb _); [now apply emits_ret|apply build_layer_emits].
    + intros fr' _. eapply emits_bind; [apply IH|].
      intros [rest' fr''] E. simpl in E. apply emits_ret. simpl. now rewrite E.
Qed.

Lemma settle_indices_forced add_index remove_index previous_size size :
  settle_indices add_index remove_index true previous_size size = (true, remove_index).
Proof. unfold settle_indices. now rewrite orb_true_r. Qed.

Lemma prepare_emits source_layers idle_update handle_constraints tracker q :
  emits is_planning (prepared_from source_layers q)
    (prepare source_layers idle_update handle_constraints tracker q).
Proof.
  unfold prepare.
  eapply emits_bind; [apply build_layers_emits|].
  intros [layers' fr] Hl. simpl in Hl.
  apply (emits_bind _ (fun _ => True)); [emits_walk|]. intros _ _.
  destruct (settle_indices _ _ _ _ _) as [v0 r0] eqn:Es.
  set (fr1 := if _ : bool then Frame.set_idle_frame false _ else _).
  set (v1 := if negb v0 then _ else v0).
  apply (emits_bind _
           (fun x =>
              let '(_, v, fm, _, q') := x in
              (q' = q \/ q' = set_applied_video_effect_ q.(requested_video_effect_) q)
              /\ (v1 = true -> v = true) /\ (fm = true -> v = true))).
  - destruct (Frame.has_video_layer fr1).
    + apply (emits_bind _ (fun _ => True)); [emits_walk|]. intros _ _.
      apply (emits_bind _ (fun _ => True)); [emits_walk|]. intros _ _.
      apply emits_ret.
      destruct (negb (Bool.eqb _ _)); simpl; auto.
      repeat split; auto. discriminate.
    + apply emits_ret. repeat split; auto. discriminate.
  - intros [[[[fr2 v] fm] rve] q'] (Hq & Hv & Hfm).
    apply emits_ret. unfold prepared_from. simpl.
    repeat split.
    + exact Hl.
    + exact Hq.
    + intros Hi. rewrite Hi in Es. rewrite settle_indices_forced in Es.
      injection Es as <- <-. subst v1. simpl in Hv. rewrite Hv by reflexivity.
      reflexivity.
    + intros Hf. rewrite (Hfm Hf). reflexivity.
    + destruct Hq as [->| ->]; reflexivity.
Qed.
End Planning.

Section Publishing.
Context {X : Type} `{Constants} `{Collaborators X}.

Lemma same_but_surface_bits_refl q : same_but_surface_bits q q.
Proof. split; [now destruct q|auto]. Qed.

Lemma same_but_surface_bits_trans q1 q2 q3 :
  same_but_surface_bits q1 q2 -> same_but_surface_bits q2 q3 ->
  same_but_surface_bits q1 q3.
Proof.
  intros [E1 B1] [E2 B2]. split.
  - rewrite E2 at 1. rewrite E1. reflexivity.
  - intros f H1 H2 H3. rewrite B2, B1 by assumption. reflexivity.
Qed.

Lemma same_but_surface_bits_set q (g : QueueState) :
  g = kMarkSurfacesForRelease \/ g = kReleaseSurfaces \/ g = kLastFrameIdleUpdate ->
  same_but_surface_bits q (set_state_ (set_bits q.(state_) (mask g)) q).
Proof.
  intros Hg. split; [reflexivity|]. intros f H1 H2 H3. simpl.
  rewrite has_set, has_mask_other; [apply orb_false_r|].
  intros ->. destruct Hg as [?|[?|?]]; subst; contradiction.
Qed.

Lemma same_but_surface_bits_clear q (g : QueueState) :
  g = kMarkSurfacesForRelease \/ g = kReleaseSurfaces \/ g = kLastFrameIdleUpdate ->
  same_but_surface_bits q (set_state_ (clear_bits q.(state_) (mask g)) q).
Proof.
  intros Hg. split; [reflexivity|]. intros f H1 H2 H3. simpl.
  rewrite has_clear, has_mask_other; [apply andb_true_r|].
  intros ->. destruct Hg as [?|[?|?]]; subst; contradiction.
Qed.

(** Peels the updates of the surface bits off the right-hand queue. *)
Ltac surface_bits :=
  repeat first
    [ assumption
    | apply same_but_surface_bits_refl
    | eapply same_but_surface_bits_trans;
      [ | first [ apply same_but_surface_bits_set
                | apply same_but_surface_bits_clear ]; auto ] ].

Lemma ReleaseSurfaces_emits q :
  emits is_publishing (same_but_surface_bits q) (ReleaseSurfaces q).
Proof.
  unfold ReleaseSurfaces.
  apply (emits_bind _ (fun _ => True)); [emits_walk|]. intros _ _.
  apply emits_ret. cbv zeta. surface_bits.
Qed.

Lemma ReleaseSurfacesAsNeeded_emits layers_validated q :
  emits is_publishing (same_but_surface_bits q)
    (ReleaseSurfacesAsNeeded layers_validated q).
Proof.
  unfold ReleaseSurfacesAsNeeded.
  apply (emits_bind _ (same_but_surface_bits q)).
  - destruct (_ && _); [apply ReleaseSurfaces_emits|].
    apply emits_ret, same_but_surface_bits_refl.
  - intros q1 H1. apply emits_ret. cbv zeta.
    destruct (has (state_ q1) kMarkSurfacesForRelease), layers_validated;
      surface_bits.
Qed.

Lemma release_scanout_emits fence layers :
  forall in_flight_layers source_layers,
    emits is_publishing (fun _ => True)
      (release_scanout fence layers in_flight_layers source_layers).
Proof.
  induction layers as [|index rest IH]; intros; simpl.
  - emits_walk.
  - emits_walk; intros; apply IH.
Qed.

Lemma release_composed_emits release_fence layers :
  forall in_flight_layers source_layers,
    emits is_publishing (fun _ => True)
      (release_composed release_fence layers in_flight_layers source_layers).
Proof.
  induction layers as [|index rest IH]; intros; simpl.
  - emits_walk.
  - emits_walk; intros; apply IH.
Qed.

Lemma release_planes_emits fence planes :
  forall in_flight_layers source_layers,
    emits is_publishing (fun _ => True)
      (release_planes fence planes in_flight_layers source_layers).
Proof.
  induction planes as [|plane rest IH]; intros; simpl.
  - emits_walk.
  - emits_walk; intros;
      first [apply release_scanout_emits | apply release_composed_emits | apply IH
            | idtac];
      emits_walk; intros; apply IH.
Qed.

Lemma SetReleaseFenceToLayers_emits fence source_layers q :
  emits is_publishing
    (fun r => fst r = set_in_flight_layers_ (fst r).(in_flight_layers_) q)
    (SetReleaseFenceToLayers fence source_layers q).
Proof.
  unfold SetReleaseFenceToLayers.
  apply (emits_bind _ (fun _ => True)); [apply release_planes_emits|].
  intros [in_flight layers] _. now apply emits_ret.
Qed.

Lemma wait_kms_fence_emits q :
  emits is_publishing
    (fun q' => q' = set_kms_fence_ (if q.(kms_fence_) >? 0 then 0 else q.(kms_fence_)) q)
    (wait_kms_fence q).
Proof.
  unfold wait_kms_fence. destruct (kms_fence_ q >? 0) eqn:Hk.
  - apply (emits_bind _ (fun _ => True)); [emits_walk|]. intros _ _.
    apply (emits_bind _ (fun _ => True)); [emits_walk|]. intros _ _.
    now apply emits_ret.
  - apply emits_ret. now destruct q.
Qed.

Lemma emits_ran {A : Type} (P : Event -> bool) (R : A -> Prop) (m : Eff X A) :
  emits P R m ->
  emits P (fun a => R a /\ exists env env', m env = (Ok a, env')) m.
Proof.
  intros Hm env r env' E. destruct (Hm env r env' E) as (new & T & F & HR).
  exists new. repeat split; [exact T|exact F|now apply HR|].
  subst r. now exists env, env'.
Qed.

Lemma leave_emits (P : Event -> bool) (R : Update -> Prop) ok tracker q
    source_layers retire_fence :
  (forall tracker',
      R {| result := ok; queue := set_idle_tracker_ tracker' q;
           updated_layers := source_layers; retire_fence_out := retire_fence |}) ->
  emits P R (leave ok tracker q source_layers retire_fence).
Proof.
  intros HR. unfold leave. apply (emits_bind _ (fun _ => True)); [emits_walk|].
  intros tracker' _. apply emits_ret. apply HR.
Qed.

Lemma kept_refl q : kept q q.
Proof. split; auto. Qed.

Lemma kept_trans q1 q2 q3 : kept q1 q2 -> kept q2 q3 -> kept q1 q3.
Proof.
  intros [B1 L1] [B2 L2]. split; [|congruence].
  intros f F1 F2 F3. rewrite B2, B1 by assumption. reflexivity.
Qed.

Lemma kept_surface_bits q q' : same_but_surface_bits q q' -> kept q q'.
Proof. intros [E B]. split; [exact B|]. rewrite E. reflexivity. Qed.

Lemma publish_emits p validate_layers tracker current fence q :
  emits is_publishing (published p current fence q)
    (publish p validate_layers tracker current fence q).
Proof.
  unfold publish.
  (* mark_not_inuse_ *)
  apply (emits_bind _ (fun q1 => kept q q1 /\ q1.(kms_fence_) = q.(kms_fence_))).
  { destruct (negb _).
    - apply (emits_bind _ (fun _ => True)); [emits_walk|]. intros _ _.
      apply emits_ret. repeat split; intros; reflexivity.
    - apply emits_ret. repeat split; intros; reflexivity. }
  intros q1 [K1 F1].
  set (q2 := set_previous_plane_state_ current (set_in_flight_layers_ _ q1)).
  assert (K2 : kept q q2) by exact K1.
  assert (F2 : q2.(kms_fence_) = q.(kms_fence_)) by exact F1.
  assert (P2 : q2.(previous_plane_state_) = current) by reflexivity.
  clearbody q2. clear q1 K1 F1.
  apply (emits_bind _ (fun _ => True)); [emits_walk|]. intros _ _.
  (* surfaces_not_inuse_ *)
  apply (emits_bind _
           (fun q3 => kept q q3 /\ q3.(kms_fence_) = q.(kms_fence_)
                      /\ q3.(previous_plane_state_) = current)).
  { destruct (negb _).
    - apply (emits_bind _ (fun _ => True)); [emits_walk|].
      intros [temp mark] _. apply emits_ret. auto.
    - apply emits_ret. auto. }
  intros q3 (K3 & F3 & P3). clear q2 K2 F2 P2.
  (* idle frame *)
  apply (emits_bind _
           (fun r => kept q (fst r) /\ (fst r).(kms_fence_) = q.(kms_fence_)
                     /\ (fst r).(previous_plane_state_) = current)).
  { destruct (Frame.idle_frame (frame p)).
    - eapply emits_bind; [apply ReleaseSurfaces_emits|].
      intros q4 S4. apply emits_ret. simpl.
      destruct S4 as [E4 B4]. repeat split.
      + intros f G1 G2 G3. simpl. rewrite has_set, has_mask_other by congruence.
        rewrite orb_false_r, B4 by assumption. now apply K3.
      + simpl. rewrite E4. simpl. apply K3.
      + simpl. rewrite E4. simpl. exact F3.
      + simpl. rewrite E4. simpl. exact P3.
    - eapply emits_bind; [apply ReleaseSurfacesAsNeeded_emits|].
      intros q4 S4. apply emits_ret. simpl.
      destruct S4 as [E4 B4]. simpl in *. repeat split.
      + intros f G1 G2 G3. rewrite B4 by assumption.
        rewrite has_clear, has_mask_other by congruence.
        rewrite andb_true_r. now apply K3.
      + rewrite E4. simpl. apply K3.
      + rewrite E4. simpl. exact F3.
      + rewrite E4. simpl. exact P3. }
  intros [q4 tracker4] (K4 & F4 & P4). simpl in K4, F4, P4. clear q3 K3 F3 P3.
  (* the out-fence *)
  apply (emits_bind _
           (fun r =>
              let '(q5, source_layers, retire_fence) := r in
              kept q q5 /\ q5.(previous_plane_state_) = current
              /\ q5.(kms_fence_) = (if fence >? 0 then fence else q.(kms_fence_))
              /\ ((fence >? 0) = false ->
                  source_layers = p.(prepared_layers) /\ retire_fence = -1)
              /\ ((fence >? 0) = true -> distributed p current fence source_layers)
              /\ (has q.(state_) kClonedMode = true -> retire_fence = -1))).
  { destruct (fence >? 0) eqn:Hf.
    - apply (emits_bind _
               (fun rf => has q.(state_) kClonedMode = true -> rf = -1)).
      + destruct K4 as [B4 _]. rewrite (B4 kClonedMode) by discriminate.
        destruct (has (state_ q) kClonedMode); simpl.
        * now apply emits_ret.
        * apply emits_call_with; [reflexivity|discriminate].
      + intros rf Hrf.
        eapply emits_bind; [apply emits_ran, SetReleaseFenceToLayers_emits|].
        intros [q5 layers5] [E5 (env & env' & Run)]. simpl in E5. apply emits_ret.
        rewrite E5. simpl. repeat split; try apply K4; auto; try discriminate.
        intros _. now exists (set_kms_fence_ fence q4), env, q5, env'.
    - apply emits_ret. repeat split; try apply K4; auto; discriminate. }
  intros [[q5 layers5] rf5] (K5 & P5 & F5 & L5 & D5 & C5).
  clear q4 K4 F4 P4.
  (* double buffering *)
  apply (emits_bind _
           (fun q6 =>
              kept q q6 /\ q6.(previous_plane_state_) = current
              /\ q6.(kms_fence_)
                 = (let k := if fence >? 0 then fence else q.(kms_fence_) in
                    if ENABLE_DOUBLE_BUFFERING then (if k >? 0 then 0 else k) else k))).
  { destruct ENABLE_DOUBLE_BUFFERING.
    - eapply emits_weaken; [apply wait_kms_fence_emits|auto|].
      intros q6 ->. simpl. rewrite F5. auto.
    - apply emits_ret. auto. }
  intros q6 (K6 & P6 & F6). clear q5 K5 P5 F5.
  (* lazy initialization *)
  apply (emits_bind _
           (fun q7 =>
              kept q q7 /\ q7.(previous_plane_state_) = current
              /\ q7.(kms_fence_) = q6.(kms_fence_))).
  { destruct (handle_display_initializations_ q6).
    - apply (emits_bind _ (fun _ => True)); [emits_walk|]. intros _ _.
      apply emits_ret. auto.
    - apply emits_ret. auto. }
  intros q7 (K7 & P7 & F7).
  apply leave_emits. intros tracker'. unfold published. simpl.
  rewrite F7. auto 10.
Qed.

End Publishing.

Section Committing.
Context {X : Type} `{Constants} `{Collaborators X}.

Lemma bind_run {A B : Type} (m : Eff X A) (k : A -> Eff X B) env res env' :
  (m ≫= k) env = (res, env') ->
  (exists a env1, m env = (Ok a, env1) /\ k a env1 = (res, env'))
  \/ (m env = (OutOfRange, env') /\ res = OutOfRange).
Proof.
  unfold mbind, Eff_bind. destruct (m env) as [[a|] env1]; intros E.
  - left. eauto.
  - right. now injection E as <- <-.
Qed.

Lemma validate_fully_emits p (validate_layers render_layers : bool) current q :
  emits is_planning
    (fun r =>
       exists validated,
         snd r
         = if validate_layers
           then set_state_ (clear_bits q.(state_) (mask kConfigurationChanged))
                  (set_surfaces_not_inuse_ validated q)
           else q)
    (validate_fully p validate_layers render_layers current q).
Proof.
  unfold validate_fully. destruct validate_layers.
  - apply (emits_bind _ (fun _ => True)); [emits_walk|].
    intros [[[[render ?] ?] current'] sni'] _.
    apply (emits_bind _ (fun _ => True)).
    + destruct (_ && _); [|now apply emits_ret].
      apply (emits_bind _ (fun _ => True)); [apply SetMediaEffectsState_emits|].
      intros [? ?] _. now apply emits_ret.
    + intros [[render' current''] sni''] _. apply emits_ret. simpl. eauto.
  - apply emits_ret. simpl. exists []. reflexivity.
Qed.

Lemma compose_run p (render_layers : bool) current env :
  exists passed comp o',
    compose p render_layers current env
    = (Ok passed, {| outside := o'; trace := env.(trace) ++ comp |})
    /\ Forall (fun e => is_composing e = true) comp
    /\ if passed : bool
       then Forall (fun e => is_failed_composition e = false) comp
       else Exists (fun e => is_failed_composition e = true) comp.
Proof.
  unfold compose. eff. destruct render_layers.
  - destruct (BeginFrame _ _) as [[|] o1]; cbn [outside trace].
    + destruct (Draw _ _ _ _) as [passed o2]. do 3 eexists.
      split; [rewrite <- app_assoc; reflexivity|]. split.
      * repeat constructor.
      * destruct passed; [repeat constructor|].
        apply Exists_cons_tl, Exists_cons_hd. reflexivity.
    + do 3 eexists. split; [reflexivity|]. split; repeat constructor.
  - destruct (Frame.handle_raw_pixel_update (frame p)); cbn [outside trace].
    + do 3 eexists. split; [reflexivity|]. split; repeat constructor.
    + exists true, [], env.(outside). rewrite app_nil_r. destruct env.
      split; [reflexivity|]. split; constructor.
Qed.

Lemma wait_run q env :
  exists o',
    (if negb ENABLE_DOUBLE_BUFFERING then wait_kms_fence q else mret q) env
    = (Ok (waited q), {| outside := o'; trace := env.(trace) ++ wait_events q |}).
Proof.
  unfold waited, wait_events, wait_kms_fence. eff.
  destruct ENABLE_DOUBLE_BUFFERING; cbn [negb andb].
  - exists env.(outside). rewrite app_nil_r. now destruct env.
  - destruct (kms_fence_ q >? 0); cbn [outside trace].
    + eexists. rewrite <- app_assoc. reflexivity.
    + exists env.(outside). rewrite app_nil_r. now destruct env.
Qed.

Lemma correct_color_run q env :
  exists o',
    correct_color q env
    = (Ok (corrected q), {| outside := o'; trace := env.(trace) ++ color_events q |}).
Proof.
  unfold corrected, color_events, correct_color. eff.
  destruct (has (state_ q) kNeedsColorCorrection); cbn [outside trace].
  - eexists. rewrite <- app_assoc. reflexivity.
  - exists env.(outside). rewrite app_nil_r. now destruct env.
Qed.

Lemma leave_run ok tracker q source_layers retire_fence env :
  exists tracker' o',
    leave ok tracker q source_layers retire_fence env
    = (Ok {| result := ok; queue := set_idle_tracker_ tracker' q;
             updated_layers := source_layers; retire_fence_out := retire_fence |},
       {| outside := o'; trace := env.(trace) |}).
Proof.
  unfold leave. eff. destruct (ScopedIdleStateTracker_leave _ _) as [tracker' o'].
  now exists tracker', o'.
Qed.


Lemma compose_and_commit_shape p (validate_layers render_layers : bool) current
    surfaces_not_inuse env res env' :
  compose_and_commit p validate_layers render_layers current surfaces_not_inuse env
  = (res, env') ->
  exists new,
    env'.(trace) = env.(trace) ++ new
    /\ commit_shape p validate_layers surfaces_not_inuse res new.
Proof.
  unfold compose_and_commit. intros E.
  apply bind_run in E as [(a & env1 & E1 & E)|[E1 ->]].
  2:{ destruct (validate_fully_emits _ _ _ _ _ _ _ _ E1) as (plan & T1 & F1 & _).
      exists plan. split; [exact T1|]. exists plan, [], [].
      repeat split; [exact F1|constructor|]. left. auto. }
  destruct (validate_fully_emits _ _ _ _ _ _ _ _ E1) as (plan & T1 & F1 & R1).
  destruct a as [[[tracker render] current'] q1].
  destruct (R1 _ eq_refl) as [validated Hq1].
  change (q1 = ready_queue p validate_layers surfaces_not_inuse validated) in Hq1.
  destruct (compose_run p render current' env1) as (passed & comp & o2 & C & Fc & Hp).
  unfold mbind at 1, Eff_bind at 1 in E. rewrite C in E. cbv beta iota in E.
  destruct passed; cbn [negb] in E; cbv beta iota in E.
  - (* the composition pass succeeded *)
    match type of E with context [{| outside := o2; trace := ?t |}] =>
      set (env2 := {| outside := o2; trace := t |}) in * end.
    destruct (wait_run q1 env2) as [o3 W].
    unfold mbind at 1, Eff_bind at 1 in E. rewrite W in E. cbv beta iota in E.
    match type of E with context [{| outside := o3; trace := ?t |}] =>
      set (env3 := {| outside := o3; trace := t |}) in * end.
    destruct (correct_color_run (waited q1) env3) as [o4 K].
    unfold mbind at 1, Eff_bind at 1 in E. rewrite K in E. cbv beta iota in E.
    unfold mbind at 1, Eff_bind at 1, call_with at 1 in E. cbn [outside trace] in E.
    destruct (Commit _ _ _ o4) as [[ok fence] o5]. cbn [fst snd negb] in E.
    cbv beta iota in E.
    destruct ok; cbn [negb] in E; cbv beta iota in E.
    + destruct (publish_emits _ _ _ _ _ _ _ _ _ E) as (pub & T5 & F5 & R5).
      cbn [trace] in T5. subst env3 env2. cbn [trace] in T5.
      exists (plan ++ comp ++ wait_events q1 ++ color_events (waited q1)
              ++ EvDisplayCommit true fence :: pub).
      split.
      { rewrite T5, T1. rewrite <- !app_assoc. reflexivity. }
      exists plan, comp, validated. subst q1.
      repeat split; [exact F1|exact Fc|].
      right. right. split; [exact Hp|].
      exists true, fence, pub. split; [reflexivity|]. split; [exact F5|].
      exists current'. exact R5.
    + match type of E with
      | leave ?a ?b ?c ?d ?e ?env = _ =>
          destruct (leave_run a b c d e env) as (tracker' & o6 & L)
      end.
      rewrite L in E. injection E as <- <-.
      subst env3 env2. cbn [trace].
      exists (plan ++ comp ++ wait_events q1 ++ color_events (waited q1)
              ++ [EvDisplayCommit false fence]).
      split.
      { rewrite T1. rewrite <- !app_assoc. reflexivity. }
      exists plan, comp, validated. subst q1.
      repeat split; [exact F1|exact Fc|].
      right. right. split; [exact Hp|].
      exists false, fence, []. split; [reflexivity|]. split; [reflexivity|].
      exists tracker'. reflexivity.
  - (* the composition pass failed *)
    match type of E with
    | leave ?a ?b ?c ?d ?e ?env = _ =>
        destruct (leave_run a b c d e env) as (tracker' & o3 & L)
    end.
    rewrite L in E. injection E as <- <-. cbn [trace].
    exists (plan ++ comp). split; [rewrite T1, app_assoc; reflexivity|].
    exists plan, comp, validated. subst q1.
    repeat split; [exact F1|exact Fc|].
    right. left. split; [exact Hp|]. split; [reflexivity|].
    exists tracker'. reflexivity.
Qed.

End Committing.

Section Updating.
Context {X : Type} `{Constants} `{Collaborators X}.

Lemma QueueUpdate_handled source_layers retire_fence
    (idle_update handle_constraints : bool) q env res env' :
  IgnoreUpdate (ScopedIdleStateTracker_enter q.(idle_tracker_) env.(outside)).1
  = false ->
  QueueUpdate source_layers retire_fence idle_update handle_constraints q env
  = (res, env') ->
  exists new,
    env'.(trace) = env.(trace) ++ new
    /\ handled_shape source_layers q res new.
Proof.
  unfold QueueUpdate. intros Hi E.
  unfold mbind at 1, Eff_bind at 1, touch at 1 in E.
  destruct (ScopedIdleStateTracker_enter _ _) as [tracker o1]. cbv beta iota in E.
  cbn [fst] in Hi. rewrite Hi in E.
  apply bind_run in E.
  destruct E as [(p & env1 & Ep & E)|[Ep ->]].
  2:{ destruct (prepare_emits _ _ _ _ _ _ _ _ Ep) as (pre & Ht & Hpre & _).
      exists pre. split; [exact Ht|]. left. now split. }
  destruct (prepare_emits _ _ _ _ _ _ _ _ Ep) as (pre & Ht & Hpre & Hp).
  specialize (Hp p eq_refl). cbn [trace] in Ht.
  destruct (validate_layers p) eqn:Hv; cbn [negb] in E.
  { apply compose_and_commit_shape in E. destruct E as (rest & Hr & Hs).
    exists (pre ++ rest). split; [rewrite Hr, Ht; now rewrite app_assoc|].
    right. exists pre, p. split; [assumption|split; [assumption|]].
    right. exists true, (surfaces_not_inuse_ (prepared_queue p)), rest.
    repeat split; auto. }
  apply bind_run in E.
  destruct E as [(outcome & env2 & Ei & E)|[Ei ->]].
  2:{ destruct (incremental_emits _ _ _ _ Ei) as (inc & Hi2 & Hinc & _).
      exists (pre ++ inc). split; [rewrite Hi2, Ht; now rewrite app_assoc|].
      left. split; [reflexivity|]. apply list.Forall_app; now split. }
  destruct (incremental_emits _ _ _ _ Ei) as (inc & Hi2 & Hinc & _).
  assert (Hall : Forall (fun e => is_planning e = true) (pre ++ inc))
    by (apply list.Forall_app; now split).
  destruct outcome as [sni|v render current sni].
  { match type of E with
    | leave ?a ?b ?c ?d ?e ?env = _ =>
        destruct (leave_run a b c d e env) as (tracker' & o2 & L)
    end.
    rewrite L in E. injection E as <- <-. cbn [trace].
    exists (pre ++ inc). split; [rewrite Hi2, Ht; now rewrite app_assoc|].
    right. exists (pre ++ inc), p. split; [assumption|split; [assumption|]].
    left. repeat split; try assumption. now exists tracker', sni. }
  apply compose_and_commit_shape in E. destruct E as (rest & Hr & Hs).
  exists ((pre ++ inc) ++ rest).
  split; [rewrite Hr, Hi2, Ht; now rewrite !app_assoc|].
  right. exists (pre ++ inc), p. split; [assumption|split; [assumption|]].
  right. exists v, sni, rest. repeat split; auto. congruence.
Qed.

(** What [QueueUpdate] does when the tracker says to ignore updates: it
    returns before the caller's retire fence is assigned. *)
Lemma QueueUpdate_ignored source_layers retire_fence (idle_update handle_constraints : bool)
    q (env : Env X) :
  IgnoreUpdate (ScopedIdleStateTracker_enter q.(idle_tracker_) env.(outside)).1 = true ->
  exists tracker o,
    QueueUpdate source_layers retire_fence idle_update handle_constraints q env
    = (Ok {| result := true;
             queue := set_idle_tracker_ tracker q;
             updated_layers := source_layers;
             retire_fence_out := retire_fence |},
       {| outside := o; trace := env.(trace) |}).
Proof.
  intros Hi. unfold QueueUpdate.
  unfold mbind at 1, Eff_bind at 1, touch at 1.
  destruct (ScopedIdleStateTracker_enter _ _) as [tracker o1]. cbn [fst] in Hi.
  rewrite Hi.
  match goal with
  | |- context [leave ?a ?b ?c ?d ?e ?env] =>
      destruct (leave_run a b c d e env) as (tracker' & o2 & L)
  end.
  rewrite L. now exists tracker', o2.
Qed.

Lemma QueueUpdate_shape source_layers retire_fence (idle_update handle_constraints : bool)
    q env res env' :
  QueueUpdate source_layers retire_fence idle_update handle_constraints q env
  = (res, env') ->
  exists new,
    env'.(trace) = env.(trace) ++ new
    /\ update_shape source_layers retire_fence q res new.
Proof.
  intros E.
  destruct (IgnoreUpdate
              (ScopedIdleStateTracker_enter q.(idle_tracker_) env.(outside)).1)
    eqn:Hi.
  - destruct (QueueUpdate_ignored source_layers retire_fence idle_update
                handle_constraints q env Hi) as (tracker & o & L).
    rewrite L in E. injection E as <- <-. cbn [trace].
    exists []. rewrite app_nil_r. split; [reflexivity|]. left.
    split; [reflexivity|]. now exists tracker.
  - destruct (QueueUpdate_handled _ _ _ _ _ _ _ _ Hi E) as (new & Ht & Hs).
    exists new. split; [exact Ht|]. now right.
Qed.

End Updating.

(** ** Video controls *)

Section VideoControls.
Context {X : Type} `{Constants} `{Collaborators X}.

(** C5, as amended: [SetVideoColor] and [SetVideoDeinterlace] set
    [requested_video_effect_] to true, [SetVideoScalingMode] leaves it as it
    was, [RestoreVideoDefaultColor] and [RestoreVideoDefaultDeinterlace] set
    it to false; each of the five takes the video lock, calls the compositor
    and releases the lock, and changes nothing else in the queue. *)
Theorem video_controls_under_lock (q : DisplayQueue) (env : Env X)
    (color flag mode : Z) (value : float) :
  (exists env',
      SetVideoColor color value q env
      = (Ok (set_requested_video_effect_ true q), env')
      /\ under_lock video_lock_ (events_since env env'))
  /\ (exists env',
      SetVideoDeinterlace flag mode q env
      = (Ok (set_requested_video_effect_ true q), env')
      /\ under_lock video_lock_ (events_since env env'))
  /\ (exists env',
      SetVideoScalingMode mode q env = (Ok q, env')
      /\ under_lock video_lock_ (events_since env env'))
  /\ (exists env',
      RestoreVideoDefaultColor color q env
      = (Ok (set_requested_video_effect_ false q), env')
      /\ under_lock video_lock_ (events_since env env'))
  /\ (exists env',
      RestoreVideoDefaultDeinterlace q env
      = (Ok (set_requested_video_effect_ false q), env')
      /\ under_lock video_lock_ (events_since env env')).
Proof.
  unfold SetVideoColor, SetVideoDeinterlace, SetVideoScalingMode,
    RestoreVideoDefaultColor, RestoreVideoDefaultDeinterlace.
  eff.
  repeat split;
    (eexists; split;
     [ reflexivity
     | erewrite events_since_app
         by (cbn [trace]; rewrite <- !app_assoc; reflexivity);
       apply under_lock_single; discriminate ]).
Qed.

End VideoControls.

Section VideoControlsSample.
Import Sample.

(** C5 as stated fails for [SetVideoScalingMode]: called on a queue whose
    [requested_video_effect_] is false, it leaves it false. *)
Lemma SetVideoScalingMode_leaves_requested_effect :
  exists q' env',
    SetVideoScalingMode 1 queue0 (world true true 7) = (Ok q', env')
    /\ requested_video_effect_ q' <> true.
Proof.
  eexists. eexists. split; [reflexivity|]. vm_compute. discriminate.
Qed.

End VideoControlsSample.

(** ** Idle frames *)

Section Idle.
Context {X : Type} `{Constants} `{Collaborators X}.

Lemma HandleIdleCase_blocked (q : DisplayQueue) (env : Env X) :
  idle_blocked q.(idle_tracker_) = true ->
  HandleIdleCase q env
  = (Ok q, {| outside := env.(outside);
              trace := env.(trace) ++ [EvLock idle_lock_; EvUnlock idle_lock_] |}).
Proof.
  unfold idle_blocked, HandleIdleCase. intros Hb. eff.
  destruct (has _ FrameStateTracker.kPrepareComposition).
  - ran.
  - cbn [orb] in Hb. rewrite Hb. ran.
Qed.

Lemma HandleIdleCase_saturated (q : DisplayQueue) (env : Env X) :
  idle_blocked q.(idle_tracker_) = false ->
  q.(idle_tracker_).(FrameStateTracker.idle_frames_) > kidleframes ->
  HandleIdleCase q env
  = (Ok q, {| outside := env.(outside);
              trace := env.(trace) ++ [EvLock idle_lock_; EvUnlock idle_lock_] |}).
Proof.
  unfold idle_blocked, HandleIdleCase. intros Hb Hgt. eff.
  destruct (has _ FrameStateTracker.kPrepareComposition); [discriminate|].
  cbn [orb] in Hb. rewrite Hb.
  destruct (Z.gtb_spec (FrameStateTracker.idle_frames_ (idle_tracker_ q)) kidleframes); [|lia].
  ran.
Qed.

Lemma HandleIdleCase_counting (q : DisplayQueue) (env : Env X) :
  idle_blocked q.(idle_tracker_) = false ->
  q.(idle_tracker_).(FrameStateTracker.idle_frames_) < kidleframes ->
  HandleIdleCase q env
  = (Ok (set_idle_tracker_
           (FrameStateTracker.set_idle_frames_
              (Int.wrap32 (q.(idle_tracker_).(FrameStateTracker.idle_frames_) + 1))
              q.(idle_tracker_)) q),
     {| outside := env.(outside);
        trace := env.(trace) ++ [EvLock idle_lock_; EvUnlock idle_lock_] |}).
Proof.
  unfold idle_blocked, HandleIdleCase. intros Hb Hlt. eff.
  destruct (has _ FrameStateTracker.kPrepareComposition); [discriminate|].
  cbn [orb] in Hb. rewrite Hb.
  destruct (Z.gtb_spec (FrameStateTracker.idle_frames_ (idle_tracker_ q)) kidleframes); [lia|].
  destruct (Z.ltb_spec (FrameStateTracker.idle_frames_ (idle_tracker_ q)) kidleframes); [|lia].
  ran.
Qed.

Lemma HandleIdleCase_fires (q : DisplayQueue) (env : Env X) :
  idle_blocked q.(idle_tracker_) = false ->
  q.(idle_tracker_).(FrameStateTracker.idle_frames_) = kidleframes ->
  refresh_allowed q = true ->
  let tr :=
    FrameStateTracker.set_idle_frames_
      (Int.wrap32 (q.(idle_tracker_).(FrameStateTracker.idle_frames_) + 1))
      q.(idle_tracker_) in
  HandleIdleCase q env
  = (Ok (set_idle_tracker_
           (FrameStateTracker.set_state_
              (set_bits tr.(FrameStateTracker.state_)
                 (mask FrameStateTracker.kPrepareIdleComposition)) tr) q),
     {| outside := ext_void (EvRefreshCallback q.(refrsh_display_id_)) env.(outside);
        trace := env.(trace) ++
                 [EvLock idle_lock_; EvLock power_mode_lock_;
                  EvRefreshCallback q.(refrsh_display_id_);
                  EvUnlock power_mode_lock_; EvUnlock idle_lock_] |}).
Proof.
  unfold idle_blocked, HandleIdleCase, refresh_allowed. intros Hb He Ha. eff.
  destruct (has _ FrameStateTracker.kPrepareComposition); [discriminate|].
  cbn [orb] in Hb. rewrite Hb.
  destruct (Z.gtb_spec (FrameStateTracker.idle_frames_ (idle_tracker_ q)) kidleframes); [lia|].
  destruct (Z.ltb_spec (FrameStateTracker.idle_frames_ (idle_tracker_ q)) kidleframes); [lia|].
  rewrite Ha. ran.
Qed.

Lemma HandleIdleCase_silent (q : DisplayQueue) (env : Env X) :
  idle_blocked q.(idle_tracker_) = false ->
  q.(idle_tracker_).(FrameStateTracker.idle_frames_) = kidleframes ->
  refresh_allowed q = false ->
  HandleIdleCase q env
  = (Ok (set_idle_tracker_
           (FrameStateTracker.set_idle_frames_
              (Int.wrap32 (q.(idle_tracker_).(FrameStateTracker.idle_frames_) + 1))
              q.(idle_tracker_)) q),
     {| outside := env.(outside);
        trace := env.(trace) ++
                 [EvLock idle_lock_; EvLock power_mode_lock_;
                  EvUnlock power_mode_lock_; EvUnlock idle_lock_] |}).
Proof.
  unfold idle_blocked, HandleIdleCase, refresh_allowed. intros Hb He Ha. eff.
  destruct (has _ FrameStateTracker.kPrepareComposition); [discriminate|].
  cbn [orb] in Hb. rewrite Hb.
  destruct (Z.gtb_spec (FrameStateTracker.idle_frames_ (idle_tracker_ q)) kidleframes); [lia|].
  destruct (Z.ltb_spec (FrameStateTracker.idle_frames_ (idle_tracker_ q)) kidleframes); [lia|].
  rewrite Ha. ran.
Qed.

Lemma count_app (f : Event -> bool) (a b : list Event) :
  count f (a ++ b) = (count f a + count f b)%nat.
Proof. unfold count. now rewrite List.filter_app, length_app. Qed.

Ltac step_done :=
  cbn; repeat split; intros; first [lia | discriminate | assumption | reflexivity | idtac].

Lemma HandleIdleCase_step (q : DisplayQueue) (env : Env X) :
  0 <= kidleframes < 2 ^ 32 - 1 ->
  exists q' o' new,
    HandleIdleCase q env = (Ok q', {| outside := o'; trace := env.(trace) ++ new |})
    /\ (count is_refresh_callback new <= 1)%nat
    /\ (count is_refresh_callback new = 1%nat ->
        q'.(idle_tracker_).(FrameStateTracker.idle_frames_) > kidleframes)
    /\ (q.(idle_tracker_).(FrameStateTracker.idle_frames_) > kidleframes ->
        count is_refresh_callback new = 0%nat
        /\ q'.(idle_tracker_).(FrameStateTracker.idle_frames_) > kidleframes).
Proof.
  intros Hk.
  destruct (idle_blocked q.(idle_tracker_)) eqn:Hb.
  { do 3 eexists. split; [apply HandleIdleCase_blocked; assumption|].
    step_done. }
  destruct (Z.lt_trichotomy
              q.(idle_tracker_).(FrameStateTracker.idle_frames_) kidleframes)
    as [Hlt|[Heq|Hgt]].
  - do 3 eexists. split; [apply HandleIdleCase_counting; assumption|].
    step_done.
  - destruct (refresh_allowed q) eqn:Ha.
    + do 3 eexists. split; [apply HandleIdleCase_fires; assumption|].
      cbn. rewrite Heq, wrap32_small by lia. step_done.
    + do 3 eexists. split; [apply HandleIdleCase_silent; assumption|].
      step_done.
  - do 3 eexists. split; [apply HandleIdleCase_saturated; [assumption|lia]|].
    step_done.
Qed.

Lemma idle_run_fires_at_most_once (n : nat) :
  0 <= kidleframes < 2 ^ 32 - 1 ->
  forall (q : DisplayQueue) (env : Env X),
  exists q' o' new,
    idle_run n q env = (Ok q', {| outside := o'; trace := env.(trace) ++ new |})
    /\ (count is_refresh_callback new <= 1)%nat
    /\ (q.(idle_tracker_).(FrameStateTracker.idle_frames_) > kidleframes ->
        count is_refresh_callback new = 0%nat).
Proof.
  intros Hk. induction n as [|n IH]; intros q env.
  - exists q, env.(outside), []. cbn. rewrite app_nil_r.
    destruct env; repeat split; cbn; lia.
  - destruct (HandleIdleCase_step q env Hk) as (q1 & o1 & new1 & E1 & Hle & Hone & Hsat).
    destruct (IH q1 {| outside := o1; trace := env.(trace) ++ new1 |})
      as (q2 & o2 & new2 & E2 & Hle2 & Hsat2).
    exists q2, o2, (new1 ++ new2). split.
    + cbn [idle_run]. unfold mbind, Eff_bind. rewrite E1, E2.
      cbn [trace]. now rewrite app_assoc.
    + rewrite count_app. split.
      * destruct (count is_refresh_callback new1) as [|[|c]] eqn:Ec; [lia| |lia].
        rewrite Hsat2 by (apply Hone; reflexivity). lia.
      * intros Hgt. destruct (Hsat Hgt) as [-> Hgt1]. rewrite Hsat2 by assumption.
        reflexivity.
Qed.

(** C4, as amended: [HandleIdleCase] changes nothing when composition is
    being prepared, when there is at most one plane, when the tracker is
    tracking frames or revalidating, or when a cursor layer is present; nor
    when the idle counter already exceeds [kidleframes].  Otherwise the
    counter is incremented, and on the call that finds it equal to
    [kidleframes] the refresh callback is invoked once and
    [kPrepareIdleComposition] is set, provided the display is powered on,
    [kIgnoreIdleRefresh] is clear and a callback is registered.  Over any
    run of consecutive calls the callback is invoked at most once. *)
Theorem HandleIdleCase_idle_refresh (q : DisplayQueue) (env : Env X) :
  0 <= kidleframes < 2 ^ 32 - 1 ->
  let tr := q.(idle_tracker_) in
  let idle := tr.(FrameStateTracker.idle_frames_) in
  let bumped := FrameStateTracker.set_idle_frames_ (Int.wrap32 (idle + 1)) tr in
  (exists q' env',
      HandleIdleCase q env = (Ok q', env')
      /\ let fired := count is_refresh_callback (events_since env env') in
         (idle_blocked tr = true -> q' = q /\ fired = 0%nat)
         /\ (idle_blocked tr = false -> idle > kidleframes ->
             q' = q /\ fired = 0%nat)
         /\ (idle_blocked tr = false -> idle < kidleframes ->
             q' = set_idle_tracker_ bumped q /\ fired = 0%nat)
         /\ (idle_blocked tr = false -> idle = kidleframes ->
             refresh_allowed q = true ->
             q' = set_idle_tracker_
                    (FrameStateTracker.set_state_
                       (set_bits bumped.(FrameStateTracker.state_)
                          (mask FrameStateTracker.kPrepareIdleComposition))
                       bumped) q
             /\ fired = 1%nat)
         /\ (idle_blocked tr = false -> idle = kidleframes ->
             refresh_allowed q = false ->
             q' = set_idle_tracker_ bumped q /\ fired = 0%nat))
  /\ (forall n,
      exists q' env',
        idle_run n q env = (Ok q', env')
        /\ (count is_refresh_callback (events_since env env') <= 1)%nat).
Proof.
  intros Hk tr idle bumped. split.
  - destruct (HandleIdleCase_step q env Hk) as (q' & o' & new & E & _).
    exists q', {| outside := o'; trace := env.(trace) ++ new |}.
    split; [exact E|]. cbn zeta.
    rewrite (events_since_app env _ new) by reflexivity.
    repeat split; intros.
    all: first
      [ rewrite HandleIdleCase_blocked in E by assumption
      | rewrite HandleIdleCase_saturated in E by assumption
      | rewrite HandleIdleCase_counting in E by assumption
      | rewrite HandleIdleCase_fires in E by assumption
      | rewrite HandleIdleCase_silent in E by assumption ].
    all: injection E as Eq Eo Et; apply app_inv_head in Et; subst new;
      first [symmetry; exact Eq | reflexivity].
  - intros n.
    destruct (idle_run_fires_at_most_once n Hk q env) as (q' & o' & new & E & Hle & _).
    exists q', {| outside := o'; trace := env.(trace) ++ new |}.
    split; [exact E|].
    now rewrite (events_since_app env _ new) by reflexivity.
Qed.

End Idle.

Section IdleSample.
Import Sample.

(** C4 as stated fails once the counter has passed [kidleframes]: with
    [kidleframes = 3], a counter at 4 and none of the blocking conditions,
    [HandleIdleCase] leaves the counter at 4. *)
Lemma HandleIdleCase_saturates :
  idle_blocked (FrameStateTracker.set_idle_frames_ 4 tracker0) = false
  /\ exists q' env',
      HandleIdleCase
        (set_idle_tracker_ (FrameStateTracker.set_idle_frames_ 4 tracker0) queue0)
        (world true true 7) = (Ok q', env')
      /\ q'.(idle_tracker_).(FrameStateTracker.idle_frames_) = 4
      /\ q'.(idle_tracker_).(FrameStateTracker.idle_frames_)
         <> (FrameStateTracker.set_idle_frames_ 4 tracker0).(FrameStateTracker.idle_frames_)
            + 1.
Proof.
  split; [reflexivity|]. eexists. eexists.
  split; [vm_compute; reflexivity|]. split; [reflexivity|]. vm_compute. discriminate.
Qed.

(** The sample platform meets the bound on [kidleframes]; five ticks on a
    powered-on queue invoke the callback at most once. *)
Lemma HandleIdleCase_idle_refresh_witness :
  0 <= kidleframes < 2 ^ 32 - 1
  /\ exists q' env',
      idle_run 5 (set_state_ (mask kPoweredOn) queue0) (world true true 7)
      = (Ok q', env')
      /\ (count is_refresh_callback (events_since (world true true 7) env') <= 1)%nat.
Proof.
  assert (Hk : 0 <= kidleframes < 2 ^ 32 - 1) by (vm_compute; split; [discriminate | reflexivity]).
  split; [exact Hk|].
  exact (proj2 (HandleIdleCase_idle_refresh
                  (set_state_ (mask kPoweredOn) queue0) (world true true 7) Hk) 5%nat).
Defined.

End IdleSample.

(** ** Leaving the display *)

Lemma count_le (f g : Event -> bool) (events : list Event) :
  (forall e, f e = true -> g e = true) ->
  (count f events <= count g events)%nat.
Proof.
  intros Hfg. unfold count. induction events as [|e events IH]; simpl; [lia|].
  destruct (f e) eqn:Ef.
  - rewrite (Hfg e Ef). simpl. lia.
  - destruct (g e); simpl; lia.
Qed.

Section Exit.
Context {X : Type} `{Constants} `{Collaborators X}.

(** The events of [HandleExit] on a queue. *)
Lemma HandleExit_run (q : DisplayQueue) (env : Env X) :
  exists o' new,
    HandleExit q env = (Ok (exited q), {| outside := o'; trace := env.(trace) ++ new |})
    /\ count is_close new = (if q.(kms_fence_) >? 0 then 1 else 0)%nat
    /\ count (is_close_of q.(kms_fence_)) new = (if q.(kms_fence_) >? 0 then 1 else 0)%nat.
Proof.
  unfold HandleExit, ResetQueue. eff. simpl.
  destruct (bool_decide (previous_plane_state_ q = [])) eqn:Hp; simpl.
  all: destruct (kms_fence_ q >? 0) eqn:Hk; simpl.
  all: match goal with |- context [HasSurfaces ?o] => destruct (HasSurfaces o) end; simpl.
  all: autorewrite with bits; rewrite !has_mask_other by discriminate;
    rewrite ?orb_false_r.
  all: destruct (has (state_ q) kDisableOverlayUsage) eqn:Hd,
         (has (state_ q) kClonedMode) eqn:Hc; simpl.
  all: destruct (has (FrameStateTracker.state_ (idle_tracker_ q))
                   FrameStateTracker.kIgnoreUpdates) eqn:Hi; simpl.
  all: do 2 eexists; split;
    [ rewrite <- ?app_assoc; unfold exited, exit_word, reset_tracker;
      rewrite ?Hd, ?Hc, ?Hi, ?Hk; reflexivity
    | unfold count; simpl; rewrite ?Z.eqb_refl; split; reflexivity ].
Qed.

Lemma exit_word_idempotent (word : Z) : exit_word (exit_word word) = exit_word word.
Proof.
  unfold exit_word.
  destruct (has word kDisableOverlayUsage) eqn:Hd, (has word kClonedMode) eqn:Hc;
    bits.
Qed.

Lemma reset_tracker_idempotent (tr : FrameStateTracker.t) :
  reset_tracker (reset_tracker tr) = reset_tracker tr.
Proof.
  unfold reset_tracker. simpl.
  destruct (has (FrameStateTracker.state_ tr) FrameStateTracker.kIgnoreUpdates);
    bits.
Qed.

Lemma exited_idempotent (q : DisplayQueue) : exited (exited q) = exited q.
Proof.
  unfold exited. simpl. rewrite exit_word_idempotent, reset_tracker_idempotent.
  destruct (kms_fence_ q >? 0) eqn:Hk; [reflexivity|]. now rewrite Hk.
Qed.

Lemma has_exit_word (word : Z) (f : QueueState) :
  has (exit_word word) f
  = match f with
    | kConfigurationChanged => true
    | kDisableOverlayUsage => has word kDisableOverlayUsage
    | kClonedMode => has word kClonedMode
    | _ => false
    end.
Proof.
  unfold exit_word.
  destruct (has word kDisableOverlayUsage) eqn:Hd, (has word kClonedMode) eqn:Hc;
    destruct f; bits.
Qed.


(** C8: calling [HandleExit] a second time leaves the queue as the first
    call left it; over the two calls a pending kms fence is closed exactly
    once and nothing else is closed; after the first call the state word
    holds [kConfigurationChanged] and whichever of [kDisableOverlayUsage]
    and [kClonedMode] were set before, and nothing else, and
    [in_flight_layers_], [previous_plane_state_], [surfaces_not_inuse_] and
    [mark_not_inuse_] are empty. *)
Theorem HandleExit_idempotent (q : DisplayQueue) (env : Env X) :
  exists q1 env1 env2,
    HandleExit q env = (Ok q1, env1)
    /\ HandleExit q1 env1 = (Ok q1, env2)
    /\ count is_close (events_since env env2)
       = (if q.(kms_fence_) >? 0 then 1 else 0)%nat
    /\ count (is_close_of q.(kms_fence_)) (events_since env env2)
       = (if q.(kms_fence_) >? 0 then 1 else 0)%nat
    /\ q1.(kms_fence_) = (if q.(kms_fence_) >? 0 then 0 else q.(kms_fence_))
    /\ (forall f : QueueState,
        has q1.(state_) f
        = match f with
          | kConfigurationChanged => true
          | kDisableOverlayUsage => has q.(state_) kDisableOverlayUsage
          | kClonedMode => has q.(state_) kClonedMode
          | _ => false
          end)
    /\ q1.(in_flight_layers_) = []
    /\ q1.(previous_plane_state_) = []
    /\ q1.(surfaces_not_inuse_) = []
    /\ q1.(mark_not_inuse_) = [].
Proof.
  destruct (HandleExit_run q env) as (o1 & new1 & E1 & Hc1 & Hf1).
  set (env1 := {| outside := o1; trace := env.(trace) ++ new1 |}) in *.
  destruct (HandleExit_run (exited q) env1) as (o2 & new2 & E2 & Hc2 & _).
  rewrite exited_idempotent in E2.
  assert (Hnone : count is_close new2 = 0%nat).
  { rewrite Hc2. unfold exited. simpl.
    destruct (kms_fence_ q >? 0) eqn:Hk; [reflexivity|]. now rewrite Hk. }
  exists (exited q), env1, {| outside := o2; trace := env1.(trace) ++ new2 |}.
  split; [exact E1|]. split; [exact E2|].
  rewrite (events_since_app env _ (new1 ++ new2))
    by (subst env1; simpl; now rewrite app_assoc).
  rewrite !count_app, Hc1, Hf1, Hnone.
  assert (Hle := count_le (is_close_of q.(kms_fence_)) is_close new2).
  rewrite Hnone in Hle.
  assert (Hz : count (is_close_of q.(kms_fence_)) new2 = 0%nat).
  { apply Nat.le_0_r, Hle. intros [] He; simpl in *; congruence. }
  rewrite Hz, !Nat.add_0_r.
  repeat split; try reflexivity.
  intros f. simpl. apply has_exit_word.
Qed.

End Exit.

(** ** Surface ageing *)

Section Ageing.
Context {X : Type}.

Lemma age_SetSurfaceAge (o : Outside X) (surface s : NativeSurface) (value : Z) :
  GetSurfaceAge s (SetSurfaceAge surface value o)
  = if decide (surface = s) then value else GetSurfaceAge s o.
Proof.
  unfold GetSurfaceAge, SetSurfaceAge. simpl.
  destruct (decide (surface = s)) as [->|Hne].
  - apply fn_lookup_insert.
  - now apply fn_lookup_insert_ne.
Qed.

Lemma age_from_other (surfaces : list NativeSurface) :
  forall (i : nat) (o : Outside X) (s : NativeSurface),
    s ∉ surfaces ->
    GetSurfaceAge s (age_from i surfaces o) = GetSurfaceAge s o.
Proof.
  induction surfaces as [|surface rest IH]; intros i o s Hs; [reflexivity|].
  simpl. rewrite IH by (intros Hin; apply Hs; now right).
  rewrite age_SetSurfaceAge. destruct (decide (surface = s)) as [->|]; [|reflexivity].
  exfalso. apply Hs. left.
Qed.

Lemma age_from_lookup (surfaces : list NativeSurface) :
  forall (i k : nat) (o : Outside X) (s : NativeSurface),
    NoDup surfaces -> surfaces !! k = Some s ->
    GetSurfaceAge s (age_from i surfaces o)
    = Int.to_signed (2 - Z.of_nat (i + k)).
Proof.
  induction surfaces as [|surface rest IH]; intros i k o s Hnd Hk; [discriminate|].
  apply list.NoDup_cons in Hnd as [Hnotin Hnd]. simpl. destruct k as [|k].
  - injection Hk as ->. rewrite age_from_other by assumption.
    rewrite age_SetSurfaceAge, decide_True by reflexivity.
    now rewrite Nat.add_0_r.
  - simpl in Hk. rewrite (IH (S i) k) by assumption.
    do 2 f_equal. lia.
Qed.

Lemma age_plane_other (surfaces : list NativeSurface) (o : Outside X)
    (s : NativeSurface) :
  s ∉ surfaces ->
  GetSurfaceAge s (age_plane surfaces o) = GetSurfaceAge s o.
Proof.
  intros Hs. unfold age_plane.
  destruct surfaces as [|s0 [|s1 [|s2 [|s3 rest]]]];
    try reflexivity; try (apply age_from_other; assumption).
  rewrite !age_SetSurfaceAge.
  repeat (destruct (decide _) as [->|]; [exfalso; apply Hs; repeat constructor|]).
  reflexivity.
Qed.

Lemma age_plane_three (s0 s1 s2 : NativeSurface) (o : Outside X) :
  NoDup [s0; s1; s2] ->
  GetSurfaceAge s0 (age_plane [s0; s1; s2] o) = 2
  /\ GetSurfaceAge s1 (age_plane [s0; s1; s2] o) = 0
  /\ GetSurfaceAge s2 (age_plane [s0; s1; s2] o) = 1.
Proof.
  intros Hnd.
  apply list.NoDup_cons in Hnd as [H0 Hnd].
  apply list.NoDup_cons in Hnd as [H1 _].
  assert (s0 <> s1) by (intros ->; apply H0; repeat constructor).
  assert (s0 <> s2) by (intros ->; apply H0; repeat constructor).
  assert (s1 <> s2) by (intros ->; apply H1; repeat constructor).
  unfold age_plane. rewrite !age_SetSurfaceAge.
  repeat split; repeat (destruct (decide _); try congruence).
Qed.

Lemma age_plane_lookup (surfaces : list NativeSurface) (o : Outside X)
    (i : nat) (s : NativeSurface) :
  length surfaces <> 3%nat -> NoDup surfaces -> surfaces !! i = Some s ->
  GetSurfaceAge s (age_plane surfaces o) = Int.to_signed (2 - Z.of_nat i).
Proof.
  intros Hlen Hnd Hi. unfold age_plane.
  destruct surfaces as [|s0 [|s1 [|s2 [|s3 rest]]]];
    try (now apply (age_from_lookup _ 0 i)).
  - discriminate.
  - simpl in Hlen. congruence.
Qed.

Lemma age_plane_aged (surfaces : list NativeSurface) (o : Outside X) :
  NoDup surfaces -> aged surfaces (age_plane surfaces o).
Proof.
  intros Hnd. split.
  - intros s0 s1 s2 ->. now apply age_plane_three.
  - intros Hlen i s Hi. now apply age_plane_lookup.
Qed.

Lemma aged_same (surfaces : list NativeSurface) (o o' : Outside X) :
  (forall s, s ∈ surfaces -> GetSurfaceAge s o' = GetSurfaceAge s o) ->
  aged surfaces o -> aged surfaces o'.
Proof.
  intros Hsame [H3 Hn]. split.
  - intros s0 s1 s2 E. destruct (H3 s0 s1 s2 E) as (A0 & A1 & A2). subst surfaces.
    rewrite !Hsame by repeat constructor. auto.
  - intros Hlen i s Hi. rewrite Hsame by (eapply list_elem_of_lookup_2; eassumption).
    now apply Hn.
Qed.

Lemma fold_age_plane_other (planes : DisplayPlaneStateList) :
  forall (o : Outside X) (s : NativeSurface),
    s ∉ concat (map DisplayPlaneState.GetSurfaces planes) ->
    GetSurfaceAge s
      (fold_left
         (fun o plane_state =>
            age_plane plane_state.(DisplayPlaneState.GetSurfaces) o) planes o)
    = GetSurfaceAge s o.
Proof.
  induction planes as [|plane planes IH]; intros o s Hs; [reflexivity|].
  simpl in *. rewrite IH by (intros Hin; apply Hs, list.elem_of_app; now right).
  apply age_plane_other. intros Hin. apply Hs, list.elem_of_app. now left.
Qed.

Lemma UpdateOnScreenSurfaces_aged (planes : DisplayPlaneStateList) :
  forall (o : Outside X) (k : nat) (plane : DisplayPlaneState.t),
    NoDup (concat (map DisplayPlaneState.GetSurfaces planes)) ->
    planes !! k = Some plane ->
    aged plane.(DisplayPlaneState.GetSurfaces)
      (fold_left
         (fun o plane_state =>
            age_plane plane_state.(DisplayPlaneState.GetSurfaces) o) planes o).
Proof.
  induction planes as [|first planes IH]; intros o k plane Hnd Hk; [discriminate|].
  simpl in Hnd. apply list.NoDup_app in Hnd as (Hfirst & Hdisj & Hrest).
  destruct k as [|k]; simpl in *.
  - injection Hk as ->.
    apply (aged_same _ (age_plane (DisplayPlaneState.GetSurfaces plane) o)).
    + intros s Hs. apply fold_age_plane_other. intros Hin. exact (Hdisj s Hs Hin).
    + now apply age_plane_aged.
  - now apply (IH _ k).
Qed.

(** C3, as amended: when the surfaces of the planes of
    [previous_plane_state_] are pairwise distinct, [UpdateOnScreenSurfaces]
    leaves a plane of exactly three surfaces with the ages 2, 0, 1 (in the
    order of its surfaces), and gives surface [i] of any other plane the age
    [2 - i].  So the ages of a plane with three surfaces are a permutation
    of 0, 1, 2, and the single surface of a plane with one surface has
    age 2. *)
Theorem UpdateOnScreenSurfaces_ages (q : DisplayQueue) (o : Outside X) (k : nat)
    (plane : DisplayPlaneState.t) :
  NoDup (concat (map DisplayPlaneState.GetSurfaces q.(previous_plane_state_))) ->
  q.(previous_plane_state_) !! k = Some plane ->
  let surfaces := plane.(DisplayPlaneState.GetSurfaces) in
  let age := fun s => GetSurfaceAge s (UpdateOnScreenSurfaces q o) in
  (forall s0 s1 s2, surfaces = [s0; s1; s2] ->
     age s0 = 2 /\ age s1 = 0 /\ age s2 = 1)
  /\ (length surfaces <> 3%nat ->
      forall i s, surfaces !! i = Some s ->
        age s = Int.to_signed (2 - Z.of_nat i)
        /\ (Z.of_nat i <= 2 ^ 31 -> age s = 2 - Z.of_nat i))
  /\ (length surfaces = 3%nat -> Permutation (map age surfaces) [0; 1; 2])
  /\ (length surfaces = 1%nat -> map age surfaces = [2]).
Proof.
  intros Hnd Hk. cbv zeta. unfold UpdateOnScreenSurfaces.
  destruct (UpdateOnScreenSurfaces_aged _ o k plane Hnd Hk) as [H3 Hn].
  set (surfaces := DisplayPlaneState.GetSurfaces plane) in *.
  set (aged := fold_left _ _ o) in *.
  repeat split.
  - now apply (H3 s0 s1 s2).
  - now apply (H3 s0 s1 s2).
  - now apply (H3 s0 s1 s2).
  - now apply Hn.
  - intros Hi. rewrite (Hn H i s) by assumption.
    destruct (Z.le_gt_cases (Z.of_nat i) 2).
    + apply to_signed_small. lia.
    + apply to_signed_neg. lia.
  - intros Hlen. destruct surfaces as [|s0 [|s1 [|s2 [|s3 rest]]]] eqn:E;
      try discriminate.
    destruct (H3 s0 s1 s2 eq_refl) as (A0 & A1 & A2).
    simpl. rewrite A0, A1, A2.
    apply perm_trans with (l' := [0; 2; 1]); [apply perm_swap|].
    apply perm_skip, perm_swap.
  - intros Hlen. destruct surfaces as [|s0 [|s1 rest]] eqn:E; try discriminate.
    simpl. f_equal. rewrite (Hn ltac:(simpl; lia) 0%nat s0 eq_refl).
    reflexivity.
Qed.

End Ageing.

Section AgeingSample.
Import Sample.

(** C3 as stated fails for a plane with one surface: its age becomes 2,
    and [2] is not a permutation of [0]. *)
Lemma single_surface_gets_age_two :
  map (fun s =>
         GetSurfaceAge s
           (UpdateOnScreenSurfaces
              (set_previous_plane_state_ [composed [7%nat]] queue0)
              (world true true 7).(outside)))
    [7%nat] = [2]
  /\ ~ Permutation
        (map (fun s =>
                GetSurfaceAge s
                  (UpdateOnScreenSurfaces
                     (set_previous_plane_state_ [composed [7%nat]] queue0)
                     (world true true 7).(outside)))
           [7%nat])
        [0].
Proof.
  split; [reflexivity|].
  intros Hperm. apply Permutation_length_1 in Hperm. vm_compute in Hperm.
  discriminate.
Qed.

(** A plane with the three distinct surfaces 1, 2, 3 gets the ages
    2, 0, 1. *)
Lemma UpdateOnScreenSurfaces_ages_witness :
  NoDup (concat (map DisplayPlaneState.GetSurfaces
                   (set_previous_plane_state_ [composed [1%nat; 2%nat; 3%nat]]
                      queue0).(previous_plane_state_)))
  /\ (set_previous_plane_state_ [composed [1%nat; 2%nat; 3%nat]]
        queue0).(previous_plane_state_) !! 0%nat
     = Some (composed [1%nat; 2%nat; 3%nat])
  /\ Permutation
       (map (fun s =>
               GetSurfaceAge s
                 (UpdateOnScreenSurfaces
                    (set_previous_plane_state_ [composed [1%nat; 2%nat; 3%nat]]
                       queue0)
                    (world true true 7).(outside)))
          [1%nat; 2%nat; 3%nat])
       [0; 1; 2].
Proof.
  set (q := set_previous_plane_state_ [composed [1%nat; 2%nat; 3%nat]] queue0).
  assert (Hnd : NoDup (concat (map DisplayPlaneState.GetSurfaces
                                 q.(previous_plane_state_)))).
  { apply (bool_decide_unpack _). vm_compute. reflexivity. }
  assert (Hk : q.(previous_plane_state_) !! 0%nat
               = Some (composed [1%nat; 2%nat; 3%nat])) by reflexivity.
  split; [exact Hnd|]. split; [exact Hk|].
  exact (proj1 (proj2 (proj2
           (UpdateOnScreenSurfaces_ages q (world true true 7).(outside) 0
              (composed [1%nat; 2%nat; 3%nat]) Hnd Hk))) eq_refl).
Defined.

End AgeingSample.

(** ** Failed frames *)

Ltac by_event e :=
  destruct e;
  repeat match goal with
         | b : bool |- _ => destruct b
         | l : Lock |- _ => destruct l
         end;
  simpl; intros; first [reflexivity | discriminate | tauto].

Lemma planning_no_failure e : is_planning e = true -> is_failure e = false.
Proof. by_event e. Qed.

Lemma composing_no_failed_commit e : is_composing e = true -> is_failed_commit e = false.
Proof. by_event e. Qed.

Lemma publishing_no_failure e : is_publishing e = true -> is_failure e = false.
Proof. by_event e. Qed.

Lemma no_failure_app (l k : list Event) :
  Forall (fun e => is_failure e = false) l ->
  Forall (fun e => is_failure e = false) k ->
  Forall (fun e => is_failure e = false) (l ++ k).
Proof. intros. apply list.Forall_app. now split. Qed.

Lemma no_failure_planning (l : list Event) :
  Forall (fun e => is_planning e = true) l ->
  Forall (fun e => is_failure e = false) l.
Proof. intros Hl. eapply list.Forall_impl; [exact Hl|]. apply planning_no_failure. Qed.

Lemma no_failure_publishing (l : list Event) :
  Forall (fun e => is_publishing e = true) l ->
  Forall (fun e => is_failure e = false) l.
Proof. intros Hl. eapply list.Forall_impl; [exact Hl|]. apply publishing_no_failure. Qed.

Lemma no_failure_composing (l : list Event) :
  Forall (fun e => is_composing e = true) l ->
  Forall (fun e => is_failed_composition e = false) l ->
  Forall (fun e => is_failure e = false) l.
Proof.
  intros Hc Hf. induction Hc as [|e l He Hc IH]; [constructor|].
  apply list.Forall_cons in Hf. destruct Hf as [Hf Hl].
  constructor; [|now apply IH].
  unfold is_failure. rewrite Hf. simpl. now apply composing_no_failed_commit.
Qed.

Section FailedFrames.
Context `{Constants}.

Lemma no_failure_wait q : Forall (fun e => is_failure e = false) (wait_events q).
Proof. unfold wait_events. destruct (_ && _); repeat constructor. Qed.

Lemma no_failure_color q : Forall (fun e => is_failure e = false) (color_events q).
Proof. unfold color_events. destruct (has _ _); repeat constructor. Qed.

Lemma no_failure_absurd (l : list Event) :
  Forall (fun e => is_failure e = false) l ->
  Exists (fun e => is_failure e = true) l -> False.
Proof.
  intros Hf He. apply List.Exists_exists in He. destruct He as (e & Hin & He).
  rewrite List.Forall_forall in Hf. specialize (Hf e Hin). congruence.
Qed.

Lemma ready_queue_unpublished source_layers q p (v : bool) sni validated :
  prepared_from source_layers q p ->
  unpublished q (ready_queue p v sni validated).
Proof.
  intros (_ & Hq & _). unfold ready_queue, unpublished.
  destruct Hq as [-> | ->]; destruct v; simpl; auto.
Qed.

Lemma waited_unpublished q : unpublished q (waited q).
Proof. unfold waited, unpublished. destruct (_ && _); simpl; auto. Qed.

Lemma corrected_unpublished q : unpublished q (corrected q).
Proof. unfold corrected, unpublished. destruct (has _ _); simpl; auto. Qed.

Lemma unpublished_trans q1 q2 q3 :
  unpublished q1 q2 -> unpublished q2 q3 -> unpublished q1 q3.
Proof. unfold unpublished. intros [-> ->] [-> ->]. auto. Qed.


Lemma failed_update_facts source_layers q p tracker q' :
  prepared_from source_layers q p ->
  unpublished q q' ->
  let u := failed_update p tracker q' in
  u.(result) = false
  /\ u.(queue).(last_commit_failed_update_) = true
  /\ unpublished q u.(queue)
  /\ u.(retire_fence_out) = -1
  /\ initial_validate_layers u.(queue) = true.
Proof.
  intros _ [Hf Hp]. unfold failed_update, unpublished, initial_validate_layers.
  simpl. auto.
Qed.

End FailedFrames.

Section FailedFrame.
Context {X : Type} `{Constants} `{Collaborators X}.

(** C1. When the composition pass or the display commit of a [QueueUpdate]
    call fails, the call returns failure with the retire fence at -1, sets
    [last_commit_failed_update_], leaves [in_flight_layers_] and
    [previous_plane_state_] as they were, and the next call starts with
    [validate_layers] true: every [prepare] from the returned queue asks
    for full validation. *)
Theorem QueueUpdate_failure source_layers retire_fence
    (idle_update handle_constraints : bool) q (env : Env X) res env' :
  QueueUpdate source_layers retire_fence idle_update handle_constraints q env
  = (res, env') ->
  Exists (fun e => is_failure e = true) (events_since env env') ->
  exists u,
    res = Ok u
    /\ u.(result) = false
    /\ u.(queue).(last_commit_failed_update_) = true
    /\ unpublished q u.(queue)
    /\ u.(retire_fence_out) = -1
    /\ initial_validate_layers u.(queue) = true
    /\ forall layers (idle handle : bool) tracker env2 p2 env3,
        prepare layers idle handle tracker u.(queue) env2 = (Ok p2, env3) ->
        p2.(validate_layers) = true.
Proof.
  intros E Hfail.
  destruct (QueueUpdate_shape _ _ _ _ _ _ _ _ E) as (new & Ht & Hs).
  unfold events_since in Hfail. rewrite Ht, drop_app_length in Hfail.
  assert (Hnext : forall u : Update,
             initial_validate_layers u.(queue) = true ->
             forall layers (idle handle : bool) tracker env2 p2 env3,
               prepare layers idle handle tracker u.(queue) env2 = (Ok p2, env3) ->
               p2.(validate_layers) = true).
  { intros u Hu layers idle handle tracker env2 p2 env3 Ep.
    destruct (prepare_emits _ _ _ _ _ _ _ _ Ep) as (_ & _ & _ & Hp).
    destruct (Hp p2 eq_refl) as (_ & _ & Hv & _). now apply Hv. }
  assert (Hdone : forall p tracker q',
             prepared_from source_layers q p -> unpublished q q' ->
             res = Ok (failed_update p tracker q') ->
             exists u,
               res = Ok u
               /\ u.(result) = false
               /\ u.(queue).(last_commit_failed_update_) = true
               /\ unpublished q u.(queue)
               /\ u.(retire_fence_out) = -1
               /\ initial_validate_layers u.(queue) = true
               /\ forall layers (idle handle : bool) tracker env2 p2 env3,
                   prepare layers idle handle tracker u.(queue) env2 = (Ok p2, env3) ->
                   p2.(validate_layers) = true).
  { intros p tracker q' Hp Hq ->. exists (failed_update p tracker q').
    destruct (failed_update_facts _ _ _ tracker _ Hp Hq) as (R1 & R2 & R3 & R4 & R5).
    repeat (split; [assumption || reflexivity|]). now apply Hnext. }
  destruct Hs as [[-> _]|[[_ Hplan]|(pre & p & Hpre & Hp & Hs)]].
  { now apply List.Exists_nil in Hfail. }
  { exfalso. eapply no_failure_absurd; [|exact Hfail]. now apply no_failure_planning. }
  destruct Hs as [(-> & _)|(v & sni & rest & -> & _ & Hs)].
  { exfalso. eapply no_failure_absurd; [|exact Hfail]. now apply no_failure_planning. }
  destruct Hs as (plan & comp & validated & Hplan & Hcomp & Hs). cbv zeta in Hs.
  pose proof (ready_queue_unpublished _ _ _ v sni validated Hp) as Hq1.
  destruct Hs as [[-> ->]|[(Hx & -> & tracker & Hr)|(Hok & ok & fence & pub & -> & Hs)]].
  { exfalso. eapply no_failure_absurd; [|exact Hfail].
    apply no_failure_app; now apply no_failure_planning. }
  { now apply (Hdone p tracker _ Hp Hq1). }
  destruct ok.
  { exfalso. destruct Hs as [Hpub _]. eapply no_failure_absurd; [|exact Hfail].
    repeat apply no_failure_app;
      auto using no_failure_planning, no_failure_composing, no_failure_wait,
        no_failure_color.
    constructor; [reflexivity|]. now apply no_failure_publishing. }
  destruct Hs as [_ (tracker & Hr)].
  refine (Hdone p tracker _ Hp _ Hr).
  eapply unpublished_trans; [exact Hq1|].
  eapply unpublished_trans; [apply waited_unpublished|apply corrected_unpublished].
Qed.

End FailedFrame.


Section FailedFrameSample.
Import Sample.

(** On the sample platform, a first frame whose commit is refused. *)
Lemma QueueUpdate_failure_witness :
  Exists (fun e => is_failure e = true)
    (events_since (world true false 7)
       (snd (QueueUpdate [layer 5] (-1) false false queue0 (world true false 7))))
  /\ exists u,
      fst (QueueUpdate [layer 5] (-1) false false queue0 (world true false 7)) = Ok u
      /\ u.(result) = false
      /\ u.(queue).(last_commit_failed_update_) = true
      /\ unpublished queue0 u.(queue)
      /\ initial_validate_layers u.(queue) = true.
Proof.
  set (run := QueueUpdate [layer 5] (-1) false false queue0 (world true false 7)).
  assert (E : QueueUpdate [layer 5] (-1) false false queue0 (world true false 7)
              = (run.1, run.2)) by (vm_compute; reflexivity).
  assert (Hf : Exists (fun e => is_failure e = true)
                 (events_since (world true false 7) run.2)).
  { vm_compute.
    repeat first [apply Exists_cons_hd; reflexivity | apply Exists_cons_tl]. }
  split; [exact Hf|].
  destruct (QueueUpdate_failure _ _ _ _ _ _ _ _ E Hf)
    as (u & R1 & R2 & R3 & R4 & R5 & R6 & _).
  exists u. auto.
Defined.

End FailedFrameSample.

(** ** Frames that need no commit *)

Lemma count_none (f P : Event -> bool) (events : list Event) :
  Forall (fun e => P e = true) events ->
  (forall e, P e = true -> f e = false) ->
  count f events = 0%nat.
Proof.
  intros Hall Hf. unfold count.
  induction Hall as [|e events He _ IH]; [reflexivity|].
  simpl. now rewrite (Hf e He).
Qed.

Section SkippedCommit.
Context {X : Type} `{Constants} `{Collaborators X}.

Lemma bind_step {A B : Type} (m : Eff X A) (k : A -> Eff X B) env a env1 :
  m env = (Ok a, env1) -> (m ≫= k) env = k a env1.
Proof. intros E. unfold mbind, Eff_bind. now rewrite E. Qed.

Lemma incremental_ignores p c env1 env2 :
  GetCachedLayers p.(frame).(Frame.layers) p.(frame).(Frame.remove_index)
    p.(prepared_queue) env1 = (Ok c, env2) ->
  c.(can_ignore_commit) = true ->
  c.(force_full_validation) = false ->
  p.(frame).(Frame.add_index) <= 0 ->
  p.(frame).(Frame.re_validate_commit) = false ->
  c.(needs_plane_validation) = false ->
  p.(force_media_composition) = false ->
  incremental p env1 = (Ok (IgnoreCommit c.(cached_surfaces_not_inuse)), env2).
Proof.
  intros Hc Hcan Hfull Hadd Hre Hnp Hmedia. unfold incremental.
  rewrite (bind_step _ _ _ _ _ Hc). rewrite Hfull, Hre, Hnp, Hmedia, Hcan.
  replace (Frame.add_index (frame p) >? 0) with false by (symmetry; rewrite Z.gtb_ltb; apply Z.ltb_ge; lia).
  reflexivity.
Qed.


(** C2. A [QueueUpdate] that is prepared incrementally ([validate_layers]
    false) and for which [GetCachedLayers] reports [can_ignore_commit], with
    no added layer and no revalidation asked for, returns success with the
    freshly built layers in [in_flight_layers_]; it issues no commit, no
    composition and no [dup] of a fence, every release fence and the retire
    fence stay at -1, and [previous_plane_state_] and [kms_fence_] are
    untouched. *)
Theorem QueueUpdate_skips_commit source_layers retire_fence
    (idle_update handle_constraints : bool) q (env : Env X) p env1 c env2 :
  let entered := ScopedIdleStateTracker_enter q.(idle_tracker_) env.(outside) in
  IgnoreUpdate entered.1 = false ->
  prepare source_layers idle_update handle_constraints entered.1 q
    {| outside := entered.2; trace := env.(trace) |} = (Ok p, env1) ->
  p.(validate_layers) = false ->
  GetCachedLayers p.(frame).(Frame.layers) p.(frame).(Frame.remove_index)
    p.(prepared_queue) env1 = (Ok c, env2) ->
  c.(can_ignore_commit) = true ->
  p.(frame).(Frame.add_index) <= 0 ->
  p.(frame).(Frame.re_validate_commit) = false ->
  c.(needs_plane_validation) = false ->
  exists u env',
    QueueUpdate source_layers retire_fence idle_update handle_constraints q env
    = (Ok u, env')
    /\ u.(result) = true
    /\ u.(queue).(in_flight_layers_) = p.(frame).(Frame.layers)
    /\ u.(queue).(previous_plane_state_) = q.(previous_plane_state_)
    /\ u.(queue).(kms_fence_) = q.(kms_fence_)
    /\ u.(retire_fence_out) = -1
    /\ u.(updated_layers) = map (HwcLayer.SetReleaseFence (-1)) source_layers
    /\ Forall (fun e => is_planning e = true) (events_since env env')
    /\ count is_commit (events_since env env') = 0%nat
    /\ count is_gpu_composition (events_since env env') = 0%nat
    /\ count is_dup (events_since env env') = 0%nat.
Proof.
  intros entered Hi Hp Hv Hc Hcan Hadd Hre Hnp.
  destruct (prepare_emits _ _ _ _ _ _ _ _ Hp) as (pre & Ht1 & Hpre & Hfrom).
  specialize (Hfrom p eq_refl). cbn [trace] in Ht1.
  destruct (GetCachedLayers_emits _ _ _ _ _ _ Hc) as (inc & Ht2 & Hinc & Hfull).
  specialize (Hfull c eq_refl Hcan).
  assert (Hmedia : p.(force_media_composition) = false).
  { destruct Hfrom as (_ & _ & _ & Hm & _).
    destruct (force_media_composition p); [|reflexivity].
    rewrite Hm in Hv by reflexivity. discriminate Hv. }
  pose proof (incremental_ignores _ _ _ _ Hc Hcan Hfull Hadd Hre Hnp Hmedia) as Hinc'.
  unfold QueueUpdate.
  unfold mbind at 1, Eff_bind at 1, touch at 1.
  fold entered. destruct entered as [tracker o1] eqn:Ee. cbn [fst snd] in *.
  rewrite Hi. rewrite (bind_step _ _ _ _ _ Hp). rewrite Hv. cbn [negb].
  rewrite (bind_step _ _ _ _ _ Hinc').
  match goal with
  | |- context [leave ?a ?b ?c ?d ?e ?env] =>
      destruct (leave_run a b c d e env) as (tracker' & o2 & L)
  end.
  rewrite L. eexists _, _. split; [reflexivity|].
  assert (Hev : events_since env {| outside := o2; trace := trace env2 |} = pre ++ inc).
  { apply events_since_app. cbn [trace]. rewrite Ht2, Ht1. now rewrite app_assoc. }
  rewrite Hev.
  assert (Hall : Forall (fun e => is_planning e = true) (pre ++ inc))
    by (apply list.Forall_app; now split).
  destruct Hfrom as (Hl & Hq & _).
  repeat split; try assumption; try reflexivity.
  - simpl. now destruct Hq as [-> | ->].
  - simpl. now destruct Hq as [-> | ->].
  - apply (count_none _ _ _ Hall). intros e. by_event e.
  - apply (count_none _ _ _ Hall). intros e. by_event e.
  - apply (count_none _ _ _ Hall). intros e. by_event e.
Qed.

End SkippedCommit.

Section SteadyState.
Import Sample.

(** S1 on the sample platform: after one committed frame showing buffer 5,
    the same frame again is prepared incrementally, found unchanged, and
    returns without a commit. *)
Lemma QueueUpdate_skips_commit_witness :
  exists u env',
    QueueUpdate [layer 5] (-1) false false (after_frame [layer 5] queue0)
      (world true true 7) = (Ok u, env')
    /\ u.(result) = true
    /\ u.(retire_fence_out) = -1
    /\ u.(queue).(previous_plane_state_)
       = (after_frame [layer 5] queue0).(previous_plane_state_)
    /\ count is_commit (events_since (world true true 7) env') = 0%nat.
Proof.
  edestruct (QueueUpdate_skips_commit [layer 5] (-1) false false
               (after_frame [layer 5] queue0) (world true true 7))
    as (u & env' & E & R1 & R2 & R3 & R4 & R5 & R6 & R7 & R8 & R9 & R10).
  - vm_compute. reflexivity.
  - vm_compute. reflexivity.
  - vm_compute. reflexivity.
  - vm_compute. reflexivity.
  - vm_compute. reflexivity.
  - vm_compute. discriminate.
  - vm_compute. reflexivity.
  - vm_compute. reflexivity.
  - exists u, env'. auto.
Defined.

End SteadyState.

(** ** Power on and color correction *)

Lemma planning_no_commit e : is_planning e = true -> is_commit e = false.
Proof. by_event e. Qed.

Lemma composing_no_commit e : is_composing e = true -> is_commit e = false.
Proof. by_event e. Qed.

Lemma publishing_no_commit e : is_publishing e = true -> is_commit e = false.
Proof. by_event e. Qed.


Section PowerOn.
Context {X : Type} `{Constants} `{Collaborators X}.




End PowerOn.

Section PowerOnSample.
Import Sample.



End PowerOnSample.

(** ** Ignored updates *)

Section IgnoredUpdatesSample.
Import Sample.

(** C6.  On the sample platform, after [IgnoreUpdates] a [QueueUpdate]
    called with the caller's retire fence at 9 returns success with no
    event and no change to the layers or to the lists of the queue, but the
    retire fence the caller sees is still 9, not -1. *)
Theorem QueueUpdate_ignored_keeps_retire_fence :
  exists u env',
    QueueUpdate [layer 5] 9 false false (IgnoreUpdates (after_frame [layer 5] queue0))
      (world true true 7) = (Ok u, env')
    /\ u.(result) = true
    /\ events_since (world true true 7) env' = []
    /\ u.(updated_layers) = [layer 5]
    /\ u.(queue).(in_flight_layers_)
       = (after_frame [layer 5] queue0).(in_flight_layers_)
    /\ u.(queue).(previous_plane_state_)
       = (after_frame [layer 5] queue0).(previous_plane_state_)
    /\ u.(retire_fence_out) = 9
    /\ u.(retire_fence_out) <> -1.
Proof.
  destruct (QueueUpdate_ignored [layer 5] 9 false false
              (IgnoreUpdates (after_frame [layer 5] queue0)) (world true true 7))
    as (tracker & o & E); [vm_compute; reflexivity|].
  eexists _, _. split; [exact E|]. cbn [result updated_layers retire_fence_out queue].
  repeat split; discriminate.
Qed.

End IgnoredUpdatesSample.

(** ** The indices after the first loop *)



Section Returns.
Context {X : Type} `{Constants} `{Collaborators X}.









End Returns.


Section Indices.
Context {X : Type} `{Constants} `{Collaborators X}.









End Indices.

Section IndicesSample.
Import Sample.


End IndicesSample.

(** ** Release fences *)




Section ReleaseFences.
Context {X : Type} `{Constants} `{Collaborators X}.





Lemma ready_queue_fence source_layers q p (v : bool) sni validated :
  prepared_from source_layers q p ->
  let q2 := corrected (waited (ready_queue p v sni validated)) in
  (ready_queue p v sni validated).(kms_fence_) = q.(kms_fence_)
  /\ q2.(kms_fence_)
     = (if negb ENABLE_DOUBLE_BUFFERING && (q.(kms_fence_) >? 0) then 0
        else q.(kms_fence_))
  /\ has q2.(state_) kClonedMode = has q.(state_) kClonedMode.
Proof.
  intros (_ & Hq & _). unfold corrected, waited, ready_queue.
  destruct Hq as [-> | ->]; destruct v; simpl;
    destruct (_ && _); simpl; destruct (has _ kNeedsColorCorrection) eqn:E; simpl;
    repeat split; try reflexivity;
    rewrite ?has_clear, ?has_mask_other by discriminate;
    rewrite ?andb_true_r; reflexivity.
Qed.


End ReleaseFences.

Section ReleaseFencesSample.
Import Sample.



End ReleaseFencesSample.

(** ** Further properties of the frame pipeline *)

(** Settles a flag test on a word built by setting and clearing single
    flags. *)
Ltac flag_test :=
  intros;
  repeat first [ rewrite has_set | rewrite has_clear | rewrite has_lor
               | rewrite has_mask_same
               | rewrite has_mask_other by (assumption || discriminate) ];
  repeat match goal with Hf : has _ _ = _ |- _ => rewrite Hf end;
  cbn [negb andb orb];
  rewrite ?orb_false_r, ?orb_true_r, ?andb_true_r, ?andb_false_r;
  try reflexivity.

(** ** Counting the events of a frame *)

Lemma count_pos_Exists (f : Event -> bool) (events : list Event) :
  Exists (fun e => f e = true) events <-> (0 < count f events)%nat.
Proof.
  unfold count. induction events as [|e events IH]; simpl.
  - split; [intros Hex; now apply List.Exists_nil in Hex|lia].
  - rewrite List.Exists_cons, IH. destruct (f e); simpl.
    + split; [lia|auto].
    + split; [intros [Hd|Hp]; [discriminate|exact Hp]|auto].
Qed.

Lemma count_zero_Forall (f : Event -> bool) (events : list Event) :
  Forall (fun e => f e = false) events -> count f events = 0%nat.
Proof.
  intros Hall. unfold count. induction Hall as [|e l He _ IH]; [reflexivity|].
  simpl. now rewrite He.
Qed.

Lemma count_cons (f : Event -> bool) (e : Event) (events : list Event) :
  count f (e :: events) = ((if f e then 1 else 0) + count f events)%nat.
Proof. unfold count. simpl. now destruct (f e). Qed.

Lemma planning_no_failed_composition e :
  is_planning e = true -> is_failed_composition e = false.
Proof. by_event e. Qed.

Lemma publishing_no_failed_composition e :
  is_publishing e = true -> is_failed_composition e = false.
Proof. by_event e. Qed.

Section CountingFrames.
Context {X : Type} `{Constants} `{Collaborators X}.

Lemma count_commit_events (f : Event -> bool) pre plan comp q1 (ok : bool) fence pub :
  count f (pre ++ plan ++ comp ++ wait_events q1 ++ color_events (waited q1)
           ++ EvDisplayCommit ok fence :: pub)
  = (count f pre + count f plan + count f comp + count f (wait_events q1)
     + count f (color_events (waited q1))
     + (if f (EvDisplayCommit ok fence) then 1 else 0) + count f pub)%nat.
Proof. rewrite !count_app, count_cons. lia. Qed.

Lemma count_wait_events (f : Event -> bool) q :
  (forall fd, f (EvHWCPoll fd) = false) -> (forall fd, f (EvClose fd) = false) ->
  count f (wait_events q) = 0%nat.
Proof.
  intros Hp Hc. unfold wait_events. destruct (_ && _); [|reflexivity].
  rewrite !count_cons, Hp, Hc. reflexivity.
Qed.

Lemma count_color_events (f : Event -> bool) q :
  (forall g c b, f (EvDisplaySetColorCorrection g c b) = false) ->
  (forall m h, f (EvDisplaySetColorTransformMatrix m h) = false) ->
  count f (color_events q) = 0%nat.
Proof.
  intros Hp Hc. unfold color_events. destruct (has _ _); [|reflexivity].
  rewrite !count_cons, Hp, Hc. reflexivity.
Qed.

(** X1.  A call of [QueueUpdate] issues at most one display commit, whatever
    its outcome (also when it throws), and none at all once its composition
    pass has failed. *)
Theorem QueueUpdate_commits_at_most_once source_layers retire_fence
    (idle_update handle_constraints : bool) q (env : Env X) res env' :
  QueueUpdate source_layers retire_fence idle_update handle_constraints q env
  = (res, env') ->
  (count is_commit (events_since env env') <= 1)%nat
  /\ (Exists (fun e => is_failed_composition e = true) (events_since env env') ->
      count is_commit (events_since env env') = 0%nat).
Proof.
  intros E.
  destruct (QueueUpdate_shape _ _ _ _ _ _ _ _ E) as (new & Ht & Hs).
  rewrite (events_since_app _ _ _ Ht). rewrite count_pos_Exists.
  assert (Hplan : forall l, Forall (fun e => is_planning e = true) l ->
                            count is_commit l = 0%nat
                            /\ count is_failed_composition l = 0%nat).
  { intros l Hl. split.
    - exact (count_none _ _ _ Hl planning_no_commit).
    - exact (count_none _ _ _ Hl planning_no_failed_composition). }
  destruct Hs as [[-> _]|[[_ Hp]|(pre & p & Hpre & Hp & Hs)]].
  { cbn. lia. }
  { destruct (Hplan _ Hp). lia. }
  destruct (Hplan _ Hpre) as [P1 P2].
  destruct Hs as [(-> & _)|(v & sni & rest & -> & _ & Hs)]; [lia|].
  destruct Hs as (plan & comp & validated & Hpl & Hcomp & Hs). cbv zeta in Hs.
  set (q1 := ready_queue p v sni validated) in *.
  destruct (Hplan _ Hpl) as [P3 P4].
  pose proof (count_none _ _ _ Hcomp composing_no_commit) as P5.
  destruct Hs as [[_ ->]|[(_ & -> & _)|(Hok & ok & fence & pub & -> & Hs)]].
  { rewrite !count_app. lia. }
  { rewrite !count_app. lia. }
  rewrite !count_commit_events.
  rewrite !count_wait_events, !count_color_events by reflexivity.
  rewrite (count_zero_Forall _ _ Hok).
  assert (Hpub : count is_commit pub = 0%nat
                 /\ count is_failed_composition pub = 0%nat).
  { destruct ok; destruct Hs as [Hs _].
    - split; [exact (count_none _ _ _ Hs publishing_no_commit)
             |exact (count_none _ _ _ Hs publishing_no_failed_composition)].
    - now subst pub. }
  destruct Hpub as [P6 P7]. simpl. destruct ok; simpl; lia.
Qed.

End CountingFrames.

(** Splits a handled [QueueUpdate] that returned into its four outcomes:
    the commit was skipped, the composition pass failed, the commit
    succeeded, the commit failed. *)
Ltac outcome_cases Hi E :=
  destruct (QueueUpdate_handled _ _ _ _ _ _ _ _ Hi E) as (new & Ht & Hs);
  rewrite ?(events_since_app _ _ _ Ht);
  destruct Hs as [[Hx _]|(pre & p & Hpre & Hp & Hs)]; [discriminate Hx|];
  destruct Hs as [(-> & Hv & tracker & sni & Hu)|(v & sni & rest & -> & Hv & Hs)];
  [ injection Hu as ->
  | destruct Hs as (plan & comp & validated & Hplan & Hcomp & Hs); cbv zeta in Hs;
    destruct Hs as [[Hx _]|[(Hfail & -> & tracker & Hr)
                           |(Hok & ok & fence & pub & -> & Hs)]];
    [ discriminate Hx
    | injection Hr as ->
    | destruct ok;
      [ destruct Hs as [Hpub (current & Hu)]; specialize (Hu _ eq_refl)
      | destruct Hs as [-> (tracker & Hr)]; injection Hr as -> ] ] ].

Section Outcomes.
Context {X : Type} `{Constants} `{Collaborators X}.

Lemma ready_queue_failed source_layers q p (v : bool) sni validated :
  prepared_from source_layers q p ->
  has (ready_queue p v sni validated).(state_) kNeedsColorCorrection
  = has q.(state_) kNeedsColorCorrection.
Proof.
  intros (_ & Hq & _). unfold ready_queue.
  destruct Hq as [-> | ->]; destruct v; simpl; try reflexivity;
    rewrite has_clear, has_mask_other by discriminate; apply andb_true_r.
Qed.

(** X2.  A [QueueUpdate] that is not ignored returns failure exactly when its
    composition pass or its commit failed, and it leaves
    [last_commit_failed_update_] equal to the negation of its result: the
    flag is set by a failed frame and clear after every other handled
    frame. *)
Theorem QueueUpdate_result_and_flag source_layers retire_fence
    (idle_update handle_constraints : bool) q (env : Env X) u env' :
  IgnoreUpdate (ScopedIdleStateTracker_enter q.(idle_tracker_) env.(outside)).1
  = false ->
  QueueUpdate source_layers retire_fence idle_update handle_constraints q env
  = (Ok u, env') ->
  (u.(result) = false
   <-> Exists (fun e => is_failure e = true) (events_since env env'))
  /\ u.(queue).(last_commit_failed_update_) = negb u.(result).
Proof.
  intros Hi E. rewrite count_pos_Exists.
  assert (Hnone : forall l, Forall (fun e => is_planning e = true) l ->
                            count is_failure l = 0%nat).
  { intros l Hl. exact (count_none _ _ _ Hl planning_no_failure). }
  outcome_cases Hi E; cbn [result queue last_commit_failed_update_ set_idle_tracker_
                             failed_update negb].
  - (* skipped *)
    rewrite (Hnone _ Hpre). split; [split; [discriminate|lia]|].
    destruct Hp as (_ & Hq & Hinit & _).
    assert (Hl : last_commit_failed_update_ q = false).
    { destruct (initial_validate_layers q) eqn:Ei.
      - rewrite (Hinit eq_refl) in Hv. discriminate.
      - unfold initial_validate_layers in Ei. now apply orb_false_iff in Ei. }
    simpl. destruct Hq as [-> | ->]; exact Hl.
  - (* composition failed *)
    split; [|reflexivity]. split; [intros _|reflexivity].
    rewrite !count_app. apply count_pos_Exists in Hfail.
    assert (count is_failed_composition comp <= count is_failure comp)%nat; [|lia].
    apply count_le. intros e He. unfold is_failure. now rewrite He.
  - (* committed *)
    destruct Hu as (Hres & [_ Hl] & _). rewrite Hres, Hl. cbn [negb].
    split.
    + split; [discriminate|]. rewrite count_commit_events.
      rewrite (Hnone _ Hpre), (Hnone _ Hplan).
      rewrite count_wait_events, count_color_events by reflexivity.
      rewrite (count_none _ _ _ Hpub publishing_no_failure).
      assert (Hc : count is_failure comp = 0%nat).
      { apply count_zero_Forall. now apply no_failure_composing. }
      rewrite Hc. simpl. lia.
    + unfold corrected, waited, ready_queue.
      destruct v; simpl; destruct (_ && _); simpl; destruct (has _ _); reflexivity.
  - (* commit failed *)
    split; [|reflexivity]. split; [intros _|reflexivity].
    rewrite count_commit_events. simpl. lia.
Qed.

Lemma planning_no_color e : is_planning e = true -> is_color_correction e = false.
Proof. by_event e. Qed.

Lemma composing_no_color e : is_composing e = true -> is_color_correction e = false.
Proof. by_event e. Qed.

Lemma publishing_no_color e : is_publishing e = true -> is_color_correction e = false.
Proof. by_event e. Qed.

(** X3.  While [kNeedsColorCorrection] is clear, [QueueUpdate] pushes neither
    a color correction nor a color transform to the display, and the flag is
    still clear in the queue it returns. *)
Theorem QueueUpdate_color_only_when_flagged source_layers retire_fence
    (idle_update handle_constraints : bool) q (env : Env X) res env' :
  has q.(state_) kNeedsColorCorrection = false ->
  QueueUpdate source_layers retire_fence idle_update handle_constraints q env
  = (res, env') ->
  count is_color_correction (events_since env env') = 0%nat
  /\ forall u, res = Ok u -> has u.(queue).(state_) kNeedsColorCorrection = false.
Proof.
  intros Hcc E.
  destruct (QueueUpdate_shape _ _ _ _ _ _ _ _ E) as (new & Ht & Hs).
  rewrite (events_since_app _ _ _ Ht).
  assert (Hnone : forall l, Forall (fun e => is_planning e = true) l ->
                            count is_color_correction l = 0%nat).
  { intros l Hl. exact (count_none _ _ _ Hl planning_no_color). }
  destruct Hs as [[-> (tracker & ->)]|[[-> Hp]|(pre & p & Hpre & Hp & Hs)]].
  { split; [reflexivity|]. intros u [= <-]. exact Hcc. }
  { split; [now apply Hnone|discriminate]. }
  destruct Hs as [(-> & _ & tracker & sni & ->)|(v & sni & rest & -> & _ & Hs)].
  { split; [now apply Hnone|]. intros u [= <-]. simpl.
    destruct Hp as (_ & [-> | ->] & _); exact Hcc. }
  destruct Hs as (plan & comp & validated & Hplan & Hcomp & Hs). cbv zeta in Hs.
  pose proof (ready_queue_failed _ _ _ v sni validated Hp) as H1.
  rewrite Hcc in H1.
  set (q1 := ready_queue p v sni validated) in *.
  assert (H2 : has (waited q1).(state_) kNeedsColorCorrection = false).
  { unfold waited. destruct (_ && _); exact H1. }
  assert (H3 : corrected (waited q1) = waited q1).
  { unfold corrected. now rewrite H2. }
  assert (Hcol : color_events (waited q1) = []).
  { unfold color_events. now rewrite H2. }
  pose proof (count_none _ _ _ Hcomp composing_no_color) as Hc.
  destruct Hs as [[-> ->]|[(_ & -> & tracker & ->)|(_ & ok & fence & pub & -> & Hs)]].
  { rewrite count_app, !Hnone by assumption. split; [reflexivity|discriminate]. }
  { rewrite !count_app, !Hnone, Hc by assumption. split; [reflexivity|].
    intros u [= <-]. exact H1. }
  rewrite count_commit_events, Hcol, !Hnone, Hc by assumption.
  rewrite count_wait_events by reflexivity.
  rewrite H3 in Hs. destruct ok.
  - destruct Hs as [Hpub (current & Hu)].
    rewrite (count_none _ _ _ Hpub publishing_no_color). split; [reflexivity|].
    intros u Hr. destruct (Hu u Hr) as (_ & [Hbits _] & _).
    rewrite Hbits by discriminate. exact H2.
  - destruct Hs as [-> (tracker & ->)]. split; [reflexivity|].
    intros u [= <-]. exact H2.
Qed.

(** X4.  In the single-buffered build, a [QueueUpdate] that starts with a
    retained out-fence ([kms_fence_ > 0]) and returns with another value in
    [kms_fence_] has waited on the old fence and closed it; the wait and the
    close come before the one commit of the call. *)
Theorem QueueUpdate_closes_retained_fence source_layers retire_fence
    (idle_update handle_constraints : bool) q (env : Env X) u env' :
  ENABLE_DOUBLE_BUFFERING = false ->
  0 < q.(kms_fence_) ->
  QueueUpdate source_layers retire_fence idle_update handle_constraints q env
  = (Ok u, env') ->
  u.(queue).(kms_fence_) <> q.(kms_fence_) ->
  exists before after,
    events_since env env'
    = before ++ [EvHWCPoll q.(kms_fence_); EvClose q.(kms_fence_)] ++ after
    /\ count is_commit before = 0%nat
    /\ count is_commit after = 1%nat.
Proof.
  intros Hsb Hpos E Hchanged.
  destruct (IgnoreUpdate
              (ScopedIdleStateTracker_enter q.(idle_tracker_) env.(outside)).1)
    eqn:Hi.
  { destruct (QueueUpdate_ignored source_layers retire_fence idle_update
                handle_constraints q env Hi) as (tracker & o & L).
    rewrite L in E. injection E as <- _. now contradiction Hchanged. }
  assert (Hnone : forall l, Forall (fun e => is_planning e = true) l ->
                            count is_commit l = 0%nat).
  { intros l Hl. exact (count_none _ _ _ Hl planning_no_commit). }
  outcome_cases Hi E.
  - exfalso. apply Hchanged. simpl. now destruct Hp as (_ & [-> | ->] & _).
  - exfalso. apply Hchanged. simpl.
    exact (proj1 (ready_queue_fence _ _ _ v sni validated Hp)).
  - destruct (ready_queue_fence _ _ _ v sni validated Hp) as (Hk1 & _ & _).
    exists (pre ++ plan ++ comp), (color_events (waited (ready_queue p v sni validated))
                                   ++ EvDisplayCommit true fence :: pub).
    unfold wait_events at 1. rewrite Hk1, Hsb. cbn [negb andb].
    destruct (Z.gtb_spec (kms_fence_ q) 0) as [_|]; [|lia].
    repeat split.
    + now rewrite <- !app_assoc.
    + rewrite !count_app, !Hnone by assumption.
      now rewrite (count_none _ _ _ Hcomp composing_no_commit).
    + rewrite count_app, count_cons, count_color_events by reflexivity.
      now rewrite (count_none _ _ _ Hpub publishing_no_commit).
  - destruct (ready_queue_fence _ _ _ v sni validated Hp) as (Hk1 & _ & _).
    exists (pre ++ plan ++ comp), (color_events (waited (ready_queue p v sni validated))
                                   ++ [EvDisplayCommit false fence]).
    unfold wait_events at 1. rewrite Hk1, Hsb. cbn [negb andb].
    destruct (Z.gtb_spec (kms_fence_ q) 0) as [_|]; [|lia].
    repeat split.
    + now rewrite <- !app_assoc.
    + rewrite !count_app, !Hnone by assumption.
      now rewrite (count_none _ _ _ Hcomp composing_no_commit).
    + rewrite count_app, count_cons, count_color_events by reflexivity.
      reflexivity.
Qed.

End Outcomes.

(** ** Power cycles *)

Section PowerCycle.
Context {X : Type} `{Constants} `{Collaborators X}.

Lemma SetPowerMode_on_run q (env : Env X) :
  exists o',
    SetPowerMode (Some kOn) q env
    = (Ok (true,
           set_state_
             (clear_bits
                (set_bits q.(state_)
                   (Z.lor (Z.lor (mask kPoweredOn) (mask kConfigurationChanged))
                      (mask kNeedsColorCorrection)))
                (mask kIgnoreIdleRefresh)) q),
       {| outside := o';
          trace := env.(trace)
                   ++ [EvVblankSetPowerMode kOn; EvLock power_mode_lock_;
                       EvCompositorInit; EvUnlock power_mode_lock_] |}).
Proof. unfold SetPowerMode. eff. eexists. ran. Qed.

(** X6.  Switching the display off (or to doze) and on again.  Both calls
    return true.  Afterwards PoweredOn, ConfigurationChanged and
    NeedsColorCorrection are set, DisableOverlayUsage and ClonedMode are as
    they were, and every other flag is clear; the layers, the planes and
    both surface lists are empty, the failure flag is clear and no out-fence
    is retained; a fence retained before has been closed exactly once; the
    next frame starts with full validation. *)
Theorem power_cycle_resets_queue (doze : bool) q (env : Env X) :
  exists q1 env1 q2 env2,
    SetPowerMode (Some (if doze then kDoze else kOff)) q env = (Ok (true, q1), env1)
    /\ SetPowerMode (Some kOn) q1 env1 = (Ok (true, q2), env2)
    /\ (forall f, has q2.(state_) f = cycled_flag q.(state_) f)
    /\ q2.(in_flight_layers_) = [] /\ q2.(previous_plane_state_) = []
    /\ q2.(surfaces_not_inuse_) = [] /\ q2.(mark_not_inuse_) = []
    /\ q2.(last_commit_failed_update_) = false
    /\ q2.(kms_fence_) <= 0
    /\ count (is_close_of q.(kms_fence_)) (events_since env env2)
       = (if q.(kms_fence_) >? 0 then 1 else 0)%nat
    /\ initial_validate_layers q2 = true.
Proof.
  destruct (HandleExit_run q env) as (o1 & new & E & _ & Hclose).
  assert (E1 : SetPowerMode (Some (if doze then kDoze else kOff)) q env
               = (Ok (true, exited q),
                  {| outside := o1; trace := env.(trace) ++ new |})).
  { unfold SetPowerMode.
    destruct doze; unfold mbind, Eff_bind; rewrite E; reflexivity. }
  destruct (SetPowerMode_on_run (exited q)
              {| outside := o1; trace := env.(trace) ++ new |}) as (o2 & E2).
  do 4 eexists. split; [exact E1|]. split; [exact E2|].
  cbn [state_ set_state_ exited in_flight_layers_ previous_plane_state_
       surfaces_not_inuse_ mark_not_inuse_ last_commit_failed_update_ kms_fence_
       trace].
  split.
  { intros f. rewrite has_clear, has_set, !has_lor, has_exit_word.
    destruct f; cbn [cycled_flag];
      repeat first [ rewrite has_mask_same
                   | rewrite has_mask_other by discriminate ];
      cbn [negb andb orb];
      rewrite ?orb_false_r, ?orb_true_r, ?andb_true_r, ?andb_false_r;
      reflexivity. }
  do 5 (split; [reflexivity|]). split.
  { destruct (Z.gtb_spec (kms_fence_ q) 0); lia. }
  split; [|reflexivity].
  erewrite events_since_app by (cbn [trace]; rewrite <- app_assoc; reflexivity).
  rewrite count_app, Hclose. cbn. destruct (_ >? _); reflexivity.
Qed.

(** Whatever an operation does, it only appends to the trace. *)
Lemma emits_appends {A : Type} (P : Event -> bool) (R : A -> Prop) (m : Eff X A) :
  emits P R m -> emits (fun _ => true) (fun _ => True) m.
Proof.
  intros Hm env r env' E. destruct (Hm _ _ _ E) as (new & Ht & _).
  exists new. split; [exact Ht|]. split; [|auto].
  apply List.Forall_forall. reflexivity.
Qed.

Lemma validate_fully_starts p (render_layers : bool) current q (env : Env X) res env' :
  validate_fully p true render_layers current q env = (res, env') ->
  exists rest, env'.(trace) = env.(trace) ++ EvValidateLayers 0 :: rest.
Proof.
  unfold validate_fully. intros E.
  apply bind_run in E as [(a & env1 & E1 & E)|[E1 ->]].
  - unfold call, call_with in E1. destruct (ValidateLayers _ _ _ _ _ _ _ _ _) as [r o1].
    injection E1 as <- <-.
    assert (Hrest : emits (fun _ => true) (fun _ => True)
              (let '(render_layers, _, _, current, surfaces_not_inuse) := r in
               '(render_layers, current, surfaces_not_inuse) ←
                 (if p.(force_media_composition) && p.(requested_video_effect) then
                    '(current, surfaces_not_inuse) ←
                      SetMediaEffectsState p.(requested_video_effect)
                        p.(frame).(Frame.layers) current surfaces_not_inuse;
                    mret (true, current, surfaces_not_inuse)
                  else mret (render_layers, current, surfaces_not_inuse));
               let q := set_surfaces_not_inuse_ surfaces_not_inuse q in
               let q := set_state_ (clear_bits q.(state_) (mask kConfigurationChanged)) q in
               mret (if negb p.(frame).(Frame.idle_frame)
                     then ResetTrackerState p.(frame).(Frame.tracker)
                     else p.(frame).(Frame.tracker), render_layers, current, q))).
    { destruct r as [[[[? ?] ?] ?] ?].
      apply (emits_bind _ (fun _ => True)).
      - destruct (_ && _); [|now apply emits_ret].
        apply (emits_bind _ (fun _ => True)).
        + eapply emits_appends, SetMediaEffectsState_emits.
        + intros [? ?] _. now apply emits_ret.
      - intros [[? ?] ?] _. now apply emits_ret. }
    destruct (Hrest _ _ _ E) as (new & Ht & _). cbn [trace] in Ht.
    exists new. rewrite Ht, <- app_assoc. reflexivity.
  - unfold call, call_with in E1. destruct (ValidateLayers _ _ _ _ _ _ _ _ _).
    discriminate E1.
Qed.

Lemma compose_and_commit_validates p (render_layers : bool) current
    surfaces_not_inuse (env : Env X) res env' :
  compose_and_commit p true render_layers current surfaces_not_inuse env
  = (res, env') ->
  exists rest, env'.(trace) = env.(trace) ++ EvValidateLayers 0 :: rest.
Proof.
  unfold compose_and_commit. intros E.
  apply bind_run in E as [(a & env1 & E1 & E)|[E1 ->]].
  2:{ exact (validate_fully_starts _ _ _ _ _ _ _ E1). }
  destruct (validate_fully_starts _ _ _ _ _ _ _ E1) as (rest1 & T1).
  destruct a as [[[tracker render] current'] q1].
  assert (Hrest : emits (fun _ => true) (fun _ => True)
            (composition_passed ← compose p render current';
             if negb composition_passed then
               leave false tracker (set_last_commit_failed_update_ true q1)
                 p.(prepared_layers) (-1)
             else
               q ← (if negb ENABLE_DOUBLE_BUFFERING then wait_kms_fence q1
                    else mret q1);
               q ← correct_color q;
               '(composition_passed, fence) ←
                 call_with (fun r => EvDisplayCommit (fst r) (snd r))
                   (Commit current' q.(previous_plane_state_) p.(disable_ovelays));
               if negb composition_passed then
                 leave false tracker (set_last_commit_failed_update_ true q)
                   p.(prepared_layers) (-1)
               else publish p true tracker current' fence q)).
  { unfold compose, leave, wait_kms_fence, correct_color.
    repeat (intros;
      match goal with
      | |- True => exact I
      | |- emits _ _ (publish _ _ _ _ _ _) => eapply emits_appends, publish_emits
      | |- emits _ _ (mbind _ _) => apply (emits_bind _ (fun _ => True))
      | |- emits _ _ (if ?c then _ else _) => destruct c
      | |- emits _ _ (match ?x with _ => _ end) => destruct x
      | |- emits _ _ _ => emits_any
      end). }
  destruct (Hrest _ _ _ E) as (new & Ht & _).
  exists (rest1 ++ new). rewrite Ht, T1, <- app_assoc. reflexivity.
Qed.

(** X5.  When there is no previous plane state, or the last frame failed, a
    [QueueUpdate] that is not ignored asks the plane manager to validate all
    layers from index 0, is not skipped as unchanged (it issues its commit
    unless the composition pass fails), and returns with
    [kConfigurationChanged] clear. *)
Theorem QueueUpdate_validates_from_scratch source_layers retire_fence
    (idle_update handle_constraints : bool) q (env : Env X) u env' :
  initial_validate_layers q = true ->
  IgnoreUpdate (ScopedIdleStateTracker_enter q.(idle_tracker_) env.(outside)).1
  = false ->
  QueueUpdate source_layers retire_fence idle_update handle_constraints q env
  = (Ok u, env') ->
  Exists (fun e => e = EvValidateLayers 0) (events_since env env')
  /\ (count is_commit (events_since env env') = 1%nat
      \/ Exists (fun e => is_failed_composition e = true) (events_since env env'))
  /\ has u.(queue).(state_) kConfigurationChanged = false.
Proof.
  intros Hinit Hi E. unfold QueueUpdate in E.
  unfold mbind at 1, Eff_bind at 1, touch at 1 in E.
  destruct (ScopedIdleStateTracker_enter _ _) as [tracker o1]. cbv beta iota in E.
  cbn [fst] in Hi. rewrite Hi in E.
  apply bind_Ok in E as (p & env1 & Ep & E).
  destruct (prepare_emits _ _ _ _ _ _ _ _ Ep) as (pre & Ht & Hpre & Hp).
  specialize (Hp p eq_refl). cbn [trace] in Ht.
  pose proof Hp as (_ & Hq & Hv & _). rewrite (Hv Hinit) in E. cbn [negb] in E.
  destruct (compose_and_commit_validates _ _ _ _ _ _ _ E) as (rest1 & T1).
  apply compose_and_commit_shape in E as (rest & Hr & Hs).
  assert (Hrest : rest = EvValidateLayers 0 :: rest1).
  { rewrite Hr in T1. now apply app_inv_head in T1. }
  erewrite events_since_app by (rewrite Hr, Ht, <- app_assoc; reflexivity).
  split.
  { apply List.Exists_app. right. rewrite Hrest. now constructor. }
  destruct Hs as (plan & comp & validated & Hplan & Hcomp & Hs). cbv zeta in Hs.
  assert (Hstate : has (ready_queue p true (surfaces_not_inuse_ (prepared_queue p))
                          validated).(state_) kConfigurationChanged = false).
  { unfold ready_queue. cbn [state_ set_state_]. rewrite has_clear, has_mask_same.
    apply andb_false_r. }
  destruct Hs as [[Hx _]|[(Hfail & -> & tr & Hu)|(Hok & ok & fence & pub & -> & Hs)]].
  - discriminate Hx.
  - injection Hu as ->. split.
    + right. rewrite app_assoc. apply List.Exists_app. now right.
    + exact Hstate.
  - assert (Hc : count is_commit
                   (pre ++ plan ++ comp
                    ++ wait_events (ready_queue p true
                                      (surfaces_not_inuse_ (prepared_queue p)) validated)
                    ++ color_events (waited (ready_queue p true
                                      (surfaces_not_inuse_ (prepared_queue p)) validated))
                    ++ EvDisplayCommit ok fence :: pub) = 1%nat).
    { rewrite !count_app, count_cons.
      rewrite (count_none _ _ _ Hpre planning_no_commit).
      rewrite (count_none _ _ _ Hplan planning_no_commit).
      rewrite (count_none _ _ _ Hcomp composing_no_commit).
      rewrite count_wait_events, count_color_events by reflexivity.
      cbn [is_commit].
      assert (Hp0 : count is_commit pub = 0%nat).
      { destruct ok; destruct Hs as [Hs _].
        - exact (count_none _ _ _ Hs publishing_no_commit).
        - now subst pub. }
      rewrite Hp0. reflexivity. }
    split; [left; exact Hc|].
    assert (Hstate' : has (corrected (waited (ready_queue p true
                        (surfaces_not_inuse_ (prepared_queue p)) validated))).(state_)
                        kConfigurationChanged = false).
    { unfold corrected, waited.
      set (rq := ready_queue _ _ _ _) in *.
      destruct (_ && _);
        destruct (has _ kNeedsColorCorrection);
        cbn [state_ set_state_ set_kms_fence_];
        rewrite ?has_clear, Hstate; reflexivity. }
    destruct ok.
    + destruct Hs as [_ (current & Hu)]. destruct (Hu u eq_refl) as (_ & [Hbits _] & _).
      rewrite Hbits by discriminate. exact Hstate'.
    + destruct Hs as [_ (tr & Hu)]. injection Hu as ->. exact Hstate'.
Qed.

End PowerCycle.

(** ** Clone mode *)

Section CloneMode.
Context {X : Type} `{Constants} `{Collaborators X}.

(** X7.  [SetCloneMode] is idempotent: a second call with the same argument
    changes nothing and reaches no collaborator.  The first call reaches the
    vblank handler only when the mode changes (off when cloning starts, on
    when it ends); it sets [kClonedMode] to its argument, raises
    [kConfigurationChanged] only when cloning ends, and keeps every other
    flag and field. *)
Theorem SetCloneMode_toggles (cloned : bool) q (env : Env X) :
  exists q1 env1 env2,
    SetCloneMode cloned q env = (Ok q1, env1)
    /\ SetCloneMode cloned q1 env1 = (Ok q1, env2)
    /\ events_since env1 env2 = []
    /\ events_since env env1
       = (if Bool.eqb (has q.(state_) kClonedMode) cloned then []
          else [EvVblankSetPowerMode (if cloned then kOff else kOn)])
    /\ q1 = set_state_ q1.(state_) q
    /\ has q1.(state_) kClonedMode = cloned
    /\ has q1.(state_) kConfigurationChanged
       = has q.(state_) kConfigurationChanged
         || (has q.(state_) kClonedMode && negb cloned)
    /\ forall f, f <> kClonedMode -> f <> kConfigurationChanged ->
                 has q1.(state_) f = has q.(state_) f.
Proof.
  unfold SetCloneMode.
  destruct cloned, (has q.(state_) kClonedMode) eqn:Hc; cbn [negb Bool.eqb].
  - exists q, env, env. rewrite Hc. cbn [negb]. unfold mret, Eff_ret.
    repeat split;
      first [ reflexivity | unfold events_since; apply drop_all
            | now destruct q | flag_test ].
  - eexists _, _, _. split; [eff; reflexivity|].
    cbn [state_ set_state_]. rewrite has_set, has_mask_same, orb_true_r. cbn [negb].
    split; [reflexivity|].
    repeat split;
      first [ reflexivity | unfold events_since; apply drop_all
            | apply events_since_app; ran | flag_test ].
  - eexists _, _, _. split; [eff; reflexivity|].
    cbn [state_ set_state_].
    assert (Hc' : has (set_bits (clear_bits (state_ q) (mask kClonedMode))
                         (mask kConfigurationChanged)) kClonedMode = false)
      by flag_test.
    rewrite Hc'. split; [reflexivity|].
    repeat split;
      first [ reflexivity | unfold events_since; apply drop_all
            | apply events_since_app; ran | exact Hc' | flag_test ].
  - exists q, env, env. rewrite Hc. unfold mret, Eff_ret.
    repeat split;
      first [ reflexivity | unfold events_since; apply drop_all
            | now destruct q | flag_test ].
Qed.

End CloneMode.

(** ** Contrast and brightness *)

Lemma lor_shiftl_low (a b n : Z) :
  0 <= n -> 0 <= b < 2 ^ n -> Z.lor (Z.shiftl a n) b = a * 2 ^ n + b.
Proof.
  intros Hn Hb. rewrite <- Z.shiftl_mul_pow2 by exact Hn.
  rewrite <- Z.lxor_lor, <- Z.add_nocarry_lxor; try reflexivity.
  all: apply Z.bits_inj'; intros m Hm; rewrite Z.land_spec, Z.bits_0.
  all: destruct (Z.lt_ge_cases m n) as [Hlt|Hge].
  all: try (rewrite Z.shiftl_spec_low by exact Hlt; reflexivity).
  all: replace (Z.testbit b m) with false; [apply andb_false_r|].
  all: symmetry; destruct (Z.eq_dec b 0) as [->|Hnz]; [apply Z.bits_0|].
  all: apply Z.bits_above_log2; [lia|].
  all: apply Z.log2_lt_pow2; [lia|].
  all: pose proof (Z.pow_le_mono_r 2 n m); lia.
Qed.

Lemma low_byte (z : Z) : Z.land z 0xFF = z mod 256.
Proof. change 0xFF with (Z.ones 8). now rewrite Z.land_ones. Qed.

Lemma pack_channels_value (red green blue : Z) :
  pack_channels red green blue
  = (red mod 256) * 65536 + (green mod 256) * 256 + blue mod 256.
Proof.
  unfold pack_channels. cbv zeta. rewrite !low_byte.
  pose proof (Z.mod_pos_bound red 256 eq_refl) as Hr.
  pose proof (Z.mod_pos_bound green 256 eq_refl) as Hg.
  pose proof (Z.mod_pos_bound blue 256 eq_refl) as Hb.
  set (r := red mod 256) in *. set (g := green mod 256) in *.
  set (b := blue mod 256) in *.
  assert (Hg8 : Z.shiftl g 8 = g * 256) by (now rewrite Z.shiftl_mul_pow2 by lia).
  assert (E1 : Z.lor (Z.shiftl r 16) (Z.shiftl g 8) = Z.shiftl (r * 256 + g) 8).
  { rewrite lor_shiftl_low by (rewrite ?Hg8; change (2 ^ 16) with 65536; lia).
    rewrite Hg8, Z.shiftl_mul_pow2 by lia.
    change (2 ^ 16) with 65536. change (2 ^ 8) with 256. lia. }
  rewrite E1, lor_shiftl_low by (change (2 ^ 8) with 256; lia).
  change (2 ^ 8) with 256. lia.
Qed.

Lemma pack_channels_bytes (red green blue : Z) :
  let packed := pack_channels red green blue in
  0 <= packed < 2 ^ 24
  /\ Z.land (Z.shiftr packed 16) 0xFF = red mod 256
  /\ Z.land (Z.shiftr packed 8) 0xFF = green mod 256
  /\ Z.land packed 0xFF = blue mod 256.
Proof.
  cbv zeta. rewrite !low_byte, !Z.shiftr_div_pow2 by lia.
  rewrite pack_channels_value.
  pose proof (Z.mod_pos_bound red 256 eq_refl) as Hr.
  pose proof (Z.mod_pos_bound green 256 eq_refl) as Hg.
  pose proof (Z.mod_pos_bound blue 256 eq_refl) as Hb.
  set (r := red mod 256) in *. set (g := green mod 256) in *.
  set (b := blue mod 256) in *.
  change (2 ^ 16) with 65536. change (2 ^ 8) with 256. change (2 ^ 24) with 16777216.
  assert (D16 : (r * 65536 + g * 256 + b) / 65536 = r).
  { symmetry. apply (Z.div_unique _ _ _ (g * 256 + b)); lia. }
  assert (D8 : (r * 65536 + g * 256 + b) / 256 = r * 256 + g).
  { symmetry. apply (Z.div_unique _ _ _ b); lia. }
  rewrite D16, D8. repeat split; try lia.
  - apply Z.mod_small. lia.
  - symmetry. apply (Z.mod_unique _ _ r); lia.
  - symmetry. apply (Z.mod_unique _ _ (r * 256 + g)); lia.
Qed.

Section ColorControls.
Context {X : Type} `{Constants} `{Collaborators X}.
Variable kArbitraryMatrix : Z.

(** X8.  [SetContrast] and [SetBrightness] store the low bytes of the three
    channels as [0xRRGGBB]: the value is below [2^24], each channel is read
    back by a shift and a mask, a channel value of 256 or more is reduced
    modulo 256, neither setter touches the other's field, and both raise
    [kNeedsColorCorrection]. *)
Theorem SetContrast_SetBrightness_pack (red green blue : Z) q :
  let packed := (red mod 256) * 65536 + (green mod 256) * 256 + blue mod 256 in
  (SetContrast red green blue q).(contrast_) = packed
  /\ (SetBrightness red green blue q).(brightness_) = packed
  /\ 0 <= packed < 2 ^ 24
  /\ Z.land (Z.shiftr packed 16) 0xFF = red mod 256
  /\ Z.land (Z.shiftr packed 8) 0xFF = green mod 256
  /\ Z.land packed 0xFF = blue mod 256
  /\ (SetContrast red green blue q).(brightness_) = q.(brightness_)
  /\ (SetBrightness red green blue q).(contrast_) = q.(contrast_)
  /\ SetContrast (red + 256) green blue q = SetContrast red green blue q
  /\ has (SetContrast red green blue q).(state_) kNeedsColorCorrection = true
  /\ has (SetBrightness red green blue q).(state_) kNeedsColorCorrection = true.
Proof.
  cbv zeta. rewrite <- pack_channels_value.
  destruct (pack_channels_bytes red green blue) as (B1 & B2 & B3 & B4).
  assert (Hwrap : SetContrast (red + 256) green blue q
                  = SetContrast red green blue q).
  { unfold SetContrast. rewrite !pack_channels_value.
    replace ((red + 256) mod 256) with (red mod 256); [reflexivity|].
    exact (eq_sym (Z.mod_add red 1 256 ltac:(lia))). }
  repeat split; try assumption; try reflexivity; try apply B1.
  all: unfold SetContrast, SetBrightness; cbn; flag_test.
Qed.


End ColorControls.

(** ** Refresh requests *)

Section Refresh.
Context {X : Type} `{Constants} `{Collaborators X}.

Lemma ForceRefresh_run q (env : Env X) :
  exists o',
    ForceRefresh q env
    = (Ok (set_idle_tracker_
             (FrameStateTracker.set_state_
                (set_bits
                   (clear_bits q.(idle_tracker_).(FrameStateTracker.state_)
                      (mask FrameStateTracker.kIgnoreUpdates))
                   (mask FrameStateTracker.kRevalidateLayers))
                q.(idle_tracker_)) q),
       {| outside := o';
          trace := env.(trace)
                   ++ [EvLock idle_lock_; EvUnlock idle_lock_; EvLock power_mode_lock_]
                   ++ (if refresh_allowed q
                       then [EvRefreshCallback q.(refrsh_display_id_)] else [])
                   ++ [EvUnlock power_mode_lock_] |}).
Proof.
  unfold ForceRefresh, refresh_allowed. eff. cbn [state_ set_idle_tracker_
    refresh_callback_ refrsh_display_id_].
  destruct (_ && _ && _); cbn [when]; eff; eexists; ran.
Qed.

Lemma idle_run_blocked (n : nat) q :
  idle_blocked q.(idle_tracker_) = true ->
  forall env : Env X,
  exists new,
    idle_run n q env
    = (Ok q, {| outside := env.(outside); trace := env.(trace) ++ new |})
    /\ count is_refresh_callback new = 0%nat.
Proof.
  intros Hblocked. induction n as [|n IH]; intros env.
  - exists []. rewrite app_nil_r. split; [now destruct env|reflexivity].
  - cbn [idle_run]. unfold mbind, Eff_bind.
    rewrite (HandleIdleCase_blocked q env Hblocked).
    destruct (IH {| outside := env.(outside);
                    trace := env.(trace) ++ [EvLock idle_lock_; EvUnlock idle_lock_] |})
      as (new & E & Hc).
    exists ([EvLock idle_lock_; EvUnlock idle_lock_] ++ new).
    rewrite E. cbn [outside trace]. rewrite <- app_assoc. split; [reflexivity|].
    rewrite count_app, Hc. reflexivity.
Qed.

(** X10.  [ForceRefresh] clears [kIgnoreUpdates] and sets [kRevalidateLayers]
    in the idle tracker and changes nothing else; it invokes the refresh
    callback once if one is registered, the display is powered on and idle
    refresh is not ignored, under the power-mode lock and after the idle
    lock has been released.  Until the tracker is reset, the vblank ticks
    that follow neither count idle frames nor invoke the callback. *)
Theorem ForceRefresh_revalidates q (env : Env X) :
  exists q1 env1,
    ForceRefresh q env = (Ok q1, env1)
    /\ q1 = set_idle_tracker_ q1.(idle_tracker_) q
    /\ q1.(idle_tracker_)
       = FrameStateTracker.set_state_ q1.(idle_tracker_).(FrameStateTracker.state_)
           q.(idle_tracker_)
    /\ has q1.(idle_tracker_).(FrameStateTracker.state_)
         FrameStateTracker.kIgnoreUpdates = false
    /\ has q1.(idle_tracker_).(FrameStateTracker.state_)
         FrameStateTracker.kRevalidateLayers = true
    /\ (forall f,
          f <> FrameStateTracker.kIgnoreUpdates ->
          f <> FrameStateTracker.kRevalidateLayers ->
          has q1.(idle_tracker_).(FrameStateTracker.state_) f
          = has q.(idle_tracker_).(FrameStateTracker.state_) f)
    /\ events_since env env1
       = [EvLock idle_lock_; EvUnlock idle_lock_; EvLock power_mode_lock_]
         ++ (if refresh_allowed q
             then [EvRefreshCallback q.(refrsh_display_id_)] else [])
         ++ [EvUnlock power_mode_lock_]
    /\ forall n (env2 : Env X),
        exists env3,
          idle_run n q1 env2 = (Ok q1, env3)
          /\ count is_refresh_callback (events_since env2 env3) = 0%nat.
Proof.
  destruct (ForceRefresh_run q env) as (o' & E).
  eexists _, _. split; [exact E|].
  cbn [idle_tracker_ set_idle_tracker_ FrameStateTracker.state_
       FrameStateTracker.set_state_].
  assert (Hrev : has (set_bits
                        (clear_bits q.(idle_tracker_).(FrameStateTracker.state_)
                           (mask FrameStateTracker.kIgnoreUpdates))
                        (mask FrameStateTracker.kRevalidateLayers))
                   FrameStateTracker.kRevalidateLayers = true) by flag_test.
  split; [now destruct q|]. split; [reflexivity|].
  split; [flag_test|]. split; [exact Hrev|]. split; [flag_test|].
  split; [apply events_since_app; reflexivity|].
  set (q1 := set_idle_tracker_ _ q).
  assert (Hblocked : idle_blocked q1.(idle_tracker_) = true).
  { unfold idle_blocked. subst q1.
    cbn [idle_tracker_ set_idle_tracker_ FrameStateTracker.state_
         FrameStateTracker.set_state_]. rewrite Hrev.
    now rewrite !orb_true_r. }
  intros n env2. destruct (idle_run_blocked n q1 Hblocked env2) as (new & E2 & Hc).
  eexists. split; [exact E2|]. now rewrite (events_since_app _ _ new).
Qed.

(** X11.  [RegisterRefreshCallback] stores the callback and the display id
    under the idle lock.  A [ForceRefresh] that follows invokes the callback
    with the registered display id, once, exactly when a callback (not an
    empty pointer) was registered, the display is powered on and idle
    refresh is not ignored. *)
Theorem RegisterRefreshCallback_delivery callback display_id q (env : Env X) :
  exists q1 env1,
    RegisterRefreshCallback callback display_id q env = (Ok q1, env1)
    /\ events_since env env1 = [EvLock idle_lock_; EvUnlock idle_lock_]
    /\ q1 = set_refresh_callback_ callback display_id q
    /\ forall env2 : Env X,
        exists q2 env3,
          ForceRefresh q1 env2 = (Ok q2, env3)
          /\ List.filter is_refresh_callback (events_since env2 env3)
             = if negb (has q.(state_) kIgnoreIdleRefresh)
                  && is_registered callback && has q.(state_) kPoweredOn
               then [EvRefreshCallback display_id] else [].
Proof.
  eexists _, _. split; [unfold RegisterRefreshCallback; eff; reflexivity|].
  split; [apply events_since_app; ran|]. split; [reflexivity|].
  intros env2.
  destruct (ForceRefresh_run (set_refresh_callback_ callback display_id q) env2)
    as (o' & E).
  eexists _, _. split; [exact E|].
  erewrite events_since_app by (cbn [trace]; reflexivity).
  unfold refresh_allowed. cbn [state_ refresh_callback_ refrsh_display_id_
                               set_refresh_callback_].
  destruct (_ && _ && _); reflexivity.
Qed.

Lemma HandleIdleCase_quiet q (env : Env X) :
  0 <= kidleframes < 2 ^ 32 - 1 ->
  refresh_allowed q = false ->
  exists q' new,
    HandleIdleCase q env
    = (Ok q', {| outside := env.(outside); trace := env.(trace) ++ new |})
    /\ count is_refresh_callback new = 0%nat
    /\ refresh_allowed q' = false.
Proof.
  intros Hk Hq.
  destruct (idle_blocked q.(idle_tracker_)) eqn:Hb.
  { eexists _, _. split; [apply (HandleIdleCase_blocked q env Hb)|]. now split. }
  destruct (Z.lt_trichotomy q.(idle_tracker_).(FrameStateTracker.idle_frames_)
              kidleframes) as [Hlt|[Heq|Hgt]].
  - eexists _, _. split; [apply (HandleIdleCase_counting q env Hb Hlt)|]. now split.
  - eexists _, _. split; [apply (HandleIdleCase_silent q env Hb Heq Hq)|]. now split.
  - eexists _, _. split; [apply (HandleIdleCase_saturated q env Hb)|]; [lia|].
    now split.
Qed.

Lemma idle_run_quiet (n : nat) :
  0 <= kidleframes < 2 ^ 32 - 1 ->
  forall q (env : Env X),
    refresh_allowed q = false ->
    exists q' new,
      idle_run n q env
      = (Ok q', {| outside := env.(outside); trace := env.(trace) ++ new |})
      /\ count is_refresh_callback new = 0%nat.
Proof.
  intros Hk. induction n as [|n IH]; intros q env Hq.
  - exists q, []. rewrite app_nil_r. split; [now destruct env|reflexivity].
  - cbn [idle_run]. unfold mbind, Eff_bind.
    destruct (HandleIdleCase_quiet q env Hk Hq) as (q1 & new1 & E1 & C1 & Hq1).
    rewrite E1.
    destruct (IH q1 {| outside := env.(outside); trace := env.(trace) ++ new1 |} Hq1)
      as (q2 & new2 & E2 & C2).
    exists q2, (new1 ++ new2). rewrite E2. cbn [outside trace].
    rewrite <- app_assoc. split; [reflexivity|]. rewrite count_app. lia.
Qed.

(** X12.  After [SetPowerMode] with [kOff] or [kDoze], PoweredOn is clear (and
    so is IgnoreIdleRefresh, which [HandleExit] sets and then overwrites):
    neither [ForceRefresh] nor any number of vblank ticks invokes the
    refresh callback. *)
Theorem power_off_silences_refresh (doze : bool) q (env : Env X) :
  0 <= kidleframes < 2 ^ 32 - 1 ->
  exists q0 env0,
    SetPowerMode (Some (if doze then kDoze else kOff)) q env = (Ok (true, q0), env0)
    /\ has q0.(state_) kPoweredOn = false
    /\ has q0.(state_) kIgnoreIdleRefresh = false
    /\ (forall env2 : Env X,
          exists q2 env3,
            ForceRefresh q0 env2 = (Ok q2, env3)
            /\ count is_refresh_callback (events_since env2 env3) = 0%nat)
    /\ (forall n (env2 : Env X),
          exists q2 env3,
            idle_run n q0 env2 = (Ok q2, env3)
            /\ count is_refresh_callback (events_since env2 env3) = 0%nat).
Proof.
  intros Hk.
  destruct (HandleExit_run q env) as (o' & new & E & _).
  exists (exited q), {| outside := o'; trace := env.(trace) ++ new |}.
  assert (Hp : has (exited q).(state_) kPoweredOn = false)
    by (cbn [exited state_]; now rewrite has_exit_word).
  assert (Ha : refresh_allowed (exited q) = false).
  { unfold refresh_allowed. rewrite Hp. apply andb_false_r. }
  split.
  { unfold SetPowerMode. destruct doze; unfold mbind, Eff_bind; rewrite E;
      reflexivity. }
  split; [exact Hp|].
  split; [cbn [exited state_]; now rewrite has_exit_word|].
  split.
  - intros env2. destruct (ForceRefresh_run (exited q) env2) as (o2 & E2).
    eexists _, _. split; [exact E2|].
    erewrite events_since_app by (cbn [trace]; reflexivity). rewrite Ha.
    reflexivity.
  - intros n env2. destruct (idle_run_quiet n Hk (exited q) env2 Ha)
      as (q2 & new2 & E2 & C2).
    eexists _, _. split; [exact E2|]. now rewrite (events_since_app _ _ new2).
Qed.

Lemma idle_run_counts (n : nat) :
  0 <= kidleframes < 2 ^ 32 - 1 ->
  forall q (env : Env X),
    idle_blocked q.(idle_tracker_) = false ->
    refresh_allowed q = true ->
    0 <= q.(idle_tracker_).(FrameStateTracker.idle_frames_) <= kidleframes ->
    exists q' o' new,
      idle_run n q env
      = (Ok q', {| outside := o'; trace := env.(trace) ++ new |})
      /\ List.filter is_refresh_callback new
         = if Z.of_nat n
              <=? kidleframes - q.(idle_tracker_).(FrameStateTracker.idle_frames_)
           then [] else [EvRefreshCallback q.(refrsh_display_id_)].
Proof.
  intros Hk. induction n as [|n IH]; intros q env Hb Ha Hc.
  - exists q, env.(outside), []. rewrite app_nil_r. split; [now destruct env|].
    destruct (Z.leb_spec (Z.of_nat 0)
                (kidleframes - q.(idle_tracker_).(FrameStateTracker.idle_frames_)));
      [reflexivity|lia].
  - cbn [idle_run]. unfold mbind, Eff_bind.
    destruct (Z.eq_dec q.(idle_tracker_).(FrameStateTracker.idle_frames_) kidleframes)
      as [Heq|Hne].
    + pose proof (HandleIdleCase_fires q env Hb Heq Ha) as E1. cbv zeta in E1.
      rewrite E1.
      match goal with |- context [idle_run n ?q1 ?env1] =>
        destruct (idle_run_fires_at_most_once n Hk q1 env1)
          as (q2 & o2 & new & E2 & _ & Hz)
      end.
      rewrite E2. cbn [trace]. eexists _, _, _.
      split; [rewrite <- app_assoc; reflexivity|].
      rewrite List.filter_app. cbn [List.filter is_refresh_callback app].
      assert (Hnone : List.filter is_refresh_callback new = []).
      { apply length_zero_iff_nil. apply Hz.
        cbn [idle_tracker_ set_idle_tracker_ FrameStateTracker.idle_frames_
             FrameStateTracker.set_state_ FrameStateTracker.set_idle_frames_].
        rewrite Heq, wrap32_small by lia. lia. }
      rewrite Hnone.
      destruct (Z.leb_spec (Z.of_nat (S n))
                  (kidleframes - q.(idle_tracker_).(FrameStateTracker.idle_frames_)));
        [lia|reflexivity].
    + assert (Hlt : q.(idle_tracker_).(FrameStateTracker.idle_frames_) < kidleframes)
        by lia.
      rewrite (HandleIdleCase_counting q env Hb Hlt).
      match goal with |- context [idle_run n ?q1 ?env1] =>
        destruct (IH q1 env1) as (q2 & o2 & new & E2 & F2)
      end.
      { exact Hb. }
      { exact Ha. }
      { cbn [idle_tracker_ set_idle_tracker_ FrameStateTracker.idle_frames_
             FrameStateTracker.set_idle_frames_].
        rewrite wrap32_small by lia. lia. }
      rewrite E2. cbn [trace]. eexists _, _, _.
      split; [rewrite <- app_assoc; reflexivity|].
      rewrite List.filter_app. cbn [List.filter is_refresh_callback app].
      rewrite F2.
      cbn [idle_tracker_ set_idle_tracker_ FrameStateTracker.idle_frames_
           FrameStateTracker.set_idle_frames_ refrsh_display_id_].
      rewrite wrap32_small by lia.
      destruct (Z.leb_spec (Z.of_nat (S n))
                  (kidleframes - q.(idle_tracker_).(FrameStateTracker.idle_frames_))),
        (Z.leb_spec (Z.of_nat n)
           (kidleframes
            - (q.(idle_tracker_).(FrameStateTracker.idle_frames_) + 1)));
        try lia; reflexivity.
Qed.

(** X13.  From a queue on which idle tracking is not blocked and the refresh
    callback is allowed, with [idle_frames_] at most [kidleframes]: over [n]
    vblank ticks the callback is invoked exactly once if
    [n > kidleframes - idle_frames_], with the registered display id, and
    not at all otherwise. *)
Theorem idle_refresh_fires_on_time (n : nat) q (env : Env X) :
  0 <= kidleframes < 2 ^ 32 - 1 ->
  idle_blocked q.(idle_tracker_) = false ->
  refresh_allowed q = true ->
  0 <= q.(idle_tracker_).(FrameStateTracker.idle_frames_) <= kidleframes ->
  exists q' env',
    idle_run n q env = (Ok q', env')
    /\ List.filter is_refresh_callback (events_since env env')
       = if Z.of_nat n
            <=? kidleframes - q.(idle_tracker_).(FrameStateTracker.idle_frames_)
         then [] else [EvRefreshCallback q.(refrsh_display_id_)].
Proof.
  intros Hk Hb Ha Hc.
  destruct (idle_run_counts n Hk q env Hb Ha Hc) as (q' & o' & new & E & F).
  eexists _, _. split; [exact E|]. now rewrite (events_since_app _ _ new).
Qed.

End Refresh.

(** ** The release of offscreen surfaces *)

Section ReleaseSchedule.
Context {X : Type} `{Constants} `{Collaborators X}.

Lemma ReleaseSurfacesAsNeeded_run (layers_validated : bool) q (env : Env X) :
  exists q1 env1,
    ReleaseSurfacesAsNeeded layers_validated q env = (Ok q1, env1)
    /\ events_since env env1
       = (if negb layers_validated && has q.(state_) kReleaseSurfaces
          then [EvReleaseFreeOffScreenTargets] else [])
    /\ q1 = set_state_ q1.(state_) q
    /\ has q1.(state_) kMarkSurfacesForRelease = layers_validated
    /\ has q1.(state_) kReleaseSurfaces
       = negb layers_validated && negb (has q.(state_) kReleaseSurfaces)
         && has q.(state_) kMarkSurfacesForRelease
    /\ forall f, f <> kMarkSurfacesForRelease -> f <> kReleaseSurfaces ->
                 has q1.(state_) f = has q.(state_) f.
Proof.
  unfold ReleaseSurfacesAsNeeded, ReleaseSurfaces.
  destruct layers_validated, (has q.(state_) kReleaseSurfaces) eqn:Hr,
    (has q.(state_) kMarkSurfacesForRelease) eqn:Hm; cbn [negb andb]; eff;
    cbn [state_ set_state_];
    rewrite ?has_clear, ?has_set, ?Hm, ?Hr, ?has_mask_same;
    repeat (rewrite has_mask_other by discriminate);
    cbn [negb andb orb];
    rewrite ?has_clear, ?has_set, ?Hm, ?Hr, ?has_mask_same;
    repeat (rewrite has_mask_other by discriminate);
    cbn [negb andb orb];
    eexists _, _; (split; [reflexivity|]); cbn [state_ set_state_];
    (split; [first [solve [unfold events_since; apply drop_all]
                   | solve [apply events_since_app; ran]]|]);
    (split; [try reflexivity; now destruct q|]);
    repeat split; flag_test.
Qed.

Lemma ReleaseSurfacesAsNeeded_rest q (env : Env X) :
  has q.(state_) kMarkSurfacesForRelease = false ->
  has q.(state_) kReleaseSurfaces = false ->
  ReleaseSurfacesAsNeeded false q env = (Ok q, env).
Proof.
  intros Hm Hr. unfold ReleaseSurfacesAsNeeded. rewrite Hr. cbn [negb andb]. eff.
  now rewrite Hm.
Qed.

(** X14.  The release of free offscreen targets is deferred by two frames.
    After a frame whose layers were validated, the next frame without
    validation releases nothing and the one after it calls
    [ReleaseFreeOffScreenTargets] once; a further frame without validation
    changes nothing.  Only the two release flags of the state word are
    involved. *)
Theorem ReleaseSurfacesAsNeeded_schedule q (env : Env X) :
  exists q1 env1 q2 env2 q3 env3,
    ReleaseSurfacesAsNeeded true q env = (Ok q1, env1)
    /\ ReleaseSurfacesAsNeeded false q1 env1 = (Ok q2, env2)
    /\ ReleaseSurfacesAsNeeded false q2 env2 = (Ok q3, env3)
    /\ ReleaseSurfacesAsNeeded false q3 env3 = (Ok q3, env3)
    /\ events_since env env1 = []
    /\ events_since env1 env2 = []
    /\ events_since env2 env3 = [EvReleaseFreeOffScreenTargets]
    /\ (has q1.(state_) kMarkSurfacesForRelease = true
        /\ has q1.(state_) kReleaseSurfaces = false)
    /\ (has q2.(state_) kMarkSurfacesForRelease = false
        /\ has q2.(state_) kReleaseSurfaces = true)
    /\ (has q3.(state_) kMarkSurfacesForRelease = false
        /\ has q3.(state_) kReleaseSurfaces = false)
    /\ forall f, f <> kMarkSurfacesForRelease -> f <> kReleaseSurfaces ->
                 has q3.(state_) f = has q.(state_) f.
Proof.
  destruct (ReleaseSurfacesAsNeeded_run true q env)
    as (q1 & env1 & E1 & V1 & _ & M1 & R1 & O1).
  destruct (ReleaseSurfacesAsNeeded_run false q1 env1)
    as (q2 & env2 & E2 & V2 & _ & M2 & R2 & O2).
  destruct (ReleaseSurfacesAsNeeded_run false q2 env2)
    as (q3 & env3 & E3 & V3 & _ & M3 & R3 & O3).
  cbn [negb andb] in *.
  rewrite R1, M1 in R2. rewrite R1 in V2. cbn [negb andb] in R2.
  rewrite R2 in R3. rewrite R2 in V3. cbn [negb andb] in R3.
  exists q1, env1, q2, env2, q3, env3.
  repeat split; try assumption.
  - now apply ReleaseSurfacesAsNeeded_rest.
  - intros f F1 F2. now rewrite O3, O2, O1.
Qed.

End ReleaseSchedule.

(** ** Surfaces that are no longer in use *)

Section NotInUse.
Context {X : Type} `{Constants} `{Collaborators X}.





End NotInUse.

(** ** Media effects *)

Section MediaEffects.
Context {X : Type} `{Constants} `{Collaborators X}.

(** X16.  [SetMediaEffectsState] keeps the number and the order of the planes
    and returns every plane that is not a video plane as it was; when there
    is no video plane it changes nothing and reaches no collaborator. *)
Theorem SetMediaEffectsState_spares_other_planes (apply_effects : bool) layers
    planes surfaces_not_inuse (env : Env X) planes' surfaces_not_inuse' env' :
  SetMediaEffectsState apply_effects layers planes surfaces_not_inuse env
  = (Ok (planes', surfaces_not_inuse'), env') ->
  length planes' = length planes
  /\ (forall i plane,
        planes !! i = Some plane ->
        plane.(DisplayPlaneState.IsVideoPlane) = false ->
        planes' !! i = Some plane)
  /\ (Forall (fun plane => plane.(DisplayPlaneState.IsVideoPlane) = false) planes ->
      planes' = planes /\ surfaces_not_inuse' = surfaces_not_inuse /\ env' = env).
Proof.
  revert surfaces_not_inuse env planes' surfaces_not_inuse' env'.
  induction planes as [|plane planes IH]; intros sni env planes' sni' env' E.
  - cbn in E. injection E as <- <- <-. repeat split; auto.
  - cbn [SetMediaEffectsState] in E.
    apply bind_Ok in E as ([plane1 sni1] & env1 & E1 & E).
    apply bind_Ok in E as ([planes1 sni2] & env2 & E2 & E).
    injection E as <- <- <-.
    destruct (IH _ _ _ _ _ E2) as (Hlen & Hkeep & Hnone).
    split; [cbn; now rewrite Hlen|]. split.
    + intros [|i] p Hp Hv; cbn in Hp |- *.
      * injection Hp as ->. rewrite Hv in E1. cbn [negb] in E1.
        now injection E1 as <- _ _.
      * now apply Hkeep.
    + intros Hall. apply list.Forall_cons in Hall as [Hv Hall].
      rewrite Hv in E1. cbn [negb] in E1. injection E1 as <- <- <-.
      destruct (Hnone Hall) as (-> & -> & ->). auto.
Qed.

End MediaEffects.

(** ** Release fences *)

Section ReleaseFences.
Context {X : Type} `{Constants} `{Collaborators X}.

Lemma unfenced_insert (source_layers : list HwcLayer.t) i layer fd :
  source_layers !! i = Some layer ->
  map unfenced (<[i := HwcLayer.SetReleaseFence fd layer]> source_layers)
  = map unfenced source_layers.
Proof.
  intros Hl. change (map unfenced) with (fmap (M := list) unfenced).
  rewrite list_fmap_insert.
  apply list_insert_id. rewrite list_lookup_fmap, Hl. reflexivity.
Qed.

Lemma at_Ok {A : Type} (v : list A) i (env : Env X) a env' :
  at_ v i env = (Ok a, env') -> v !! i = Some a /\ env' = env.
Proof.
  unfold at_. destruct (v !! i); [|discriminate]. now intros [= -> ->].
Qed.

Lemma release_scanout_fences fence layers :
  forall in_flight_layers source_layers (env : Env X) r env',
    release_scanout fence layers in_flight_layers source_layers env = (Ok r, env') ->
    fences_only in_flight_layers source_layers r.
Proof.
  induction layers as [|index rest IH]; intros ifl sl env r env' E.
  - cbn in E. injection E as <- _. now split.
  - cbn [release_scanout] in E.
    apply bind_Ok in E as (ol & env1 & E1 & E). apply at_Ok in E1 as [H1 ->].
    apply bind_Ok in E as (l & env1 & E1 & E). apply at_Ok in E1 as [H2 ->].
    apply bind_Ok in E as (fd & env1 & _ & E).
    destruct (IH _ _ _ _ _ E) as [L1 L2]. split.
    + now rewrite L1, length_insert.
    + rewrite L2. now apply unfenced_insert.
Qed.

Lemma release_composed_fences release_fence layers :
  forall in_flight_layers source_layers (env : Env X) r env',
    release_composed release_fence layers in_flight_layers source_layers env
    = (Ok r, env') ->
    fences_only in_flight_layers source_layers r.
Proof.
  induction layers as [|index rest IH]; intros ifl sl env r env' E.
  - cbn in E. injection E as <- _. now split.
  - cbn [release_composed] in E.
    apply bind_Ok in E as (ol & env1 & E1 & E). apply at_Ok in E1 as [H1 ->].
    apply bind_Ok in E as (l & env1 & E1 & E). apply at_Ok in E1 as [H2 ->].
    apply bind_Ok in E as ([ifl1 sl1] & env1 & E1 & E).
    destruct (IH _ _ _ _ _ E) as [L1 L2]. 
    assert (Hstep : fences_only ifl sl (ifl1, sl1)).
    { destruct (release_fence >? 0).
      - apply bind_Ok in E1 as (fd & env2 & _ & E1). injection E1 as <- <- _.
        split; cbn [fst snd]; [apply length_insert|now apply unfenced_insert].
      - destruct (ReleaseAcquireFence _) as [temp ol'].
        destruct (temp >? 0); injection E1 as <- <- _; split; cbn [fst snd];
          rewrite ?length_insert; try reflexivity.
        now apply unfenced_insert. }
    destruct Hstep as [S1 S2]. cbn [fst snd] in S1, S2. split; congruence.
Qed.

Lemma release_planes_fences fence planes :
  forall in_flight_layers source_layers (env : Env X) r env',
    release_planes fence planes in_flight_layers source_layers env = (Ok r, env') ->
    fences_only in_flight_layers source_layers r.
Proof.
  induction planes as [|plane rest IH]; intros ifl sl env r env' E.
  - cbn in E. injection E as <- _. now split.
  - cbn [release_planes] in E.
    apply bind_Ok in E as ([ifl1 sl1] & env1 & E1 & E).
    destruct (IH _ _ _ _ _ E) as [L1 L2].
    assert (Hstep : fences_only ifl sl (ifl1, sl1)).
    { destruct (_ && _).
      - exact (release_scanout_fences _ _ _ _ _ _ _ E1).
      - apply bind_Ok in E1 as (rf & env2 & _ & E1).
        apply bind_Ok in E1 as (r1 & env3 & E3 & E1).
        apply bind_Ok in E1 as (? & env4 & _ & E1). injection E1 as <- _.
        exact (release_composed_fences _ _ _ _ _ _ _ E3). }
    destruct Hstep as [S1 S2]. cbn [fst snd] in S1, S2. split; congruence.
Qed.

(** X17.  [SetReleaseFenceToLayers] changes nothing of the caller's layers but
    their release fences, keeps the number of the caller's layers and of the
    in-flight layers, and changes no field of the queue but
    [in_flight_layers_]; with no plane committed it changes nothing at
    all. *)
Theorem SetReleaseFenceToLayers_only_fences fence source_layers q (env : Env X)
    q' layers env' :
  SetReleaseFenceToLayers fence source_layers q env = (Ok (q', layers), env') ->
  map unfenced layers = map unfenced source_layers
  /\ length layers = length source_layers
  /\ length q'.(in_flight_layers_) = length q.(in_flight_layers_)
  /\ q' = set_in_flight_layers_ q'.(in_flight_layers_) q
  /\ (q.(previous_plane_state_) = [] ->
      layers = source_layers /\ q' = q /\ env' = env).
Proof.
  unfold SetReleaseFenceToLayers. intros E.
  apply bind_Ok in E as ([ifl sl] & env1 & E1 & E). injection E as <- <- <-.
  destruct (release_planes_fences _ _ _ _ _ _ _ E1) as [L1 L2].
  cbn [fst snd] in L1, L2. split; [exact L2|]. split.
  { apply (f_equal length) in L2. now rewrite !length_map in L2. }
  split; [exact L1|]. split; [reflexivity|].
  intros Hnone. rewrite Hnone in E1. cbn in E1. injection E1 as <- <- <-.
  repeat split. now destruct q.
Qed.

Lemma at_missing {A : Type} (v : list A) i (env : Env X) res env' :
  (length v <= i)%nat -> at_ v i env = (res, env') -> res = OutOfRange.
Proof.
  intros Hi. unfold at_. rewrite (lookup_ge_None_2 _ _ Hi). now intros [= <- _].
Qed.

Lemma release_scanout_missing fence layers :
  forall in_flight_layers source_layers (env : Env X) res env',
    Exists (fun index => (length in_flight_layers <= index)%nat) layers ->
    release_scanout fence layers in_flight_layers source_layers env = (res, env') ->
    res = OutOfRange.
Proof.
  induction layers as [|index rest IH]; intros ifl sl env res env' Hbad E.
  - now apply List.Exists_nil in Hbad.
  - cbn [release_scanout] in E.
    apply bind_run in E as [(ol & env1 & E1 & E)|[_ ->]]; [|reflexivity].
    apply at_Ok in E1 as [H1 ->].
    apply bind_run in E as [(l & env1 & E1 & E)|[_ ->]]; [|reflexivity].
    apply bind_run in E as [(fd & env2 & _ & E)|[_ ->]]; [|reflexivity].
    apply List.Exists_cons in Hbad as [Hbad|Hbad].
    + apply lookup_lt_Some in H1. lia.
    + refine (IH _ _ _ _ _ _ E). now rewrite length_insert.
Qed.

Lemma release_composed_missing release_fence layers :
  forall in_flight_layers source_layers (env : Env X) res env',
    Exists (fun index => (length in_flight_layers <= index)%nat) layers ->
    release_composed release_fence layers in_flight_layers source_layers env
    = (res, env') ->
    res = OutOfRange.
Proof.
  induction layers as [|index rest IH]; intros ifl sl env res env' Hbad E.
  - now apply List.Exists_nil in Hbad.
  - cbn [release_composed] in E.
    apply bind_run in E as [(ol & env1 & E1 & E)|[_ ->]]; [|reflexivity].
    apply at_Ok in E1 as [H1 ->].
    apply bind_run in E as [(l & env1 & E1 & E)|[_ ->]]; [|reflexivity].
    apply at_Ok in E1 as [H2 ->].
    apply bind_run in E as [([ifl1 sl1] & env2 & E1 & E)|[_ ->]]; [|reflexivity].
    apply List.Exists_cons in Hbad as [Hbad|Hbad].
    + apply lookup_lt_Some in H1. lia.
    + refine (IH _ _ _ _ _ _ E).
      assert (Hlen : length ifl1 = length ifl); [|now rewrite Hlen].
      destruct (release_fence >? 0).
      * apply bind_Ok in E1 as (fd & env3 & _ & E1). injection E1 as <- _ _.
        apply length_insert.
      * destruct (ReleaseAcquireFence _) as [temp ol'].
        destruct (temp >? 0); injection E1 as <- _ _; now rewrite !length_insert.
Qed.

Lemma release_planes_missing fence planes :
  forall in_flight_layers source_layers (env : Env X) res env',
    Exists (names_missing_layer (length in_flight_layers)) planes ->
    release_planes fence planes in_flight_layers source_layers env = (res, env') ->
    res = OutOfRange.
Proof.
  induction planes as [|plane rest IH]; intros ifl sl env res env' Hbad E.
  - now apply List.Exists_nil in Hbad.
  - cbn [release_planes] in E.
    apply bind_run in E as [([ifl1 sl1] & env1 & E1 & E)|[_ ->]]; [|reflexivity].
    assert (Hstep : fences_only ifl sl (ifl1, sl1)
                    /\ ~ names_missing_layer (length ifl) plane).
    { destruct (_ && _).
      - split; [exact (release_scanout_fences _ _ _ _ _ _ _ E1)|].
        intros Hm. now pose proof (release_scanout_missing _ _ _ _ _ _ _ Hm E1).
      - apply bind_Ok in E1 as (rf & env2 & _ & E1).
        apply bind_Ok in E1 as (r1 & env3 & E3 & E1).
        apply bind_Ok in E1 as (? & env4 & _ & E1). injection E1 as <- _.
        split; [exact (release_composed_fences _ _ _ _ _ _ _ E3)|].
        intros Hm. now pose proof (release_composed_missing _ _ _ _ _ _ _ Hm E3). }
    destruct Hstep as [[S1 _] Hok]. cbn [fst] in S1.
    apply List.Exists_cons in Hbad as [Hbad|Hbad]; [contradiction|].
    refine (IH _ _ _ _ _ _ E). now rewrite S1.
Qed.

(** X18.  [SetReleaseFenceToLayers] throws [std::out_of_range] whenever a
    plane of [previous_plane_state_] names a source layer that
    [in_flight_layers_] does not hold. *)
Theorem SetReleaseFenceToLayers_out_of_range fence source_layers q (env : Env X)
    res env' :
  Exists (names_missing_layer (length q.(in_flight_layers_)))
    q.(previous_plane_state_) ->
  SetReleaseFenceToLayers fence source_layers q env = (res, env') ->
  res = OutOfRange.
Proof.
  unfold SetReleaseFenceToLayers. intros Hbad E.
  apply bind_run in E as [(r & env1 & E1 & _)|[_ ->]]; [|reflexivity].
  now pose proof (release_planes_missing _ _ _ _ _ _ _ Hbad E1).
Qed.

End ReleaseFences.

(** ** The cached planes of an unchanged layer stack *)

Section Caching.
Context {X : Type} `{Constants} `{Collaborators X}.

Lemma cache_damage_caching layers full_reset indices :
  forall last_plane d,
    emits is_caching (fun _ => True)
      (cache_damage layers full_reset indices last_plane d).
Proof.
  induction indices as [|i rest IH]; intros; simpl.
  - emits_walk.
  - emits_walk; intros; apply IH.
Qed.

Lemma cache_offscreen_kept layers clear_surface last_plane st :
  emits is_caching (fun r => cache_kept 0 st (snd r))
    (cache_offscreen layers clear_surface last_plane st).
Proof.
  unfold cache_offscreen.
  apply (emits_bind _ (fun _ => True)).
  { destruct (negb _); [apply cache_damage_caching|emits_walk]. }
  intros [lp d] _.
  apply (emits_bind _ (fun r => cache_kept 0 st (snd r))).
  { destruct (_ || _).
    - apply (emits_bind _ (fun _ => True)); [emits_walk|]. intros plane _.
      apply emits_ret. cbn [snd]. destruct (negb _); cbn; unfold cache_kept; cbn;
        auto with arith.
    - apply emits_ret. unfold cache_kept. cbn. auto with arith. }
  intros [lp2 st2] Hst. cbn [snd] in Hst.
  apply (emits_bind _ (fun _ => True)); [emits_walk|]. intros lp3 _.
  apply emits_ret. cbn [snd]. destruct Hst as (S1 & S2 & S3).
  destruct (negb _); unfold cache_kept; cbn; auto.
Qed.

Lemma cache_scanout_kept layers gpu_fd last_plane st :
  emits is_caching
    (fun r =>
       match r with
       | Next (_, st') => cache_kept 0 st st'
       | Continue st' | Return st' =>
           st'.(CacheLoop.surfaces_not_inuse) = st.(CacheLoop.surfaces_not_inuse)
       end)
    (cache_scanout layers gpu_fd last_plane st).
Proof.
  unfold cache_scanout.
  apply (emits_bind _ (fun _ => True)); [emits_walk|]. intros front _.
  apply (emits_bind _ (fun _ => True)); [emits_walk|]. intros layer _.
  apply (emits_bind _ (fun _ => True)); [emits_walk|]. intros fb _.
  apply (emits_bind _
           (fun created =>
              match created with
              | Some st' => cache_kept 0 st st'
              | None => True
              end)).
  { destruct (fb =? 0).
    - apply (emits_bind _ (fun _ => True)); [emits_walk|]. intros _ _.
      apply (emits_bind _ (fun _ => True)); [emits_walk|]. intros fb' _.
      destruct (fb' =? 0); apply emits_ret; [exact I|].
      unfold cache_kept. cbn. auto with arith.
    - apply emits_ret. unfold cache_kept. cbn. auto with arith. }
  intros [st1|] Hst.
  - apply (emits_bind _ (fun _ => True)); [emits_walk|]. intros lp _.
    apply emits_ret. destruct Hst as (S1 & S2 & S3).
    destruct (OverlayLayer.HasLayerContentChanged layer), (_ || _ || _);
      unfold cache_kept; cbn; auto.
  - apply emits_ret. reflexivity.
Qed.

Lemma cache_plane_kept layers primary gpu_fd previous_plane st :
  emits is_caching
    (fun r =>
       match r with
       | Next st' => cache_kept 1 st st'
       | Continue st' | Return st' =>
           st'.(CacheLoop.surfaces_not_inuse) = st.(CacheLoop.surfaces_not_inuse)
       end)
    (cache_plane layers (-1) primary gpu_fd previous_plane st).
Proof.
  unfold cache_plane. cbn [Z.eqb Pos.eqb negb].
  apply (emits_bind _ (fun _ => True)); [emits_walk|]. intros last_plane _.
  apply (emits_bind _ (fun r => r = Next (last_plane, false, st)));
    [now apply emits_ret|].
  intros ? ->.
  destruct (DisplayPlaneState.NeedsOffScreenComposition last_plane).
  - eapply emits_bind; [apply cache_offscreen_kept|].
    intros [lp st1] (S1 & S2 & S3). cbn [snd] in *. apply emits_ret.
    unfold cache_kept. cbn. rewrite length_app. cbn. repeat split; auto. lia.
  - eapply emits_bind; [apply cache_scanout_kept|].
    intros [[lp st1]|st1|st1] Hst; apply emits_ret; try exact Hst.
    destruct Hst as (S1 & S2 & S3).
    unfold cache_kept. cbn. rewrite length_app. cbn. repeat split; auto. lia.
Qed.

Lemma cache_planes_kept layers primary gpu_fd planes :
  forall st,
    emits is_caching
      (fun r =>
         match r with
         | Next st' => cache_kept (length planes) st st'
         | Continue st' | Return st' =>
             st'.(CacheLoop.surfaces_not_inuse) = st.(CacheLoop.surfaces_not_inuse)
         end)
      (cache_planes layers (-1) primary gpu_fd planes st).
Proof.
  induction planes as [|plane planes IH]; intros st; cbn [cache_planes length].
  - apply emits_ret. unfold cache_kept. auto with arith.
  - eapply emits_bind; [apply cache_plane_kept|].
    intros [st1|st1|st1] Hst; try (apply emits_ret; exact Hst).
    destruct Hst as (S1 & S2 & S3).
    eapply emits_weaken; [apply IH|auto|].
    intros [st2|st2|st2]; try congruence.
    intros (T1 & T2 & T3). unfold cache_kept. repeat split; try congruence. lia.
Qed.

(** X19.  [GetCachedLayers] when no layer has been removed
    ([remove_index = -1]): [surfaces_not_inuse_] is returned unchanged;
    unless full validation is forced there is exactly one cached plane per
    plane of the previous frame; a commit that can be ignored needs no GPU
    rendering and no full validation; the only collaborators reached are
    the creation of a framebuffer and the allocation of an offscreen target.
    With no previous plane the result is empty and the commit can be
    ignored. *)
Theorem GetCachedLayers_nothing_removed layers q (env : Env X) c env' :
  GetCachedLayers layers (-1) q env = (Ok c, env') ->
  c.(cached_surfaces_not_inuse) = q.(surfaces_not_inuse_)
  /\ (c.(force_full_validation) = false ->
      length c.(cached_composition) = length q.(previous_plane_state_))
  /\ (c.(can_ignore_commit) = true ->
      c.(render_layers) = false /\ c.(force_full_validation) = false)
  /\ Forall (fun e => is_caching e = true) (events_since env env')
  /\ (q.(previous_plane_state_) = [] ->
      c.(cached_composition) = [] /\ c.(can_ignore_commit) = true /\ env' = env).
Proof.
  unfold GetCachedLayers. intros E.
  apply bind_Ok in E as (scan & env1 & E1 & E).
  pose proof E1 as E1'.
  apply cache_planes_kept in E1 as (new & Ht & Hnew & Hscan).
  specialize (Hscan _ eq_refl).
  destruct scan as [st|st|st].
  - destruct Hscan as (S1 & S2 & S3). cbn in S1, S2, S3.
    rewrite S2 in E. cbn in E. injection E as <- <-.
    cbn [cached_surfaces_not_inuse cached_composition force_full_validation
         can_ignore_commit render_layers].
    split; [exact S1|]. split; [intros _; exact S3|]. split.
    { destruct (CacheLoop.needs_gpu_composition st); [discriminate|auto]. }
    split; [now rewrite (events_since_app _ _ _ Ht)|].
    intros Hnone. rewrite Hnone in E1'. cbn in E1'. injection E1' as <- <-.
    cbn. auto.
  - cbn in E. injection E as <- <-. cbn.
    split; [exact Hscan|]. split; [discriminate|]. split; [discriminate|].
    split; [now rewrite (events_since_app _ _ _ Ht)|].
    intros Hnone. rewrite Hnone in E1'. discriminate E1'.
  - cbn in E. injection E as <- <-. cbn.
    split; [exact Hscan|]. split; [discriminate|]. split; [discriminate|].
    split; [now rewrite (events_since_app _ _ _ Ht)|].
    intros Hnone. rewrite Hnone in E1'. discriminate E1'.
Qed.

End Caching.

(** ** Rotation *)

Section Rotation.
Context {X : Type} `{Constants} `{Collaborators X}.
Variables kTransform90 kTransform180 kTransform270 : Z.
Variable SetDisplayTransform : Z -> Outside X -> Outside X.

Local Abbreviation rotation_bits :=
  (rotation_bits kTransform90 kTransform180 kTransform270).
Local Abbreviation rotate_all :=
  (rotate_all kTransform90 kTransform180 kTransform270 SetDisplayTransform).

Lemma RotateDisplay_run rotation q (env : Env X) :
  RotateDisplay kTransform90 kTransform180 kTransform270 SetDisplayTransform
    rotation q env
  = (Ok (set_plane_transform_ (Z.lor q.(plane_transform_) (rotation_bits rotation)) q),
     {| outside :=
          SetDisplayTransform (Z.lor q.(plane_transform_) (rotation_bits rotation))
            env.(outside);
        trace := env.(trace) |}).
Proof.
  unfold RotateDisplay. eff.
  destruct rotation as [[]|]; cbn [rotation_bits]; rewrite ?Z.lor_0_r; reflexivity.
Qed.

Lemma rotate_all_run rotations :
  forall q (env : Env X),
  exists o',
    rotate_all rotations q env
    = (Ok (set_plane_transform_
             (fold_left Z.lor (map rotation_bits rotations) q.(plane_transform_)) q),
       {| outside := o'; trace := env.(trace) |}).
Proof.
  induction rotations as [|rotation rest IH]; intros q env.
  - exists env.(outside). cbn. now destruct q, env.
  - cbn [rotate_all]. unfold mbind, Eff_bind. rewrite RotateDisplay_run.
    destruct (IH (set_plane_transform_
                    (Z.lor q.(plane_transform_) (rotation_bits rotation)) q)
                 {| outside :=
                      SetDisplayTransform
                        (Z.lor q.(plane_transform_) (rotation_bits rotation))
                        env.(outside);
                    trace := env.(trace) |}) as (o' & E).
    exists o'. rewrite E. reflexivity.
Qed.

Lemma fold_lor_testbit (l : list Z) (z : Z) (n : Z) :
  Z.testbit (fold_left Z.lor l z) n
  = Z.testbit z n || existsb (fun b => Z.testbit b n) l.
Proof.
  revert z. induction l as [|b l IH]; intros z; cbn.
  - now rewrite orb_false_r.
  - rewrite IH, Z.lor_spec. now rewrite orb_assoc.
Qed.

(** X20.  Rotations accumulate.  After any sequence of [RotateDisplay] calls
    a bit of [plane_transform_] is set exactly when it was set before or
    belongs to one of the requested rotations: no request clears a bit, the
    order of the requests does not matter, and [kRotateNone] (or a value
    that is no enumerator) leaves the queue as it is.  No other field
    changes and no traced collaborator is reached. *)
Theorem RotateDisplay_accumulates rotations q (env : Env X) :
  exists q' env',
    rotate_all rotations q env = (Ok q', env')
    /\ q' = set_plane_transform_ q'.(plane_transform_) q
    /\ env'.(trace) = env.(trace)
    /\ (forall n,
          Z.testbit q'.(plane_transform_) n
          = Z.testbit q.(plane_transform_) n
            || existsb (fun rotation => Z.testbit (rotation_bits rotation) n)
                 rotations)
    /\ (Forall (fun rotation => rotation = Some kRotateNone \/ rotation = None)
          rotations ->
        q' = q).
Proof.
  destruct (rotate_all_run rotations q env) as (o' & E).
  do 2 eexists. split; [exact E|]. cbn [plane_transform_ set_plane_transform_ trace].
  split; [reflexivity|]. split; [reflexivity|]. split.
  - intros n. rewrite fold_lor_testbit. f_equal. clear E.
    induction rotations as [|r rest IH]; [reflexivity|]. cbn. now f_equal.
  - intros Hnone.
    assert (Hfold : fold_left Z.lor (map rotation_bits rotations) q.(plane_transform_)
                    = q.(plane_transform_)).
    { clear E. induction Hnone as [|r rest [-> | ->] _ IH]; cbn;
        rewrite ?Z.lor_0_r; auto. }
    rewrite Hfold. now destruct q.
Qed.

End Rotation.

(** ** The further properties on the sample platform *)

Section FurtherSample.
Import Sample.

(** On the sample platform a first frame is committed once. *)
Lemma QueueUpdate_commits_at_most_once_witness :
  (count is_commit
     (events_since (world true true 7)
        (snd (QueueUpdate [layer 5] (-1) false false queue0 (world true true 7))))
   <= 1)%nat.
Proof.
  exact (proj1 (QueueUpdate_commits_at_most_once [layer 5] (-1) false false queue0
                  (world true true 7) _ _ (surjective_pairing _))).
Defined.

(** On the sample platform a frame whose commit is refused returns failure
    and sets the flag. *)
Lemma QueueUpdate_result_and_flag_witness :
  exists u env',
    QueueUpdate [layer 5] (-1) false false queue0 (world true false 7) = (Ok u, env')
    /\ IgnoreUpdate
         (ScopedIdleStateTracker_enter queue0.(idle_tracker_)
            (world true false 7).(outside)).1 = false
    /\ u.(queue).(last_commit_failed_update_) = negb u.(result).
Proof.
  eexists _, _. split; [vm_compute; reflexivity|].
  assert (Hi : IgnoreUpdate
                 (ScopedIdleStateTracker_enter queue0.(idle_tracker_)
                    (world true false 7).(outside)).1 = false)
    by (vm_compute; reflexivity).
  split; [exact Hi|].
  refine (proj2 (QueueUpdate_result_and_flag [layer 5] (-1) false false queue0
                   (world true false 7) _ _ Hi _)).
  vm_compute. reflexivity.
Defined.

(** On the sample platform, with the flag clear, a committed frame pushes
    no color correction. *)
Lemma QueueUpdate_color_only_when_flagged_witness :
  has (set_state_ 0 queue0).(state_) kNeedsColorCorrection = false
  /\ count is_color_correction
       (events_since (world true true 7)
          (snd (QueueUpdate [layer 5] (-1) false false (set_state_ 0 queue0)
                  (world true true 7)))) = 0%nat.
Proof.
  assert (Hc : has (set_state_ 0 queue0).(state_) kNeedsColorCorrection = false)
    by (vm_compute; reflexivity).
  split; [exact Hc|].
  exact (proj1 (QueueUpdate_color_only_when_flagged [layer 5] (-1) false false
                  (set_state_ 0 queue0) (world true true 7) _ _ Hc
                  (surjective_pairing _))).
Defined.

(** On the sample platform, whose build is single-buffered: the queue
    retains the out-fence 7 of a first frame; the second frame, committed
    with the out-fence 8, polls and closes 7 before its commit. *)
Lemma QueueUpdate_closes_retained_fence_witness :
  exists u env' before after,
    QueueUpdate [layer 6] (-1) false false (after_frame [layer 5] queue0)
      (world true true 8) = (Ok u, env')
    /\ u.(queue).(kms_fence_) = 8
    /\ events_since (world true true 8) env'
       = before ++ [EvHWCPoll 7; EvClose 7] ++ after
    /\ count is_commit before = 0%nat
    /\ count is_commit after = 1%nat.
Proof.
  edestruct (QueueUpdate_closes_retained_fence [layer 6] (-1) false false
               (after_frame [layer 5] queue0) (world true true 8))
    as (before & after & H1 & H2 & H3).
  - reflexivity.
  - vm_compute. reflexivity.
  - vm_compute. reflexivity.
  - vm_compute. discriminate.
  - eexists _, _, before, after. split; [vm_compute; reflexivity|].
    split; [reflexivity|]. split; [exact H1|]. split; [exact H2|exact H3].
Defined.

(** On the sample platform the first frame of a queue is validated from
    index 0 and committed. *)
Lemma QueueUpdate_validates_from_scratch_witness :
  exists u env',
    QueueUpdate [layer 5] (-1) false false queue0 (world true true 7) = (Ok u, env')
    /\ initial_validate_layers queue0 = true
    /\ Exists (fun e => e = EvValidateLayers 0) (events_since (world true true 7) env')
    /\ has u.(queue).(state_) kConfigurationChanged = false.
Proof.
  eexists _, _. split; [vm_compute; reflexivity|].
  assert (Hv : initial_validate_layers queue0 = true) by reflexivity.
  split; [exact Hv|].
  edestruct (QueueUpdate_validates_from_scratch [layer 5] (-1) false false queue0
               (world true true 7)) as (H1 & _ & H3).
  - exact Hv.
  - vm_compute. reflexivity.
  - vm_compute. reflexivity.
  - split; [exact H1|exact H3].
Defined.

(** On the sample platform, where a callback is registered: after power
    off, eight vblank ticks invoke nothing. *)
Lemma power_off_silences_refresh_witness :
  0 <= kidleframes < 2 ^ 32 - 1
  /\ exists q0 env0,
      SetPowerMode (Some kOff) (set_state_ (mask kPoweredOn) queue0)
        (world true true 7) = (Ok (true, q0), env0)
      /\ has q0.(state_) kPoweredOn = false
      /\ exists q2 env3,
          idle_run 8 q0 env0 = (Ok q2, env3)
          /\ count is_refresh_callback (events_since env0 env3) = 0%nat.
Proof.
  assert (Hk : 0 <= kidleframes < 2 ^ 32 - 1)
    by (vm_compute; split; [discriminate | reflexivity]).
  split; [exact Hk|].
  destruct (power_off_silences_refresh false (set_state_ (mask kPoweredOn) queue0)
              (world true true 7) Hk) as (q0 & env0 & E & Hp & _ & _ & Hrun).
  exists q0, env0. split; [exact E|]. split; [exact Hp|]. exact (Hrun 8%nat env0).
Defined.

(** On the sample platform, where [kidleframes] is 3: five vblank ticks on
    a powered-on queue invoke the callback once. *)
Lemma idle_refresh_fires_on_time_witness :
  0 <= kidleframes < 2 ^ 32 - 1
  /\ idle_blocked (set_state_ (mask kPoweredOn) queue0).(idle_tracker_) = false
  /\ refresh_allowed (set_state_ (mask kPoweredOn) queue0) = true
  /\ exists q' env',
      idle_run 5 (set_state_ (mask kPoweredOn) queue0) (world true true 7)
      = (Ok q', env')
      /\ List.filter is_refresh_callback (events_since (world true true 7) env')
         = [EvRefreshCallback 0].
Proof.
  assert (Hk : 0 <= kidleframes < 2 ^ 32 - 1)
    by (vm_compute; split; [discriminate | reflexivity]).
  assert (Hb : idle_blocked (set_state_ (mask kPoweredOn) queue0).(idle_tracker_)
               = false) by (vm_compute; reflexivity).
  assert (Ha : refresh_allowed (set_state_ (mask kPoweredOn) queue0) = true)
    by (vm_compute; reflexivity).
  assert (Hi : 0 <= (set_state_ (mask kPoweredOn) queue0).(idle_tracker_)
                      .(FrameStateTracker.idle_frames_) <= kidleframes)
    by (vm_compute; split; discriminate).
  split; [exact Hk|]. split; [exact Hb|]. split; [exact Ha|].
  exact (idle_refresh_fires_on_time 5 (set_state_ (mask kPoweredOn) queue0)
           (world true true 7) Hk Hb Ha Hi).
Defined.


(** Two planes that are not video planes come back as they were. *)
Lemma SetMediaEffectsState_spares_other_planes_witness :
  exists planes' surfaces_not_inuse' env',
    SetMediaEffectsState true [] [scanout_plane 0; scanout_plane 1] []
      (world true true 7) = (Ok (planes', surfaces_not_inuse'), env')
    /\ length planes' = 2%nat
    /\ planes' !! 1%nat = Some (scanout_plane 1).
Proof.
  eexists _, _, _. split; [vm_compute; reflexivity|].
  edestruct (SetMediaEffectsState_spares_other_planes true []
               [scanout_plane 0; scanout_plane 1] [] (world true true 7))
    as (H1 & H2 & _).
  - vm_compute. reflexivity.
  - split; [exact H1|]. exact (H2 1%nat (scanout_plane 1) eq_refl eq_refl).
Defined.

(** On the sample platform, after one committed frame: the layer of the
    next distribution gets a duplicate of the fence and nothing else of it
    changes. *)
Lemma SetReleaseFenceToLayers_only_fences_witness :
  exists q' layers env',
    SetReleaseFenceToLayers 9 [layer 5] (after_frame [layer 5] queue0)
      (world true true 7) = (Ok (q', layers), env')
    /\ map HwcLayer.release_fd_ layers = [109]
    /\ map unfenced layers = map unfenced [layer 5].
Proof.
  eexists _, _, _. split; [vm_compute; reflexivity|]. split; [reflexivity|].
  refine (proj1 (SetReleaseFenceToLayers_only_fences 9 [layer 5]
                   (after_frame [layer 5] queue0) (world true true 7) _ _ _ _)).
  vm_compute. reflexivity.
Defined.

(** A plane that names layer 0 while no layer is in flight. *)
Lemma SetReleaseFenceToLayers_out_of_range_witness :
  Exists (names_missing_layer
            (length (set_previous_plane_state_ [scanout_plane 0] queue0)
                      .(in_flight_layers_)))
    (set_previous_plane_state_ [scanout_plane 0] queue0).(previous_plane_state_)
  /\ fst (SetReleaseFenceToLayers 9 [layer 5]
            (set_previous_plane_state_ [scanout_plane 0] queue0)
            (world true true 7))
     = OutOfRange.
Proof.
  assert (Hbad : Exists (names_missing_layer
                           (length (set_previous_plane_state_ [scanout_plane 0]
                                      queue0).(in_flight_layers_)))
                   (set_previous_plane_state_ [scanout_plane 0] queue0)
                     .(previous_plane_state_)).
  { apply Exists_cons_hd. apply Exists_cons_hd. apply le_n. }
  split; [exact Hbad|].
  exact (SetReleaseFenceToLayers_out_of_range 9 [layer 5]
           (set_previous_plane_state_ [scanout_plane 0] queue0)
           (world true true 7) _ _ Hbad (surjective_pairing _)).
Defined.

(** On the sample platform, after one committed frame: the cached planes
    of the same layers. *)
Lemma GetCachedLayers_nothing_removed_witness :
  exists c env',
    GetCachedLayers (after_frame [layer 5] queue0).(in_flight_layers_) (-1)
      (after_frame [layer 5] queue0) (world true true 7) = (Ok c, env')
    /\ c.(force_full_validation) = false
    /\ length c.(cached_composition) = 1%nat
    /\ c.(cached_surfaces_not_inuse) = [].
Proof.
  eexists _, _. split; [vm_compute; reflexivity|]. split; [reflexivity|].
  edestruct (GetCachedLayers_nothing_removed
               (after_frame [layer 5] queue0).(in_flight_layers_)
               (after_frame [layer 5] queue0) (world true true 7))
    as (H1 & H2 & _).
  - vm_compute. reflexivity.
  - split; [exact (H2 eq_refl)|exact H1].
Defined.


End FurtherSample.
